(** * generate_compose.py: Docker Compose generation from a scenario TOML

    A shallow embedding of [src/generate_compose.py] and the properties of
    its validator, its three text generators and its command-line driver.

    Conventions of the embedding.
    - A Python [str] is a [string]; one [ascii] stands for one code point
      below 256.
    - A TOML value is a [value]; a table is an association list in document
      order, which is the iteration order of the Python dict that [tomli]
      builds.
    - Python's run-time failures are explicit: every operation that can
      raise returns a [res].
    - The objects the code mutates in place (the list [lines], the two
      accumulators of [generate_env_example]) and the object it shares
      between calls (the parsed document) live in a [world] that the
      functions thread; console output and file-system effects are recorded
      in the world's trace.
    - What lies outside the program is given to it: what [argparse] makes
      of the command line is an [invocation], what the driver finds at the
      input path is a [file_state], and whether [mkdir] and [open] for
      writing fail is read from the [disk] of the world.  What Python
      writes on stderr (the usage message of [argparse], the traceback of
      an exception nobody catches) is not recorded. *)

From Stdlib Require Import String Ascii List ZArith Bool Arith Lia.
From Stdlib Require Import DecimalString.
Import ListNotations.
Local Open Scope list_scope.
Local Open Scope string_scope.

(* ===================================================================== *)
(** ** Python values *)
(* ===================================================================== *)

(** What [tomli.load] can put into the document.  A float is kept as the
    text Python prints for it; a date or time object is kept as the two
    texts [str()] and [repr()] give for it. *)
#[local] Set Warnings "-register-all".
Inductive value : Type :=
| VStr (s : string)
| VBool (b : bool)
| VInt (z : Z)
| VFloat (text : string)
| VOther (as_str as_repr : string)
| VList (l : list value)
| VDict (d : list (string * value)).

Definition dict := list (string * value).

(** The exceptions the program can die of; [OSError] stands for itself
    and its subclasses ([FileExistsError], [NotADirectoryError],
    [IsADirectoryError], [PermissionError]). *)
Inductive exc : Type := KeyError | TypeError | AttributeError | OSError.

(** Outcome of running a piece of Python: a value, [sys.exit(code)], or an
    exception nobody catches. *)
Inductive res (A : Type) : Type :=
| Ok (a : A)
| Exit (code : Z)
| Raise (e : exc).
Arguments Ok {A} a.
Arguments Exit {A} code.
Arguments Raise {A} e.

(* --------------------------------------------------------------------- *)
(** *** Strings *)

Definition nl : string := String "010"%char "".
Definition dquote : ascii := Ascii false true false false false true false false.
Definition dq : string := String dquote "".

(** [s] between double quotes *)
Definition quoted (s : string) : string := dq ++ s ++ dq.

(** ["sep".join(xs)] *)
Fixpoint join (sep : string) (xs : list string) : string :=
  match xs with
  | [] => ""
  | [x] => x
  | x :: rest => x ++ sep ++ join sep rest
  end.

(** [needle in hay] for two strings *)
Fixpoint is_substring (needle hay : string) : bool :=
  if String.prefix needle hay then true
  else match hay with
       | EmptyString => false
       | String _ rest => is_substring needle rest
       end.

Fixpoint chars (s : string) : list string :=
  match s with
  | EmptyString => []
  | String c rest => String c "" :: chars rest
  end.

(** [str.isspace] on one code point below 256 *)
Definition is_space (c : ascii) : bool :=
  let n := nat_of_ascii c in
  (((9 <=? n) && (n <=? 13)) || ((28 <=? n) && (n <=? 32))
   || (n =? 133) || (n =? 160))%nat.

Fixpoint lstrip (s : string) : string :=
  match s with
  | EmptyString => EmptyString
  | String c rest => if is_space c then lstrip rest else s
  end.

Fixpoint rstrip (s : string) : string :=
  match s with
  | EmptyString => EmptyString
  | String c rest =>
      match rstrip rest with
      | EmptyString => if is_space c then EmptyString else String c EmptyString
      | r => String c r
      end
  end.

(** [s.strip()] *)
Definition strip (s : string) : string := rstrip (lstrip s).

(** [str(z)] for an int *)
Definition str_of_int (z : Z) : string := NilZero.string_of_int (Z.to_int z).

Definition hex_digit (n : nat) : ascii :=
  ascii_of_nat (if (n <? 10)%nat then 48 + n else 87 + n).

(** [repr] of one character inside quotes [q] *)
Definition repr_char (q : ascii) (c : ascii) : string :=
  let n := nat_of_ascii c in
  if Ascii.eqb c q || Ascii.eqb c "\"%char then String "\"%char (String c "")
  else if (n =? 9)%nat then "\t"
  else if (n =? 10)%nat then "\n"
  else if (n =? 13)%nat then "\r"
  else if ((n <? 32) || (n =? 127) || ((128 <=? n) && (n <=? 160))
           || (n =? 173))%nat
       then String "\"%char (String "x"%char
              (String (hex_digit (n / 16)) (String (hex_digit (n mod 16)) "")))
  else String c "".

Fixpoint has_char (c : ascii) (s : string) : bool :=
  match s with
  | EmptyString => false
  | String d rest => Ascii.eqb c d || has_char c rest
  end.

Fixpoint repr_body (q : ascii) (s : string) : string :=
  match s with
  | EmptyString => EmptyString
  | String c rest => repr_char q c ++ repr_body q rest
  end.

(** [repr(s)] for a str: single quotes, unless the text has a single quote
    and no double quote. *)
Definition repr_str (s : string) : string :=
  let q := if has_char "'"%char s && negb (has_char dquote s)
           then dquote else "'"%char in
  String q (repr_body q s ++ String q "").

(* --------------------------------------------------------------------- *)
(** *** [str()] and [repr()] of a value *)

Fixpoint py_repr (v : value) : string :=
  match v with
  | VStr s => repr_str s
  | VBool b => if b then "True" else "False"
  | VInt z => str_of_int z
  | VFloat t => t
  | VOther _ r => r
  | VList l =>
      "[" ++ join ", " ((fix go (l : list value) : list string :=
                           match l with
                           | [] => []
                           | x :: rest => py_repr x :: go rest
                           end) l) ++ "]"
  | VDict d =>
      "{" ++ join ", " ((fix go (d : list (string * value)) : list string :=
                           match d with
                           | [] => []
                           | (k, x) :: rest =>
                               (repr_str k ++ ": " ++ py_repr x) :: go rest
                           end) d) ++ "}"
  end.

(** What an f-string puts for [{v}] *)
Definition py_str (v : value) : string :=
  match v with
  | VStr s => s
  | VOther s _ => s
  | _ => py_repr v
  end.

(* --------------------------------------------------------------------- *)
(** *** Dictionaries *)

Fixpoint lookup (k : string) (d : dict) : option value :=
  match d with
  | [] => None
  | (k', v) :: rest => if String.eqb k k' then Some v else lookup k rest
  end.

Definition has_key (k : string) (d : dict) : bool :=
  match lookup k d with Some _ => true | None => false end.

(** [d.get(k, dflt)] *)
Definition dict_get (d : dict) (k : string) (dflt : value) : value :=
  match lookup k d with Some v => v | None => dflt end.

(** [d[k]] *)
Definition dict_getitem (d : dict) (k : string) : res value :=
  match lookup k d with Some v => Ok v | None => Raise KeyError end.

Definition value_eqb_str (k : string) (v : value) : bool :=
  match v with VStr s => String.eqb k s | _ => false end.

(* --------------------------------------------------------------------- *)
(** *** Operations on a value of unknown type *)

(** [k in v] *)
Definition py_in (k : string) (v : value) : res bool :=
  match v with
  | VDict d => Ok (has_key k d)
  | VStr s => Ok (is_substring k s)
  | VList l => Ok (existsb (value_eqb_str k) l)
  | _ => Raise TypeError
  end.

(** [v[k]] with a str key *)
Definition py_getitem (v : value) (k : string) : res value :=
  match v with
  | VDict d => dict_getitem d k
  | _ => Raise TypeError
  end.

(** [v.get(k, dflt)] *)
Definition py_get (v : value) (k : string) (dflt : value) : res value :=
  match v with
  | VDict d => Ok (dict_get d k dflt)
  | _ => Raise AttributeError
  end.

(** [v.items()] *)
Definition py_items (v : value) : res (list (string * value)) :=
  match v with
  | VDict d => Ok d
  | _ => Raise AttributeError
  end.

(** The elements a [for] loop over [v] visits *)
Definition py_iter (v : value) : res (list value) :=
  match v with
  | VList l => Ok l
  | VDict d => Ok (map (fun kv => VStr (fst kv)) d)
  | VStr s => Ok (map VStr (chars s))
  | _ => Raise TypeError
  end.

(** [len(v)] *)
Definition py_len (v : value) : res nat :=
  match v with
  | VList l => Ok (List.length l)
  | VDict d => Ok (List.length d)
  | VStr s => Ok (String.length s)
  | _ => Raise TypeError
  end.

(** Truth value of [v] in an [if] *)
Definition py_bool (v : value) : bool :=
  match v with
  | VStr s => negb (String.eqb s "")
  | VBool b => b
  | VInt z => negb (Z.eqb z 0)
  | VFloat t => negb (String.eqb t "0.0" || String.eqb t "-0.0")
  | VOther _ _ => true
  | VList l => match l with [] => false | _ => true end
  | VDict d => match d with [] => false | _ => true end
  end.

Fixpoint enumerate_from {A : Type} (i : nat) (xs : list A) : list (nat * A) :=
  match xs with
  | [] => []
  | x :: rest => (i, x) :: enumerate_from (S i) rest
  end.

Definition enumerate {A : Type} (xs : list A) : list (nat * A) :=
  enumerate_from 0 xs.

(** [s.lower()] on code points below 256 *)
Definition lower_char (c : ascii) : ascii :=
  let n := nat_of_ascii c in
  if (((65 <=? n) && (n <=? 90))
      || ((192 <=? n) && (n <=? 222) && negb (n =? 215)))%nat
  then ascii_of_nat (n + 32) else c.

Fixpoint lower (s : string) : string :=
  match s with
  | EmptyString => EmptyString
  | String c rest => String (lower_char c) (lower rest)
  end.

(** [k in {...}] for a set literal of strings *)
Definition in_set (k : string) (keys : list string) : bool :=
  existsb (String.eqb k) keys.

(* ===================================================================== *)
(** ** The world the program runs in *)
(* ===================================================================== *)

Inductive event : Type :=
| EPrint (text : string)            (* print(text) *)
| EMkdir (dir : string)             (* Path.mkdir(parents=True, exist_ok=True) *)
| EOpenRead (path : string)         (* open(path, "rb") *)
| EWrite (path content : string).   (* open(path, "w"); f.write(content) *)

(** What the file system answers to the two calls of the driver that
    change it: whether the call raises. *)
Record disk : Type := Disk {
  mkdir_fails : string -> bool;   (* Path(dir).mkdir(parents=True, exist_ok=True) *)
  open_fails : string -> bool     (* open(path, "w") *)
}.

Record world : Type := World {
  config : dict;                                   (* the parsed document *)
  lines : list string;                             (* [lines] of a generator *)
  all_required_vars : list (value * value);
  all_optional_with_defaults : list (value * value);
  trace : list event;                              (* oldest first *)
  storage : disk                                   (* the file system *)
}.

Definition M (A : Type) : Type := world -> res A * world.

Definition ret {A : Type} (a : A) : M A := fun w => (Ok a, w).

Definition bind {A B : Type} (m : M A) (k : A -> M B) : M B :=
  fun w =>
    match m w with
    | (Ok a, w') => k a w'
    | (Exit c, w') => (Exit c, w')
    | (Raise e, w') => (Raise e, w')
    end.

Definition lift {A : Type} (r : res A) : M A := fun w => (r, w).

Declare Scope py_scope.
Delimit Scope py_scope with py.
Notation "x <- m ;; k" := (bind m (fun x => k))
  (at level 61, m at next level, right associativity) : py_scope.
Notation "m ;; k" := (bind m (fun _ => k))
  (at level 61, right associativity) : py_scope.
Local Open Scope py_scope.

Definition sys_exit {A : Type} (code : Z) : M A := lift (Exit code).

Fixpoint for_each {A : Type} (xs : list A) (body : A -> M unit) : M unit :=
  match xs with
  | [] => ret tt
  | x :: rest => body x ;; for_each rest body
  end.

Definition when (b : bool) (m : M unit) : M unit := if b then m else ret tt.

(** A list comprehension [[f(x) for x in xs]] *)
Fixpoint collect {A B : Type} (xs : list A) (f : A -> res B) : res (list B) :=
  match xs with
  | [] => Ok []
  | x :: rest =>
      match f x with
      | Ok b => match collect rest f with
                | Ok bs => Ok (b :: bs)
                | Exit c => Exit c
                | Raise e => Raise e
                end
      | Exit c => Exit c
      | Raise e => Raise e
      end
  end.

(** *** Updates of the world *)

Definition with_config (doc : dict) (w : world) : world :=
  World doc (lines w) (all_required_vars w) (all_optional_with_defaults w)
        (trace w) (storage w).

Definition with_lines (ls : list string) (w : world) : world :=
  World (config w) ls (all_required_vars w) (all_optional_with_defaults w)
        (trace w) (storage w).

Definition add_lines (ls : list string) (w : world) : world :=
  World (config w) (lines w ++ ls)%list (all_required_vars w)
        (all_optional_with_defaults w) (trace w) (storage w).

Definition without_vars (w : world) : world :=
  World (config w) (lines w) [] [] (trace w) (storage w).

Definition add_vars (rs os : list (value * value)) (w : world) : world :=
  World (config w) (lines w) (all_required_vars w ++ rs)%list
        (all_optional_with_defaults w ++ os)%list (trace w) (storage w).

Definition add_trace (es : list event) (w : world) : world :=
  World (config w) (lines w) (all_required_vars w)
        (all_optional_with_defaults w) (trace w ++ es)%list (storage w).

(** *** What the code does to the world *)

(** The [config] argument: a reference to the shared document. *)
Definition arg_config : M dict := fun w => (Ok (config w), w).

(** [config = d] in the driver *)
Definition set_config (d : dict) : M unit := fun w => (Ok tt, with_config d w).

Definition get_lines : M (list string) := fun w => (Ok (lines w), w).

(** [lines = ls] *)
Definition set_lines (ls : list string) : M unit :=
  fun w => (Ok tt, with_lines ls w).

(** [lines.extend(ls)] *)
Definition extend_lines (ls : list string) : M unit :=
  fun w => (Ok tt, add_lines ls w).

(** [lines.append(l)] *)
Definition append_line (l : string) : M unit := extend_lines [l].

Definition get_required : M (list (value * value)) :=
  fun w => (Ok (all_required_vars w), w).

Definition get_optional : M (list (value * value)) :=
  fun w => (Ok (all_optional_with_defaults w), w).

(** [all_required_vars = []; all_optional_with_defaults = []] *)
Definition reset_vars : M unit := fun w => (Ok tt, without_vars w).

(** [all_required_vars.append(x)] *)
Definition append_required (x : value * value) : M unit :=
  fun w => (Ok tt, add_vars [x] [] w).

(** [all_optional_with_defaults.append(x)] *)
Definition append_optional (x : value * value) : M unit :=
  fun w => (Ok tt, add_vars [] [x] w).

Definition emit (e : event) : M unit := fun w => (Ok tt, add_trace [e] w).

Definition print (text : string) : M unit := emit (EPrint text).

(* ===================================================================== *)
(** ** validate_config *)
(* ===================================================================== *)

Definition str_of_nat (n : nat) : string := str_of_int (Z.of_nat n).

Definition validate_config : M unit :=
  config <- arg_config ;;
  for_each ["green_agent"] (fun field =>
    if negb (has_key field config) then
      print ("Error: Required field '" ++ field ++ "' not found in TOML") ;;
      sys_exit 1
    else ret tt) ;;
  green_agent <- lift (dict_getitem config "green_agent") ;;
  for_each ["image"; "port"] (fun field =>
    present <- lift (py_in field green_agent) ;;
    if negb present then
      print ("Error: Required field 'green_agent." ++ field
             ++ "' not found in TOML") ;;
      sys_exit 1
    else ret tt) ;;
  let participants := dict_get config "participants" (VDict []) in
  required_roles <- lift (py_get participants "required_roles" (VList [])) ;;
  n <- lift (py_len required_roles) ;;
  (if (n <? 1)%nat then
     print "Error: At least one participant role is required" ;;
     sys_exit 1
   else ret tt) ;;
  roles <- lift (py_iter required_roles) ;;
  for_each (enumerate roles) (fun i_role =>
    let i := fst i_role in
    let role := snd i_role in
    for_each ["name"; "image"; "port"] (fun field =>
      present <- lift (py_in field role) ;;
      if negb present then
        print ("Error: Required field 'participants.required_roles["
               ++ str_of_nat i ++ "]." ++ field ++ "' not found in TOML") ;;
        sys_exit 1
      else ret tt)).

(* ===================================================================== *)
(** ** generate_docker_compose *)
(* ===================================================================== *)

(** The two f-strings that carry the port of a service named [name] *)
Definition command_line (name port : string) : string :=
  "    command: [" ++ quoted "--host" ++ ", " ++ quoted "0.0.0.0" ++ ", "
  ++ quoted "--port" ++ ", " ++ quoted port ++ ", " ++ quoted "--card-url"
  ++ ", " ++ quoted ("http://" ++ name ++ ":" ++ port) ++ "]".

Definition healthcheck_test_line (port : string) : string :=
  "      test: [" ++ quoted "CMD" ++ ", " ++ quoted "python" ++ ", "
  ++ quoted "-c" ++ ", "
  ++ quoted ("import urllib.request; urllib.request.urlopen('http://localhost:"
             ++ port ++ "/.well-known/agent-card.json')") ++ "]".

(** The loop over one [environment] list, lines 106-112 and 150-155 *)
Definition compose_env_var (var : value) : M unit :=
  var_name <- lift (py_getitem var "name") ;;
  has_default <- lift (py_in "default" var) ;;
  if has_default then
    default <- lift (py_getitem var "default") ;;
    append_line ("      - " ++ py_str var_name ++ "=" ++ py_str default)
  else
    append_line ("      - " ++ py_str var_name ++ "=${" ++ py_str var_name ++ "}").

Definition generate_docker_compose : M string :=
  config <- arg_config ;;
  green_agent <- lift (dict_getitem config "green_agent") ;;
  let participants := dict_get config "participants" (VDict []) in
  required_roles <- lift (py_get participants "required_roles" (VList [])) ;;
  set_lines [
    "# Auto-generated Docker Compose file from scenario.toml";
    "# Do not edit manually - regenerate using generate_compose.py";
    "";
    "version: '3.8'";
    "";
    "services:" ] ;;
  (* Green agent service *)
  image <- lift (py_getitem green_agent "image") ;;
  port <- lift (py_getitem green_agent "port") ;;
  extend_lines [
    "  green-agent:";
    "    image: " ++ py_str image;
    "    container_name: green-agent";
    command_line "green-agent" (py_str port);
    "    healthcheck:";
    healthcheck_test_line (py_str port);
    "      interval: 5s";
    "      timeout: 3s";
    "      retries: 10";
    "      start_period: 30s" ] ;;
  (* Green agent environment variables *)
  green_env <- lift (py_get green_agent "environment" (VList [])) ;;
  when (py_bool green_env) (
    append_line "    environment:" ;;
    vars <- lift (py_iter green_env) ;;
    for_each vars compose_env_var) ;;
  (* Dependencies on participant services *)
  when (py_bool required_roles) (
    append_line "    depends_on:" ;;
    roles <- lift (py_iter required_roles) ;;
    for_each roles (fun role =>
      name <- lift (py_getitem role "name") ;;
      append_line ("      - " ++ py_str name))) ;;
  (* Network *)
  extend_lines [ "    networks:"; "      - agent-network"; "" ] ;;
  (* Participant services *)
  roles <- lift (py_iter required_roles) ;;
  for_each roles (fun role =>
    role_name <- lift (py_getitem role "name") ;;
    role_image <- lift (py_getitem role "image") ;;
    role_port <- lift (py_getitem role "port") ;;
    extend_lines [
      "  " ++ py_str role_name ++ ":";
      "    image: " ++ py_str role_image;
      "    container_name: " ++ py_str role_name;
      command_line (py_str role_name) (py_str role_port);
      "    healthcheck:";
      healthcheck_test_line (py_str role_port);
      "      interval: 5s";
      "      timeout: 3s";
      "      retries: 10";
      "      start_period: 30s" ] ;;
    (* Participant environment variables *)
    role_env <- lift (py_get role "environment" (VList [])) ;;
    when (py_bool role_env) (
      append_line "    environment:" ;;
      vars <- lift (py_iter role_env) ;;
      for_each vars compose_env_var) ;;
    extend_lines [ "    networks:"; "      - agent-network"; "" ]) ;;
  (* Collect all service names for runner dependencies *)
  roles <- lift (py_iter required_roles) ;;
  role_names <- lift (collect roles (fun role => py_getitem role "name")) ;;
  let all_services := (VStr "green-agent" :: role_names)%list in
  (* AgentBeats runner service *)
  extend_lines [
    "  agentbeats-runner:";
    "    image: ghcr.io/komyo-ai/agentbeats-runner:latest";
    "    container_name: agentbeats-runner";
    "    volumes:";
    "      - ./runner-scenario.toml:/scenario/scenario.toml";
    "      - ./output:/app/output";
    "    command: [" ++ quoted "/scenario/scenario.toml" ++ ", "
      ++ quoted "/app/output/score.json" ++ "]";
    "    depends_on:" ] ;;
  for_each all_services (fun service =>
    extend_lines [
      "      " ++ py_str service ++ ":";
      "        condition: service_healthy" ]) ;;
  extend_lines [ "    networks:"; "      - agent-network"; "" ] ;;
  (* Networks definition *)
  extend_lines [ "networks:"; "  agent-network:"; "    driver: bridge"; "" ] ;;
  lines <- get_lines ;;
  ret (join nl lines).

(* ===================================================================== *)
(** ** generate_env_example *)
(* ===================================================================== *)

Definition generate_env_example : M string :=
  config <- arg_config ;;
  green_agent <- lift (dict_getitem config "green_agent") ;;
  let participants := dict_get config "participants" (VDict []) in
  required_roles <- lift (py_get participants "required_roles" (VList [])) ;;
  set_lines [
    "# Environment variables for agents";
    "# Copy this file to .env and fill in the required values";
    "" ] ;;
  (* Collect all environment variables from all agents *)
  reset_vars ;;
  (* Green agent env vars *)
  green_env <- lift (py_get green_agent "environment" (VList [])) ;;
  vars <- lift (py_iter green_env) ;;
  for_each vars (fun var =>
    has_default <- lift (py_in "default" var) ;;
    if has_default then append_optional (VStr "green-agent", var)
    else append_required (VStr "green-agent", var)) ;;
  (* Participant env vars *)
  roles <- lift (py_iter required_roles) ;;
  for_each roles (fun role =>
    role_env <- lift (py_get role "environment" (VList [])) ;;
    vars <- lift (py_iter role_env) ;;
    for_each vars (fun var =>
      has_default <- lift (py_in "default" var) ;;
      if has_default then
        name <- lift (py_getitem role "name") ;;
        append_optional (name, var)
      else
        name <- lift (py_getitem role "name") ;;
        append_required (name, var))) ;;
  (* Required variables (secrets) *)
  all_required_vars <- get_required ;;
  when (match all_required_vars with [] => false | _ => true end) (
    append_line "# Required variables (no defaults)" ;;
    for_each all_required_vars (fun agent_var =>
      let agent_name := fst agent_var in
      let var := snd agent_var in
      var_name <- lift (py_getitem var "name") ;;
      append_line ("# " ++ py_str agent_name) ;;
      append_line (py_str var_name ++ "=")) ;;
    append_line "") ;;
  (* Optional variables with defaults *)
  all_optional_with_defaults <- get_optional ;;
  when (match all_optional_with_defaults with [] => false | _ => true end) (
    append_line "# Optional variables (defaults are set in docker-compose.yml)" ;;
    for_each all_optional_with_defaults (fun agent_var =>
      let agent_name := fst agent_var in
      let var := snd agent_var in
      var_name <- lift (py_getitem var "name") ;;
      default <- lift (py_getitem var "default") ;;
      append_line ("# " ++ py_str agent_name ++ ": " ++ py_str var_name ++ "="
              ++ py_str default)) ;;
    append_line "") ;;
  lines <- get_lines ;;
  ret (join nl lines).

(* ===================================================================== *)
(** ** generate_runner_scenario *)
(* ===================================================================== *)

(** The [isinstance] chain of lines 270-277, 301-308 and 330-338: one line
    for a str, a bool, a number or a list, nothing for anything else. *)
Definition copy_field (key : string) (value : value) : M unit :=
  match value with
  | VStr s => append_line (key ++ " = " ++ quoted s)
  | VBool _ => append_line (key ++ " = " ++ lower (py_str value))
  | VInt _ | VFloat _ => append_line (key ++ " = " ++ py_str value)
  | VList _ => append_line (key ++ " = " ++ py_str value)
  | _ => ret tt
  end.

(** The loop over one [environment] list, lines 283-287 and 314-318 *)
Definition scenario_env_var (header : string) (var : value) : M unit :=
  append_line header ;;
  name <- lift (py_getitem var "name") ;;
  append_line ("name = " ++ quoted (py_str name)) ;;
  has_default <- lift (py_in "default" var) ;;
  when has_default (
    default <- lift (py_getitem var "default") ;;
    append_line ("default = " ++ quoted (py_str default))).

Definition generate_runner_scenario : M string :=
  config <- arg_config ;;
  green_agent <- lift (dict_getitem config "green_agent") ;;
  let participants := dict_get config "participants" (VDict []) in
  required_roles <- lift (py_get participants "required_roles" (VList [])) ;;
  set_lines [] ;;
  (* Green agent with URL *)
  append_line "[green_agent]" ;;
  port <- lift (py_getitem green_agent "port") ;;
  append_line ("endpoint = " ++ quoted ("http://green-agent:" ++ py_str port)) ;;
  (* Copy additional green agent fields *)
  let docker_specific_keys := ["image"; "port"; "environment"] in
  items <- lift (py_items green_agent) ;;
  for_each items (fun key_value =>
    let key := fst key_value in
    let value := snd key_value in
    when (negb (in_set key docker_specific_keys)) (copy_field key value)) ;;
  (* Copy green agent environment variables if present *)
  green_env <- lift (py_get green_agent "environment" (VList [])) ;;
  when (py_bool green_env) (
    append_line "" ;;
    vars <- lift (py_iter green_env) ;;
    for_each vars (scenario_env_var "[[green_agent.environment]]")) ;;
  append_line "" ;;
  (* Participants with URLs *)
  roles <- lift (py_iter required_roles) ;;
  for_each roles (fun role =>
    append_line "[[participants]]" ;;
    name <- lift (py_getitem role "name") ;;
    append_line ("role = " ++ quoted (py_str name)) ;;
    port <- lift (py_getitem role "port") ;;
    append_line ("endpoint = "
            ++ quoted ("http://" ++ py_str name ++ ":" ++ py_str port)) ;;
    (* Copy additional participant fields *)
    let participant_docker_keys := ["name"; "image"; "port"; "environment"] in
    items <- lift (py_items role) ;;
    for_each items (fun key_value =>
      let key := fst key_value in
      let value := snd key_value in
      when (negb (in_set key participant_docker_keys)) (copy_field key value)) ;;
    (* Copy participant environment variables if present *)
    role_env <- lift (py_get role "environment" (VList [])) ;;
    when (py_bool role_env) (
      append_line "" ;;
      vars <- lift (py_iter role_env) ;;
      for_each vars (scenario_env_var "[[participants.environment]]")) ;;
    append_line "") ;;
  (* Preserve any additional configuration sections *)
  let known_sections := ["green_agent"; "participants"] in
  for_each config (fun name_value =>
    let section_name := fst name_value in
    let section_value := snd name_value in
    when (negb (in_set section_name known_sections)) (
      append_line ("[" ++ section_name ++ "]") ;;
      match section_value with
      | VDict d =>
          for_each d (fun key_value =>
            copy_field (fst key_value) (snd key_value))
      | _ => ret tt
      end ;;
      append_line "")) ;;
  lines <- get_lines ;;
  ret (join nl lines).

(* ===================================================================== *)
(** ** The command-line driver *)
(* ===================================================================== *)

(** What the driver finds at [toml_path]: nothing, something [tomli] cannot
    load (with the text of the exception), or a document. *)
Inductive file_state : Type :=
| Missing
| Unreadable (diagnostic : string)
| Parsed (doc : dict).

(** The parsed command line; both paths as [str()] prints them. *)
Record args : Type := Args {
  toml_path : string;
  output_dir : string
}.

(** What [argparse] makes of the command line: it refuses it (usage and
    error on stderr, status 2), it is asked for help with [-h] or [--help]
    (the help text on stdout, status 0), or it returns the two paths. *)
Inductive invocation : Type :=
| BadUsage
| AskHelp (help : string)
| Accepted (a : args).

(** A command line given as its two paths is one that [argparse] accepts. *)
Coercion Accepted : args >-> invocation.

(** [parser.parse_args()] *)
Definition parse_args (c : invocation) : M args :=
  match c with
  | BadUsage => sys_exit 2
  | AskHelp help => print help ;; sys_exit 0
  | Accepted a => ret a
  end.

(** [Path(dir).mkdir(parents=True, exist_ok=True)] *)
Definition mkdir (dir : string) : M unit :=
  fun w =>
    if mkdir_fails (storage w) dir then (Raise OSError, w)
    else emit (EMkdir dir) w.

(** [with open(path, "w") as f: f.write(content)] *)
Definition write_text (path content : string) : M unit :=
  fun w =>
    if open_fails (storage w) path then (Raise OSError, w)
    else emit (EWrite path content) w.

(** [str(dir / name)] for a relative [name] *)
Definition path_join (dir name : string) : string :=
  if String.eqb dir "." then name
  else if String.eqb dir "/" || String.eqb dir "//" then dir ++ name
  else dir ++ "/" ++ name.

(** [toml_path.exists()] *)
Definition path_exists (f : file_state) : bool :=
  match f with Missing => false | _ => true end.

Definition parse_toml (toml_path : string) (f : file_state) : M dict :=
  emit (EOpenRead toml_path) ;;
  match f with
  | Parsed doc => ret doc
  | Unreadable e =>
      print ("Error parsing TOML file: " ++ e) ;;
      sys_exit 1
  | Missing =>
      print ("Error parsing TOML file: [Errno 2] No such file or directory: "
             ++ repr_str toml_path) ;;
      sys_exit 1
  end.

Definition main (c : invocation) (f : file_state) : M unit :=
  a <- parse_args c ;;
  (* Validate input file exists *)
  (if negb (path_exists f) then
     print ("Error: TOML file not found: " ++ toml_path a) ;;
     sys_exit 1
   else ret tt) ;;
  (* Create output directory if it doesn't exist *)
  mkdir (output_dir a) ;;
  (* Parse and validate config *)
  print ("Reading configuration from " ++ toml_path a) ;;
  doc <- parse_toml (toml_path a) f ;;
  set_config doc ;;
  validate_config ;;
  (* Generate docker-compose.yml *)
  compose_content <- generate_docker_compose ;;
  let compose_path := path_join (output_dir a) "docker-compose.yml" in
  print ("Writing " ++ compose_path) ;;
  write_text compose_path compose_content ;;
  (* Generate runner-scenario.toml *)
  runner_scenario_content <- generate_runner_scenario ;;
  let runner_scenario_path := path_join (output_dir a) "runner-scenario.toml" in
  print ("Writing " ++ runner_scenario_path) ;;
  write_text runner_scenario_path runner_scenario_content ;;
  (* Generate .env.example (if there are any required env vars) *)
  env_content <- generate_env_example ;;
  let env_path := path_join (output_dir a) ".env.example" in
  when (py_bool (VStr (strip env_content))) (
    print ("Writing " ++ env_path) ;;
    write_text env_path env_content) ;;
  print (nl ++ "Success! Generated files:") ;;
  print ("  - " ++ compose_path) ;;
  print ("  - " ++ runner_scenario_path) ;;
  when (py_bool (VStr (strip env_content))) (
    print ("  - " ++ env_path)) ;;
  print (nl ++ "Next steps:") ;;
  print "  1. Review the generated docker-compose.yml" ;;
  if py_bool (VStr (strip env_content)) then
    print "  2. Copy .env.example to .env and fill in required values" ;;
    print "  3. Run: docker-compose up"
  else
    print "  2. Run: docker-compose up".

(** A file system on which the calls of the driver succeed. *)
Definition sound : disk := Disk (fun _ => false) (fun _ => false).

(** A fresh interpreter on file system [d]: nothing parsed, nothing
    printed. *)
Definition boot_on (d : disk) : world := World [] [] [] [] [] d.

(** A fresh interpreter on a file system on which the calls succeed. *)
Definition boot : world := boot_on sound.

(** The exit status the shell sees. *)
Definition exit_status {A : Type} (r : res A) : Z :=
  match r with
  | Ok _ => 0
  | Exit code => code
  | Raise _ => 1
  end.

(** The files a run has written, oldest first: [(path, content)]. *)
Fixpoint written (t : list event) : list (string * string) :=
  match t with
  | [] => []
  | EWrite p c :: rest => (p, c) :: written rest
  | _ :: rest => written rest
  end.

(** The directories a run has created. *)
Fixpoint created (t : list event) : list string :=
  match t with
  | [] => []
  | EMkdir d :: rest => d :: created rest
  | _ :: rest => created rest
  end.

(** A fresh world that holds document [doc]. *)
Definition holding (doc : dict) : world := with_config doc boot.

(* ===================================================================== *)
(** ** Reading a document *)
(* ===================================================================== *)

(** [v[k]] when [v] is a table that has [k] *)
Definition item (k : string) (v : value) : option value :=
  match v with VDict d => lookup k d | _ => None end.

Definition has (k : string) (v : value) : bool :=
  match item k v with Some _ => true | None => false end.

(** The text an f-string puts for [v[k]] *)
Definition text (k : string) (v : value) : string :=
  match item k v with Some x => py_str x | None => "" end.

Definition green_agent_of (config : dict) : value :=
  dict_get config "green_agent" (VDict []).

Definition required_roles_of (config : dict) : list value :=
  match item "required_roles" (dict_get config "participants" (VDict [])) with
  | Some (VList l) => l
  | _ => []
  end.

Definition environment_of (agent : value) : list value :=
  match item "environment" agent with Some (VList l) => l | _ => [] end.

Definition fields_of (agent : value) : dict :=
  match agent with VDict d => d | _ => [] end.

(** The shape of section 3 of the specification, without its required
    fields: an agent is a table whose [environment], when present, is a
    list of tables that each have a [name]; [participants], when present,
    is a table whose [required_roles], when present, is a list of agents. *)
Definition is_env_var (v : value) : bool :=
  match v with VDict d => has_key "name" d | _ => false end.

Definition agent_shaped (agent : value) : bool :=
  match agent with
  | VDict d =>
      match lookup "environment" d with
      | None => true
      | Some (VList l) => forallb is_env_var l
      | Some _ => false
      end
  | _ => false
  end.

Definition shaped (config : dict) : bool :=
  match lookup "green_agent" config with
  | None => true
  | Some green_agent => agent_shaped green_agent
  end
  &&
  match lookup "participants" config with
  | None => true
  | Some (VDict p) =>
      match lookup "required_roles" p with
      | None => true
      | Some (VList roles) => forallb agent_shaped roles
      | Some _ => false
      end
  | Some _ => false
  end.

(** A document the validator lets through. *)
Definition validated (config : dict) : Prop :=
  fst (validate_config (holding config)) = Ok tt.

(** The five checks of section 4.2 of the specification, in its words: the
    message of the first one that fails. *)
Definition first_absent (fields : list string) (v : value) : option string :=
  find (fun field => negb (has field v)) fields.

Fixpoint first_role_failure (i : nat) (roles : list value) : option string :=
  match roles with
  | [] => None
  | role :: rest =>
      match first_absent ["name"; "image"; "port"] role with
      | Some field =>
          Some ("Error: Required field 'participants.required_roles["
                ++ str_of_nat i ++ "]." ++ field ++ "' not found in TOML")
      | None => first_role_failure (S i) rest
      end
  end.

Definition first_failure (config : dict) : option string :=
  if negb (has_key "green_agent" config) then
    Some "Error: Required field 'green_agent' not found in TOML"
  else
    match first_absent ["image"; "port"] (green_agent_of config) with
    | Some field =>
        Some ("Error: Required field 'green_agent." ++ field
              ++ "' not found in TOML")
    | None =>
        match required_roles_of config with
        | [] => Some "Error: At least one participant role is required"
        | roles => first_role_failure 0 roles
        end
    end.

(** A run that stopped with [msg] as its last output, exit status 1 and no
    file written. *)
Definition failed_with (run : res unit * world) (msg : string) : Prop :=
  fst run = Exit 1
  /\ written (trace (snd run)) = []
  /\ exists before, trace (snd run) = (before ++ [EPrint msg])%list.


Definition is_table (v : value) : bool :=
  match v with VDict _ => true | _ => false end.

(* ===================================================================== *)
(** ** The three artifacts, as the specification describes them *)
(* ===================================================================== *)

(** *** Section 4.3: the orchestration file *)

Definition compose_header : list string := [
  "# Auto-generated Docker Compose file from scenario.toml";
  "# Do not edit manually - regenerate using generate_compose.py";
  "";
  "version: '3.8'";
  "";
  "services:" ].

(** Image, container name, start-up command and health probe of one agent *)
Definition service_head (name image port : string) : list string := [
  "  " ++ name ++ ":";
  "    image: " ++ image;
  "    container_name: " ++ name;
  command_line name port;
  "    healthcheck:";
  healthcheck_test_line port;
  "      interval: 5s";
  "      timeout: 3s";
  "      retries: 10";
  "      start_period: 30s" ].

(** [NAME=value]: the literal default, or the placeholder *)
Definition environment_entry (var : value) : string :=
  match item "default" var with
  | Some default => "      - " ++ text "name" var ++ "=" ++ py_str default
  | None => "      - " ++ text "name" var ++ "=${" ++ text "name" var ++ "}"
  end.

(** Present only if the agent declares an entry *)
Definition environment_block (vars : list value) : list string :=
  match vars with
  | [] => []
  | _ => "    environment:" :: map environment_entry vars
  end.

Definition network_lines : list string :=
  [ "    networks:"; "      - agent-network"; "" ].

Definition runner_head : list string := [
  "  agentbeats-runner:";
  "    image: ghcr.io/komyo-ai/agentbeats-runner:latest";
  "    container_name: agentbeats-runner";
  "    volumes:";
  "      - ./runner-scenario.toml:/scenario/scenario.toml";
  "      - ./output:/app/output";
  "    command: [" ++ quoted "/scenario/scenario.toml" ++ ", "
    ++ quoted "/app/output/score.json" ++ "]" ].

Definition networks_definition : list string :=
  [ "networks:"; "  agent-network:"; "    driver: bridge"; "" ].

(** A dependency by name only *)
Definition plain_dependency (name : string) : string := "      - " ++ name.

(** A dependency that has to report healthy *)
Definition healthy_dependency (name : string) : list string :=
  [ "      " ++ name ++ ":"; "        condition: service_healthy" ].

Definition role_names (config : dict) : list string :=
  map (text "name") (required_roles_of config).

Definition green_service (config : dict) : list string :=
  let green_agent := green_agent_of config in
  (service_head "green-agent" (text "image" green_agent)
                (text "port" green_agent)
   ++ environment_block (environment_of green_agent)
   ++ match role_names config with
      | [] => []
      | names => "    depends_on:" :: map plain_dependency names
      end
   ++ network_lines)%list.

Definition participant_service (role : value) : list string :=
  (service_head (text "name" role) (text "image" role) (text "port" role)
   ++ environment_block (environment_of role)
   ++ network_lines)%list.

Definition runner_service (config : dict) : list string :=
  (runner_head
   ++ "    depends_on:"
      :: flat_map healthy_dependency ("green-agent" :: role_names config)
   ++ network_lines)%list.

Definition compose_file (config : dict) : list string :=
  (compose_header
   ++ green_service config
   ++ flat_map participant_service (required_roles_of config)
   ++ runner_service config
   ++ networks_definition)%list.

(** *** Section 4.4: the environment template *)

(** Every EnvVar with its owner: the green agent first, then the roles in
    document order, each owner's entries in declaration order. *)
Definition declared (config : dict) : list (string * value) :=
  (map (pair "green-agent") (environment_of (green_agent_of config))
   ++ flat_map (fun role => map (pair (text "name" role)) (environment_of role))
               (required_roles_of config))%list.

Definition has_default (owner_var : string * value) : bool :=
  has "default" (snd owner_var).

Definition required_entry (owner_var : string * value) : list string :=
  [ "# " ++ fst owner_var; text "name" (snd owner_var) ++ "=" ].

Definition optional_entry (owner_var : string * value) : string :=
  "# " ++ fst owner_var ++ ": " ++ text "name" (snd owner_var) ++ "="
  ++ text "default" (snd owner_var).

Definition required_section (vars : list (string * value)) : list string :=
  match vars with
  | [] => []
  | _ => ("# Required variables (no defaults)"
          :: flat_map required_entry vars ++ [""])%list
  end.

Definition optional_section (vars : list (string * value)) : list string :=
  match vars with
  | [] => []
  | _ => ("# Optional variables (defaults are set in docker-compose.yml)"
          :: map optional_entry vars ++ [""])%list
  end.

Definition env_header : list string := [
  "# Environment variables for agents";
  "# Copy this file to .env and fill in the required values";
  "" ].

Definition env_file (config : dict) : list string :=
  (env_header
   ++ required_section (filter (fun ov => negb (has_default ov)) (declared config))
   ++ optional_section (filter has_default (declared config)))%list.

(** *** Section 4.5: the rewritten scenario *)

(** The four kinds of value that have a literal rendering *)
Definition renders (v : value) : bool :=
  match v with
  | VStr _ | VBool _ | VInt _ | VFloat _ | VList _ => true
  | _ => false
  end.

Definition field_line (key_value : string * value) : string :=
  let key := fst key_value in
  match snd key_value with
  | VStr s => key ++ " = " ++ quoted s
  | VBool b => key ++ " = " ++ (if b then "true" else "false")
  | VInt z => key ++ " = " ++ str_of_int z
  | VFloat t => key ++ " = " ++ t
  | v => key ++ " = " ++ py_repr v
  end.

(** The fields of [fields] outside [skip], each on its line *)
Definition copied_fields (skip : list string) (fields : dict) : list string :=
  map field_line
      (filter (fun kv => negb (in_set (fst kv) skip) && renders (snd kv)) fields).

Definition environment_table (header : string) (var : value) : list string :=
  header :: ("name = " ++ quoted (text "name" var))
  :: match item "default" var with
     | Some default => [ "default = " ++ quoted (py_str default) ]
     | None => []
     end.

Definition environment_tables (header : string) (vars : list value)
  : list string :=
  match vars with
  | [] => []
  | _ => "" :: flat_map (environment_table header) vars
  end.

Definition green_section (config : dict) : list string :=
  let green_agent := green_agent_of config in
  ([ "[green_agent]";
     ("endpoint = "
      ++ quoted ("http://green-agent:" ++ text "port" green_agent))%string ]
   ++ copied_fields ["image"; "port"; "environment"] (fields_of green_agent)
   ++ environment_tables "[[green_agent.environment]]"
                         (environment_of green_agent)
   ++ [""])%list.

Definition participant_entry (role : value) : list string :=
  ([ "[[participants]]";
     ("role = " ++ quoted (text "name" role))%string;
     ("endpoint = "
      ++ quoted ("http://" ++ text "name" role ++ ":" ++ text "port" role))%string ]
   ++ copied_fields ["name"; "image"; "port"; "environment"] (fields_of role)
   ++ environment_tables "[[participants.environment]]" (environment_of role)
   ++ [""])%list.

Definition other_sections (config : dict) : dict :=
  filter (fun nv => negb (in_set (fst nv) ["green_agent"; "participants"]))
         config.

Definition passed_section (name_value : string * value) : list string :=
  (("[" ++ fst name_value ++ "]")%string
   :: copied_fields [] (fields_of (snd name_value)) ++ [""])%list.

Definition scenario_file (config : dict) : list string :=
  (green_section config
   ++ flat_map participant_entry (required_roles_of config)
   ++ flat_map passed_section (other_sections config))%list.

(** *** Helpers for the proofs *)

(** [v[k]], or an empty text when there is none *)
Definition the (k : string) (v : value) : value :=
  match item k v with Some x => x | None => VStr "" end.

(** A role the generators can read: a table of the right shape with the
    three required fields. *)
Definition role_ready (role : value) : bool :=
  agent_shaped role && has "name" role && has "image" role && has "port" role.

(** The accumulators of [generate_env_example] hold the owner as the
    value found in the document. *)
Definition declared_values (config : dict) : list (value * value) :=
  (map (pair (VStr "green-agent")) (environment_of (green_agent_of config))
   ++ flat_map (fun role => map (pair (the "name" role)) (environment_of role))
               (required_roles_of config))%list.

Definition owner_text (owner_var : value * value) : string * value :=
  (py_str (fst owner_var), snd owner_var).

(** *** What a function may do to the world *)

(** [t'] is [t] followed by console output only. *)
Definition prints_only (t t' : list event) : Prop :=
  exists texts, t' = (t ++ map EPrint texts)%list.

(** A computation that leaves the document as it is, touches no file, and
    leaves the interpreter, if at all, with status 1. *)
Definition tame {A : Type} (m : M A) : Prop :=
  forall w,
    config (snd (m w)) = config w
    /\ prints_only (trace w) (trace (snd (m w)))
    /\ (forall code, fst (m w) = Exit code -> code = 1%Z).

(** A computation that, besides, prints nothing. *)
Definition silent {A : Type} (m : M A) : Prop :=
  forall w,
    config (snd (m w)) = config w
    /\ trace (snd (m w)) = trace w
    /\ (forall code, fst (m w) <> Exit code).

(** A computation that leaves the file system as it finds it. *)
Definition offline {A : Type} (m : M A) : Prop :=
  forall w, storage (snd (m w)) = storage w.

(** A computation that only adds to the trace. *)
Definition grows {A : Type} (m : M A) : Prop :=
  forall w, exists es, trace (snd (m w)) = (trace w ++ es)%list.

(** An outcome that is not [sys.exit]. *)
Definition no_exit {A : Type} (r : res A) : Prop :=
  match r with Exit _ => False | _ => True end.

(** *** Traces of the driver *)

(** What a run does before it validates the document. *)
Definition started (a : args) : list event :=
  [ EMkdir (output_dir a);
    EPrint ("Reading configuration from " ++ toml_path a);
    EOpenRead (toml_path a) ].

(** What a run does once all three artifacts are generated. *)
Definition finished (a : args) (config : dict) : list event :=
  let compose_path := path_join (output_dir a) "docker-compose.yml" in
  let runner_scenario_path := path_join (output_dir a) "runner-scenario.toml" in
  let env_path := path_join (output_dir a) ".env.example" in
  [ EPrint ("Writing " ++ compose_path);
    EWrite compose_path (join nl (compose_file config));
    EPrint ("Writing " ++ runner_scenario_path);
    EWrite runner_scenario_path (join nl (scenario_file config));
    EPrint ("Writing " ++ env_path);
    EWrite env_path (join nl (env_file config));
    EPrint (nl ++ "Success! Generated files:");
    EPrint ("  - " ++ compose_path);
    EPrint ("  - " ++ runner_scenario_path);
    EPrint ("  - " ++ env_path);
    EPrint (nl ++ "Next steps:");
    EPrint "  1. Review the generated docker-compose.yml";
    EPrint "  2. Copy .env.example to .env and fill in required values";
    EPrint "  3. Run: docker-compose up" ].


(** *** Two worlds that hold the same document *)

(** Same document; same [lines] when [l] is set; same accumulators when [v]
    is set.  The traces are free. *)
Definition alike (l v : bool) (w1 w2 : world) : Prop :=
  config w1 = config w2
  /\ (l = true -> lines w1 = lines w2)
  /\ (v = true -> all_required_vars w1 = all_required_vars w2
                   /\ all_optional_with_defaults w1
                      = all_optional_with_defaults w2).

(** A computation whose outcome is the same in two alike worlds, and which
    leaves them alike when it returns. *)
Definition steady {A : Type} (l v l' v' : bool) (m : M A) : Prop :=
  forall w1 w2,
    alike l v w1 w2 ->
    fst (m w1) = fst (m w2)
    /\ (forall a, fst (m w1) = Ok a -> alike l' v' (snd (m w1)) (snd (m w2))).

(** *** Sample documents *)

(** The concrete scenario of section 8 of the specification. *)
Definition debate : dict := [
  ("green_agent", VDict [ ("image", VStr "img:latest"); ("port", VInt 8080) ]);
  ("participants", VDict [
     ("required_roles", VList [
        VDict [ ("name", VStr "debater"); ("image", VStr "d:latest");
                ("port", VInt 9000) ] ]) ]) ].

(** A document with environment entries, extra fields, a nested table, a
    second section and a top-level scalar. *)
Definition tournament : dict := [
  ("title", VStr "cup");
  ("green_agent", VDict [
     ("image", VStr "judge:1"); ("port", VInt 8080);
     ("rounds", VInt 3); ("strict", VBool true);
     ("limits", VDict [ ("cpu", VInt 2) ]);
     ("environment", VList [
        VDict [ ("name", VStr "API_KEY") ];
        VDict [ ("name", VStr "LOG_LEVEL"); ("default", VStr "info") ] ]) ]);
  ("participants", VDict [
     ("required_roles", VList [
        VDict [ ("name", VStr "pro"); ("image", VStr "p:1"); ("port", VInt 9001);
                ("tags", VList [ VStr "a"; VStr "b" ]);
                ("environment", VList [ VDict [ ("name", VStr "TOKEN") ] ]) ];
        VDict [ ("name", VStr "con"); ("image", VStr "c:1"); ("port", VInt 9002);
                ("extra", VDict [ ("depth", VInt 1) ]) ] ]) ]);
  ("metadata", VDict [ ("owner", VStr "x"); ("nested", VDict [ ("k", VInt 1) ]) ]) ].

Definition cli : args := Args "scenario.toml" "out".

(** [del d[k]] and [d[k] = v] on a copy of [d] *)
Definition without (k : string) (d : dict) : dict :=
  filter (fun kv => negb (String.eqb k (fst kv))) d.

Definition replaced (k : string) (v : value) (d : dict) : dict :=
  map (fun kv => if String.eqb k (fst kv) then (k, v) else kv) d.

(** [debate] with one required field taken out *)
Definition debate_without_green_agent : dict := without "green_agent" debate.

Definition debate_without_image : dict :=
  replaced "green_agent"
    (VDict (without "image" (fields_of (green_agent_of debate)))) debate.

Definition debate_without_port : dict :=
  replaced "green_agent"
    (VDict (without "port" (fields_of (green_agent_of debate)))) debate.

Definition debate_without_roles : dict :=
  replaced "participants" (VDict [ ("required_roles", VList []) ]) debate.

(** [tournament] with [image] taken out of its second role *)
Definition tournament_without_role_image : dict :=
  replaced "participants"
    (VDict [ ("required_roles",
              VList (match required_roles_of tournament with
                     | pro :: con :: rest =>
                         pro :: VDict (without "image" (fields_of con)) :: rest
                     | roles => roles
                     end)) ])
    tournament.

(** [debate] whose role has, besides its required fields, a date and a
    nested table *)
Definition debate_with_dated_role : dict :=
  replaced "participants"
    (VDict [ ("required_roles", VList [
       VDict [ ("name", VStr "debater"); ("image", VStr "d:latest");
               ("port", VInt 9000);
               ("since", VOther "2024-01-01" "datetime.date(2024, 1, 1)");
               ("limits", VDict [ ("cpu", VInt 2) ]) ] ]) ])
    debate.

(** [debate] followed by a section [[metadata]] of scalars and a list: a
    text with double quotes in it, a date, a list of booleans *)
Definition debate_with_metadata : dict :=
  (debate
   ++ [ ("metadata", VDict [
           ("owner", VStr ("say " ++ quoted "hi"));
           ("created", VOther "2024-01-01" "datetime.date(2024, 1, 1)");
           ("flags", VList [ VBool true; VBool false ]) ]) ])%list.

(** A file system on which [path] is a file: no directory can be made
    there. *)
Definition taken (path : string) : disk :=
  Disk (String.eqb path) (fun _ => false).

(* ===================================================================== *)
(** ** Further notions about the four functions and the driver *)
(* ===================================================================== *)

(** A computation that either returns or raises with the world as it was,
    or prints one line and leaves the interpreter with status 1. *)
Definition verdict {A : Type} (m : M A) : Prop :=
  forall w,
    match m w with
    | (Ok _, w') => w' = w
    | (Exit code, w') =>
        code = 1%Z /\ exists msg, w' = add_trace [EPrint msg] w
    | (Raise _, w') => w' = w
    end.

(** A computation that only adds to [lines]. *)
Definition appends {A : Type} (m : M A) : Prop :=
  forall w, exists ls, lines (snd (m w)) = (lines w ++ ls)%list.

(** A computation that, started with [lines] beginning with [first],
    returns nothing but a text whose lines begin with [first]. *)
Definition headed (first : list string) (m : M string) : Prop :=
  forall w,
    (exists rest, lines w = (first ++ rest)%list) ->
    forall text,
      fst (m w) = Ok text -> exists rest, text = join nl (first ++ rest)%list.

(** A computation that returns nothing but a text whose lines begin with
    [first], however it is started. *)
Definition opens (first : list string) (m : M string) : Prop :=
  forall w text,
    fst (m w) = Ok text -> exists rest, text = join nl (first ++ rest)%list.

(** What a run over a parsed document is expected to leave: the files
    written so far, and the outcome of the first step that did not
    return. *)
Definition then_write (r : res string) (path : string)
    (so_far : list (string * string))
    (next : list (string * string) -> res unit * list (string * string))
  : res unit * list (string * string) :=
  match r with
  | Ok content => next (so_far ++ [(path, content)])%list
  | Exit code => (Exit code, so_far)
  | Raise e => (Raise e, so_far)
  end.

Definition expected_run (a : args) (doc : dict)
  : res unit * list (string * string) :=
  match fst (validate_config (holding doc)) with
  | Ok _ =>
      then_write (fst (generate_docker_compose (holding doc)))
        (path_join (output_dir a) "docker-compose.yml") []
        (fun files =>
           then_write (fst (generate_runner_scenario (holding doc)))
             (path_join (output_dir a) "runner-scenario.toml") files
             (fun files =>
                then_write (fst (generate_env_example (holding doc)))
                  (path_join (output_dir a) ".env.example") files
                  (fun files => (Ok tt, files))))
  | Exit code => (Exit code, [])
  | Raise e => (Raise e, [])
  end.

(** The same on a file system [d] whose calls may fail: a call that fails
    ends the run with [OSError]. *)
Definition then_write_on (d : disk) (r : res string) (path : string)
    (so_far : list (string * string))
    (next : list (string * string) -> res unit * list (string * string))
  : res unit * list (string * string) :=
  match r with
  | Ok content =>
      if open_fails d path then (Raise OSError, so_far)
      else next (so_far ++ [(path, content)])%list
  | Exit code => (Exit code, so_far)
  | Raise e => (Raise e, so_far)
  end.

Definition expected_run_on (d : disk) (a : args) (doc : dict)
  : res unit * list (string * string) :=
  if mkdir_fails d (output_dir a) then (Raise OSError, [])
  else
    match fst (validate_config (holding doc)) with
    | Ok _ =>
        then_write_on d (fst (generate_docker_compose (holding doc)))
          (path_join (output_dir a) "docker-compose.yml") []
          (fun files =>
             then_write_on d (fst (generate_runner_scenario (holding doc)))
               (path_join (output_dir a) "runner-scenario.toml") files
               (fun files =>
                  then_write_on d (fst (generate_env_example (holding doc)))
                    (path_join (output_dir a) ".env.example") files
                    (fun files => (Ok tt, files))))
    | Exit code => (Exit code, [])
    | Raise e => (Raise e, [])
    end.

(** A list of lines whose last one is blank. *)
Definition closed (ls : list string) : Prop :=
  exists body, ls = (body ++ [""])%list.

(** A computation that, when it returns, leaves [lines] closed. *)
Definition closes {A : Type} (m : M A) : Prop :=
  forall w a w', m w = (Ok a, w') -> closed (lines w').

(** A computation that, when it returns, leaves [lines] closed if it found
    them closed. *)
Definition keeps {A : Type} (m : M A) : Prop :=
  forall w a w', closed (lines w) -> m w = (Ok a, w') -> closed (lines w').

(** A computation that, started with [lines] closed, returns nothing but a
    text whose last line is blank. *)
Definition ends (m : M string) : Prop :=
  forall w text,
    closed (lines w) -> fst (m w) = Ok text ->
    exists body, text = join nl (body ++ [""])%list.

(** A computation that returns nothing but a text whose last line is
    blank, however it is started. *)
Definition finishes (m : M string) : Prop :=
  forall w text,
    fst (m w) = Ok text -> exists body, text = join nl (body ++ [""])%list.

(** [debate] with [participants] given as a list *)
Definition debate_with_listed_participants : dict :=
  replaced "participants" (VList [ VStr "debater" ]) debate.

(** [debate] with [green_agent] given as a text *)
Definition debate_with_green_agent_text : dict :=
  replaced "green_agent" (VStr "image on port 8080") debate.

(** [tournament] with a green agent whose second [environment] entry has
    no [name] *)
Definition tournament_with_nameless_entry : dict :=
  replaced "green_agent"
    (VDict [ ("image", VStr "judge:1"); ("port", VInt 8080);
             ("environment", VList [
                VDict [ ("name", VStr "API_KEY") ];
                VDict [ ("default", VStr "info") ] ]) ])
    tournament.

(** [debate] with [environment = false] in its green agent *)
Definition debate_with_environment_off : dict :=
  replaced "green_agent"
    (VDict [ ("image", VStr "img:latest"); ("port", VInt 8080);
             ("environment", VBool false) ])
    debate.
(* ===================================================================== *)
(** ** Running the monad *)
(* ===================================================================== *)

Lemma add_lines_nil w : add_lines [] w = w.
Proof. destruct w; unfold add_lines; simpl. now rewrite app_nil_r. Qed.

Lemma add_lines_add_lines a b w :
  add_lines b (add_lines a w) = add_lines (a ++ b)%list w.
Proof. unfold add_lines; simpl. now rewrite app_assoc. Qed.

Lemma add_vars_nil w : add_vars [] [] w = w.
Proof. destruct w; unfold add_vars; simpl. now rewrite !app_nil_r. Qed.

Lemma add_vars_add_vars r1 o1 r2 o2 w :
  add_vars r2 o2 (add_vars r1 o1 w) = add_vars (r1 ++ r2)%list (o1 ++ o2)%list w.
Proof. unfold add_vars; simpl. now rewrite !app_assoc. Qed.

Lemma bind_ok {A B} (m : M A) (k : A -> M B) w a w' :
  m w = (Ok a, w') -> bind m k w = k a w'.
Proof. intros H. unfold bind. now rewrite H. Qed.

Lemma bind_raise {A B} (m : M A) (k : A -> M B) w e w' :
  m w = (Raise e, w') -> bind m k w = (Raise e, w').
Proof. intros H. unfold bind. now rewrite H. Qed.

(** A loop whose body only appends lines appends them all, in order. *)
Lemma for_each_lines {A} (xs : list A) body (f : A -> list string) :
  (forall x, In x xs -> forall w, body x w = (Ok tt, add_lines (f x) w)) ->
  forall w, for_each xs body w = (Ok tt, add_lines (flat_map f xs) w).
Proof.
  induction xs as [|x xs IH]; intros Hb w; simpl.
  - unfold ret. now rewrite add_lines_nil.
  - erewrite bind_ok by (apply Hb; now left).
    rewrite IH by (intros y Hy; apply Hb; now right).
    now rewrite add_lines_add_lines.
Qed.

(** A loop whose body only feeds the two accumulators. *)
Lemma for_each_vars {A} (xs : list A) body (r o : A -> list (value * value)) :
  (forall x, In x xs -> forall w, body x w = (Ok tt, add_vars (r x) (o x) w)) ->
  forall w, for_each xs body w
            = (Ok tt, add_vars (flat_map r xs) (flat_map o xs) w).
Proof.
  induction xs as [|x xs IH]; intros Hb w; simpl.
  - unfold ret. now rewrite add_vars_nil.
  - erewrite bind_ok by (apply Hb; now left).
    rewrite IH by (intros y Hy; apply Hb; now right).
    now rewrite add_vars_add_vars.
Qed.

(* ===================================================================== *)
(** ** validate_config carries out the five checks *)
(* ===================================================================== *)

Lemma agent_shaped_table v : agent_shaped v = true -> is_table v = true.
Proof. destruct v; simpl; auto. Qed.

Lemma for_each_cons {A} (x : A) xs body w :
  for_each (x :: xs) body w = bind (body x) (fun _ => for_each xs body) w.
Proof. reflexivity. Qed.

Lemma bind_for_each_nil {A B} (body : A -> M unit) (k : unit -> M B) w :
  bind (for_each [] body) k w = k tt w.
Proof. reflexivity. Qed.

Lemma bind_for_each_cons {A B} (x : A) xs body (k : unit -> M B) w :
  bind (for_each (x :: xs) body) k w
  = bind (body x) (fun _ => bind (for_each xs body) k) w.
Proof. cbn [for_each]. unfold bind. destruct (body x w) as [[u|c|e] w1]; reflexivity. Qed.

Ltac run := cbn [bind lift ret arg_config sys_exit print emit extend_lines append_line
                 set_lines get_lines when fst snd negb get_required get_optional
                 reset_vars append_required append_optional set_config
                 parse_args].

Lemma check_fields_spec (msg : string -> string) v fields w :
  is_table v = true ->
  for_each fields (fun field =>
    present <- lift (py_in field v) ;;
    if negb present then print (msg field) ;; sys_exit 1 else ret tt) w
  = match first_absent fields v with
    | None => (Ok tt, w)
    | Some field => (Exit 1, add_trace [EPrint (msg field)] w)
    end.
Proof.
  intros Hv. destruct v; try discriminate. clear Hv.
  induction fields as [|f fields IH]; [reflexivity|].
  rewrite for_each_cons. unfold first_absent in *. cbn [find].
  unfold py_in, has, item, has_key. run.
  destruct (lookup f d); run.
  - exact IH.
  - reflexivity.
Qed.

Lemma validate_roles_spec roles : forall i w,
  forallb is_table roles = true ->
  for_each (enumerate_from i roles) (fun i_role =>
    let i := fst i_role in
    let role := snd i_role in
    for_each ["name"; "image"; "port"] (fun field =>
      present <- lift (py_in field role) ;;
      if negb present then
        print ("Error: Required field 'participants.required_roles["
               ++ str_of_nat i ++ "]." ++ field ++ "' not found in TOML") ;;
        sys_exit 1
      else ret tt)) w
  = match first_role_failure i roles with
    | None => (Ok tt, w)
    | Some msg => (Exit 1, add_trace [EPrint msg] w)
    end.
Proof.
  induction roles as [|role roles IH]; intros i w Hs.
  - reflexivity.
  - simpl in Hs. apply andb_prop in Hs. destruct Hs as [Hr Hs].
    cbn [enumerate_from first_role_failure]. rewrite for_each_cons.
    cbn [fst snd]. unfold bind at 1.
    rewrite (check_fields_spec (fun field =>
       "Error: Required field 'participants.required_roles["
               ++ str_of_nat i ++ "]." ++ field ++ "' not found in TOML")) by exact Hr.
    destruct (first_absent ["name"; "image"; "port"] role).
    + reflexivity.
    + apply IH, Hs.
Qed.

Lemma validate_config_spec w :
  shaped (config w) = true ->
  validate_config w
  = match first_failure (config w) with
    | None => (Ok tt, w)
    | Some msg => (Exit 1, add_trace [EPrint msg] w)
    end.
Proof.
  intros Hs. unfold validate_config, first_failure.
  unfold shaped in Hs. apply andb_prop in Hs. destruct Hs as [Hg Hp].
  unfold green_agent_of, required_roles_of, dict_get, has_key.
  run. rewrite bind_for_each_cons. run.
  destruct (lookup "green_agent" (config w)) as [green|] eqn:Eg; run.
  2: reflexivity.
  rewrite bind_for_each_nil. run.
  unfold dict_getitem. rewrite Eg. run.
  unfold bind at 1. 
  rewrite (check_fields_spec (fun field => "Error: Required field 'green_agent." ++ field
             ++ "' not found in TOML")) by (apply agent_shaped_table, Hg).
  destruct (first_absent ["image"; "port"] green); [reflexivity|].
  destruct (lookup "participants" (config w)) as [p|] eqn:Ep.
  - destruct p; try discriminate. cbn [item py_get dict_get]. unfold dict_get.
    destruct (lookup "required_roles" d) as [rs|] eqn:Er.
    + destruct rs; try discriminate. run. cbn [py_len]. run.
      destruct l as [|r l]; [reflexivity|].
      cbn [length Nat.ltb Nat.leb]. run. cbn [py_iter]. run.
      apply validate_roles_spec.
      clear -Hp. revert Hp. generalize (r :: l). intros rs H.
      rewrite forallb_forall in *. intros x Hx. apply agent_shaped_table, H, Hx.
    + reflexivity.
  - reflexivity.
Qed.

(* ===================================================================== *)
(** ** generate_docker_compose writes the orchestration file *)
(* ===================================================================== *)

Lemma text_the k v : text k v = py_str (the k v).
Proof. unfold text, the. now destruct (item k v). Qed.

Lemma getitem_the k v : has k v = true -> py_getitem v k = Ok (the k v).
Proof.
  unfold has, the, item. destruct v; try discriminate.
  simpl. unfold dict_getitem. now destruct (lookup k d).
Qed.

Lemma agent_environment v :
  agent_shaped v = true ->
  py_get v "environment" (VList []) = Ok (VList (environment_of v))
  /\ forallb is_env_var (environment_of v) = true.
Proof.
  destruct v; try discriminate. unfold agent_shaped, environment_of, item.
  simpl. unfold dict_get.
  destruct (lookup "environment" d) as [e|]; [|now split].
  destruct e; try discriminate. now split.
Qed.

Lemma first_role_failure_none roles : forall i,
  forallb agent_shaped roles = true ->
  first_role_failure i roles = None ->
  forallb role_ready roles = true.
Proof.
  induction roles as [|r roles IH]; intros i Hs Hf; [reflexivity|].
  simpl in Hs. apply andb_prop in Hs. destruct Hs as [Hr Hs].
  cbn [first_role_failure] in Hf. unfold first_absent in Hf. cbn [find] in Hf.
  cbn [forallb]. unfold role_ready at 1. rewrite Hr.
  destruct (has "name" r); [|discriminate].
  destruct (has "image" r); [|discriminate].
  destruct (has "port" r); [|discriminate].
  cbn [negb] in Hf. simpl. eapply IH; eauto.
Qed.

Lemma complete_doc config :
  shaped config = true ->
  first_failure config = None ->
  let green_agent := green_agent_of config in
  dict_getitem config "green_agent" = Ok green_agent
  /\ agent_shaped green_agent = true
  /\ has "image" green_agent = true
  /\ has "port" green_agent = true
  /\ py_get (dict_get config "participants" (VDict [])) "required_roles"
            (VList [])
     = Ok (VList (required_roles_of config))
  /\ required_roles_of config <> []
  /\ forallb role_ready (required_roles_of config) = true.
Proof.
  intros Hs Hf. unfold shaped in Hs. apply andb_prop in Hs.
  destruct Hs as [Hg Hp]. unfold first_failure in Hf.
  unfold green_agent_of, required_roles_of, dict_getitem, has_key, dict_get in *.
  destruct (lookup "green_agent" config) as [g|]; [|discriminate].
  cbn [negb] in Hf. unfold first_absent in Hf. cbn [find] in Hf.
  destruct (has "image" g); [|discriminate].
  destruct (has "port" g); [|discriminate].
  cbn [negb] in Hf. cbv zeta.
  repeat (split; [solve [auto]|]).
  unfold item in *.
  destruct (lookup "participants" config) as [p|]; [|discriminate].
  destruct p; try discriminate. cbn [py_get]. unfold dict_get.
  destruct (lookup "required_roles" d) as [rs|]; [|discriminate].
  destruct rs; try discriminate.
  destruct l as [|r l]; [discriminate|].
  repeat split; [discriminate|].
  eapply first_role_failure_none; eauto.
Qed.

Lemma flat_map_single {A B} (f : A -> B) (l : list A) :
  flat_map (fun x => [f x]) l = map f l.
Proof. induction l; simpl; congruence. Qed.

(** One entry of an [environment:] block *)
Lemma compose_env_var_spec var w :
  is_env_var var = true ->
  compose_env_var var w = (Ok tt, add_lines [environment_entry var] w).
Proof.
  destruct var; try discriminate. unfold is_env_var, has_key. intros Hn.
  unfold compose_env_var, environment_entry, text, item.
  cbn [py_getitem py_in]. unfold dict_getitem, has_key.
  destruct (lookup "name" d) as [n|]; [|discriminate]. run.
  destruct (lookup "default" d) as [x|]; run; reflexivity.
Qed.

Lemma compose_environment_spec vars w :
  forallb is_env_var vars = true ->
  when (py_bool (VList vars)) (
    append_line "    environment:" ;;
    vars <- lift (py_iter (VList vars)) ;;
    for_each vars compose_env_var) w
  = (Ok tt, add_lines (environment_block vars) w).
Proof.
  intros Hv. destruct vars as [|v vars].
  - cbn [py_bool when ret environment_block]. now rewrite add_lines_nil.
  - cbn [py_bool when py_iter environment_block]. run.
    rewrite (for_each_lines _ _ (fun var => [environment_entry var])).
    + rewrite add_lines_add_lines, flat_map_single. reflexivity.
    + intros x Hx w'. apply compose_env_var_spec.
      rewrite forallb_forall in Hv. now apply Hv.
Qed.


Lemma add_lines_with_lines a b w :
  add_lines b (with_lines a w) = with_lines (a ++ b) w.
Proof. reflexivity. Qed.

Lemma role_ready_parts role :
  role_ready role = true ->
  agent_shaped role = true /\ has "name" role = true
  /\ has "image" role = true /\ has "port" role = true.
Proof.
  unfold role_ready. intros H.
  apply andb_prop in H. destruct H as [H Hp].
  apply andb_prop in H. destruct H as [H Hi].
  apply andb_prop in H. destruct H as [Hs Hn]. auto.
Qed.

Lemma roles_ready_in roles role :
  forallb role_ready roles = true -> In role roles ->
  agent_shaped role = true /\ has "name" role = true
  /\ has "image" role = true /\ has "port" role = true.
Proof.
  intros H Hin. rewrite forallb_forall in H. apply role_ready_parts; auto.
Qed.

Lemma compose_depends_on_spec roles w :
  forallb role_ready roles = true ->
  when (py_bool (VList roles)) (
    append_line "    depends_on:" ;;
    roles <- lift (py_iter (VList roles)) ;;
    for_each roles (fun role =>
      name <- lift (py_getitem role "name") ;;
      append_line ("      - " ++ py_str name))) w
  = (Ok tt, add_lines match map (text "name") roles with
                      | [] => []
                      | names => "    depends_on:" :: map plain_dependency names
                      end w).
Proof.
  intros Hr. destruct roles as [|r roles].
  - cbn [py_bool when ret map]. now rewrite add_lines_nil.
  - cbn [py_bool when py_iter]. run.
    rewrite (for_each_lines _ _ (fun role => [plain_dependency (text "name" role)])).
    + rewrite add_lines_add_lines, flat_map_single. cbn [map app].
      rewrite map_map. reflexivity.
    + intros x Hx w'. destruct (roles_ready_in _ _ Hr Hx) as (_ & Hn & _).
      rewrite (getitem_the _ _ Hn). run. now rewrite text_the.
Qed.

Lemma compose_participant_spec role w :
  role_ready role = true ->
  (role_name <- lift (py_getitem role "name") ;;
   role_image <- lift (py_getitem role "image") ;;
   role_port <- lift (py_getitem role "port") ;;
   extend_lines [
      "  " ++ py_str role_name ++ ":";
      "    image: " ++ py_str role_image;
      "    container_name: " ++ py_str role_name;
      command_line (py_str role_name) (py_str role_port);
      "    healthcheck:";
      healthcheck_test_line (py_str role_port);
      "      interval: 5s";
      "      timeout: 3s";
      "      retries: 10";
      "      start_period: 30s" ] ;;
   role_env <- lift (py_get role "environment" (VList [])) ;;
   when (py_bool role_env) (
      append_line "    environment:" ;;
      vars <- lift (py_iter role_env) ;;
      for_each vars compose_env_var) ;;
   extend_lines [ "    networks:"; "      - agent-network"; "" ]) w
  = (Ok tt, add_lines (participant_service role) w).
Proof.
  intros Hr. destruct (role_ready_parts _ Hr) as (Hs & Hn & Hi & Hp).
  destruct (agent_environment _ Hs) as [He Hv].
  rewrite (getitem_the _ _ Hn), (getitem_the _ _ Hi), (getitem_the _ _ Hp).
  run. rewrite He. run.
  erewrite bind_ok by (apply compose_environment_spec; exact Hv).
  run. unfold extend_lines.
  rewrite !add_lines_add_lines. unfold participant_service, service_head.
  rewrite !text_the, <- ?app_assoc. reflexivity.
Qed.

Lemma collect_names roles :
  forallb role_ready roles = true ->
  collect roles (fun role => py_getitem role "name")
  = Ok (map (the "name") roles).
Proof.
  induction roles as [|r roles IH]; intros H; [reflexivity|].
  cbn [forallb] in H. apply andb_prop in H. destruct H as [Hr H].
  destruct (role_ready_parts _ Hr) as (_ & Hn & _).
  cbn [collect map]. rewrite (getitem_the _ _ Hn), IH by exact H. reflexivity.
Qed.

Ltac flatten := repeat (rewrite <- app_assoc || rewrite <- app_comm_cons).

Lemma generate_docker_compose_spec w :
  shaped (config w) = true ->
  first_failure (config w) = None ->
  generate_docker_compose w
  = (Ok (join nl (compose_file (config w))),
     with_lines (compose_file (config w)) w).
Proof.
  intros Hs Hf.
  destruct (complete_doc _ Hs Hf) as (Hg & Hgs & Hgi & Hgp & Hr & Hne & Hrs).
  destruct (agent_environment _ Hgs) as [Hge Hgv].
  unfold generate_docker_compose. run.
  rewrite Hg. run. rewrite Hr. run.
  rewrite (getitem_the _ _ Hgi), (getitem_the _ _ Hgp). run.
  rewrite Hge. run.
  erewrite bind_ok by (apply compose_environment_spec; exact Hgv).
  erewrite bind_ok by (apply compose_depends_on_spec; exact Hrs).
  run. cbn [py_iter]. run.
  erewrite bind_ok by
    (apply (for_each_lines _ _ participant_service);
     intros x Hx w'; apply compose_participant_spec;
     rewrite forallb_forall in Hrs; auto).
  run. rewrite (collect_names _ Hrs). run.
  erewrite bind_ok by
    (apply (for_each_lines _ _ (fun service =>
       [ "      " ++ py_str service ++ ":";
         "        condition: service_healthy" ])); reflexivity).
  run. rewrite !add_lines_add_lines, !add_lines_with_lines.
  cbn [lines with_lines].
  assert (E : forall l,
    flat_map (fun service => [ "      " ++ py_str service ++ ":";
                               "        condition: service_healthy" ])
             (map (the "name") l)
    = flat_map healthy_dependency (map (text "name") l)).
  { induction l as [|x l IH]; [reflexivity|]. cbn [map flat_map].
    rewrite IH, text_the. reflexivity. }
  assert (El : (compose_header ++ 
     service_head "green-agent" (text "image" (green_agent_of (config w))) (text "port" (green_agent_of (config w))) ++
     environment_block (environment_of (green_agent_of (config w))) ++
     match map (text "name") (required_roles_of (config w)) with
        | [] => []
        | names => "    depends_on:" :: map plain_dependency names
        end ++ network_lines ++
     flat_map participant_service (required_roles_of (config w)) ++
     (runner_head ++ ["    depends_on:"]) ++
     flat_map healthy_dependency ("green-agent" :: map (text "name") (required_roles_of (config w))) ++
     network_lines ++ networks_definition)%list = compose_file (config w)).
  { unfold compose_file, green_service, runner_service, role_names.
    flatten. reflexivity. }
  rewrite <- El. cbn [flat_map]. rewrite E, !text_the.
  flatten. reflexivity.
Qed.

(* ===================================================================== *)
(** ** generate_env_example writes the environment template *)
(* ===================================================================== *)

Lemma env_var_default var : is_env_var var = true ->
  py_in "default" var = Ok (has "default" var).
Proof. destruct var; try discriminate. reflexivity. Qed.

Lemma collect_vars_spec (owner : value) vars w :
  forallb is_env_var vars = true ->
  for_each vars (fun var =>
    has_default <- lift (py_in "default" var) ;;
    if has_default then append_optional (owner, var)
    else append_required (owner, var)) w
  = (Ok tt,
     add_vars (filter (fun ov => negb (has "default" (snd ov)))
                      (map (pair owner) vars))
              (filter (fun ov => has "default" (snd ov))
                      (map (pair owner) vars)) w).
Proof.
  intros Hv.
  rewrite (for_each_vars _ _
    (fun var => if has "default" var then [] else [(owner, var)])
    (fun var => if has "default" var then [(owner, var)] else [])).
  - f_equal. f_equal.
    + clear Hv. induction vars as [|v vars IH]; [reflexivity|].
      cbn [flat_map map filter snd]. rewrite IH. now destruct (has "default" v).
    + clear Hv. induction vars as [|v vars IH]; [reflexivity|].
      cbn [flat_map map filter snd]. rewrite IH. now destruct (has "default" v).
  - intros x Hx w'. rewrite forallb_forall in Hv.
    rewrite (env_var_default _ (Hv _ Hx)). run.
    destruct (has "default" x); reflexivity.
Qed.

Lemma collect_role_vars_spec role w :
  role_ready role = true ->
  (role_env <- lift (py_get role "environment" (VList [])) ;;
   vars <- lift (py_iter role_env) ;;
   for_each vars (fun var =>
      has_default <- lift (py_in "default" var) ;;
      if has_default then
        name <- lift (py_getitem role "name") ;;
        append_optional (name, var)
      else
        name <- lift (py_getitem role "name") ;;
        append_required (name, var))) w
  = (Ok tt,
     add_vars (filter (fun ov => negb (has "default" (snd ov)))
                      (map (pair (the "name" role)) (environment_of role)))
              (filter (fun ov => has "default" (snd ov))
                      (map (pair (the "name" role)) (environment_of role))) w).
Proof.
  intros Hr. destruct (role_ready_parts _ Hr) as (Hs & Hn & _).
  destruct (agent_environment _ Hs) as [He Hv].
  rewrite He. run. cbn [py_iter]. run.
  rewrite <- (collect_vars_spec _ _ _ Hv).
  rewrite (getitem_the _ _ Hn). run. reflexivity.
Qed.

Lemma filter_map_snd {A B C} (p : B -> bool) (g : A -> C) (l : list (A * B)) :
  filter (fun ov => p (snd ov)) (map (fun ov => (g (fst ov), snd ov)) l)
  = map (fun ov => (g (fst ov), snd ov)) (filter (fun ov => p (snd ov)) l).
Proof.
  induction l as [|x l IH]; [reflexivity|]. cbn [map filter snd].
  rewrite IH. now destruct (p (snd x)).
Qed.

Lemma declared_owner_text config :
  declared config = map owner_text (declared_values config).
Proof.
  unfold declared, declared_values. rewrite map_app, map_map. f_equal.
  induction (required_roles_of config) as [|r rs IH]; [reflexivity|].
  cbn [flat_map]. rewrite map_app, map_map, IH. f_equal.
  unfold owner_text. cbn [fst snd]. now rewrite text_the.
Qed.

Lemma required_lines_spec vars w :
  forallb (fun ov => is_env_var (snd ov)) vars = true ->
  when (match vars with [] => false | _ => true end) (
    append_line "# Required variables (no defaults)" ;;
    for_each vars (fun agent_var =>
      let agent_name := fst agent_var in
      let var := snd agent_var in
      var_name <- lift (py_getitem var "name") ;;
      append_line ("# " ++ py_str agent_name) ;;
      append_line (py_str var_name ++ "=")) ;;
    append_line "") w
  = (Ok tt, add_lines (required_section (map owner_text vars)) w).
Proof.
  intros Hv. destruct vars as [|v vars].
  - cbn [when ret map required_section]. now rewrite add_lines_nil.
  - cbn [when]. run.
    erewrite bind_ok by
      (apply (for_each_lines _ _ (fun ov => required_entry (owner_text ov)));
       intros x Hx w'; rewrite forallb_forall in Hv;
       cbv zeta; rewrite getitem_the by
         (specialize (Hv _ Hx); destruct (snd x); try discriminate; exact Hv);
       run; unfold append_line, extend_lines; rewrite add_lines_add_lines;
       unfold required_entry, owner_text; cbn [fst snd];
       now rewrite text_the).
    run. unfold append_line, extend_lines. rewrite !add_lines_add_lines.
    unfold required_section. cbn [map].
    rewrite flat_map_concat_map, <- map_map, <- flat_map_concat_map.
    reflexivity.
Qed.


Lemma optional_lines_spec vars w :
  forallb (fun ov => is_env_var (snd ov) && has "default" (snd ov)) vars = true ->
  when (match vars with [] => false | _ => true end) (
    append_line "# Optional variables (defaults are set in docker-compose.yml)" ;;
    for_each vars (fun agent_var =>
      let agent_name := fst agent_var in
      let var := snd agent_var in
      var_name <- lift (py_getitem var "name") ;;
      default <- lift (py_getitem var "default") ;;
      append_line ("# " ++ py_str agent_name ++ ": " ++ py_str var_name ++ "="
              ++ py_str default)) ;;
    append_line "") w
  = (Ok tt, add_lines (optional_section (map owner_text vars)) w).
Proof.
  intros Hv. destruct vars as [|v vars].
  - cbn [when ret map optional_section]. now rewrite add_lines_nil.
  - cbn [when]. run.
    erewrite bind_ok by
      (apply (for_each_lines _ _ (fun ov => [optional_entry (owner_text ov)]));
       intros x Hx w'; rewrite forallb_forall in Hv;
       specialize (Hv _ Hx); apply andb_prop in Hv; destruct Hv as [Hn Hd];
       cbv zeta; rewrite (getitem_the "name") by
         (destruct (snd x); try discriminate; exact Hn);
       rewrite (getitem_the "default") by exact Hd;
       run; unfold append_line, extend_lines;
       unfold optional_entry, owner_text; cbn [fst snd];
       now rewrite !text_the).
    run. unfold append_line, extend_lines. rewrite !add_lines_add_lines.
    unfold optional_section. cbn [map].
    rewrite flat_map_single, map_map. reflexivity.
Qed.

Lemma declared_values_env_vars config :
  agent_shaped (green_agent_of config) = true ->
  forallb role_ready (required_roles_of config) = true ->
  forallb (fun ov => is_env_var (snd ov)) (declared_values config) = true.
Proof.
  intros Hg Hr. unfold declared_values. rewrite forallb_app. apply andb_true_intro.
  split.
  - destruct (agent_environment _ Hg) as [_ Hv].
    rewrite forallb_forall in *. intros x Hx. apply in_map_iff in Hx.
    destruct Hx as (v & <- & Hv'). apply Hv, Hv'.
  - rewrite forallb_forall in *. intros x Hx. apply in_flat_map in Hx.
    destruct Hx as (r & Hin & Hx). apply in_map_iff in Hx.
    destruct Hx as (v & <- & Hv').
    destruct (role_ready_parts _ (Hr _ Hin)) as (Hs & _).
    destruct (agent_environment _ Hs) as [_ Hv].
    rewrite forallb_forall in Hv. apply Hv, Hv'.
Qed.

Lemma filter_flat_map {A B} (p : B -> bool) (f : A -> list B) l :
  filter p (flat_map f l) = flat_map (fun x => filter p (f x)) l.
Proof.
  induction l as [|x l IH]; [reflexivity|]. cbn [flat_map].
  now rewrite filter_app, IH.
Qed.

Lemma generate_env_example_spec w :
  shaped (config w) = true ->
  first_failure (config w) = None ->
  exists w',
    generate_env_example w = (Ok (join nl (env_file (config w))), w')
    /\ config w' = config w /\ trace w' = trace w.
Proof.
  intros Hs Hf.
  destruct (complete_doc _ Hs Hf) as (Hg & Hgs & Hgi & Hgp & Hr & Hne & Hrs).
  destruct (agent_environment _ Hgs) as [Hge Hgv].
  pose proof (declared_values_env_vars _ Hgs Hrs) as Hd.
  unfold generate_env_example. run.
  rewrite Hg. run. rewrite Hr. run. rewrite Hge. run. cbn [py_iter]. run.
  erewrite bind_ok by (apply collect_vars_spec; exact Hgv). run.
  erewrite bind_ok by
    (apply (for_each_vars _ _
       (fun role => filter (fun ov => negb (has "default" (snd ov)))
                      (map (pair (the "name" role)) (environment_of role)))
       (fun role => filter (fun ov => has "default" (snd ov))
                      (map (pair (the "name" role)) (environment_of role))));
     intros x Hx w'; apply collect_role_vars_spec;
     rewrite forallb_forall in Hrs; auto).
  rewrite add_vars_add_vars, <- !filter_flat_map, <- !filter_app.
  fold (declared_values (config w)). run.
  cbn [all_required_vars all_optional_with_defaults add_vars without_vars app].
  erewrite bind_ok by
    (apply required_lines_spec; rewrite forallb_forall in *;
     intros x Hx; apply filter_In in Hx; apply Hd, Hx).
  run.
  cbn [all_required_vars all_optional_with_defaults add_vars without_vars
       add_lines app].
  erewrite bind_ok by
    (apply optional_lines_spec; rewrite forallb_forall in *;
     intros x Hx; apply filter_In in Hx; destruct Hx as [Hx Hx'];
     rewrite (Hd _ Hx), Hx'; reflexivity).
  run. cbn [lines add_lines add_vars without_vars with_lines]. unfold ret.
  unfold env_file. rewrite declared_owner_text. unfold has_default, owner_text.
  rewrite (filter_map_snd (fun v => negb (has "default" v)) py_str).
  rewrite (filter_map_snd (fun v => has "default" v) py_str).
  flatten. eexists. split; [reflexivity|]. split; reflexivity.
Qed.

(* ===================================================================== *)
(** ** generate_runner_scenario writes the rewritten scenario *)
(* ===================================================================== *)

Lemma copy_field_spec key value w :
  copy_field key value w
  = (Ok tt, add_lines (if renders value then [field_line (key, value)] else []) w).
Proof.
  destruct value; cbn [copy_field renders]; unfold append_line, extend_lines, ret;
    try reflexivity.
  - destruct b; reflexivity.
  - now rewrite add_lines_nil.
  - now rewrite add_lines_nil.
Qed.

Lemma flat_map_filter_map {A B} (p : A -> bool) (f : A -> B) l :
  flat_map (fun x => if p x then [f x] else []) l = map f (filter p l).
Proof.
  induction l as [|x l IH]; [reflexivity|]. cbn [flat_map filter].
  rewrite IH. now destruct (p x).
Qed.

Lemma copy_fields_spec skip (items : dict) w :
  for_each items (fun key_value =>
    let key := fst key_value in
    let value := snd key_value in
    when (negb (in_set key skip)) (copy_field key value)) w
  = (Ok tt, add_lines (copied_fields skip items) w).
Proof.
  rewrite (for_each_lines _ _
    (fun kv => if negb (in_set (fst kv) skip) && renders (snd kv)
               then [field_line kv] else [])).
  - unfold copied_fields. now rewrite flat_map_filter_map.
  - intros [k v] _ w'. cbn [fst snd]. destruct (in_set k skip); cbn [negb when andb].
    + unfold ret. now rewrite add_lines_nil.
    + apply copy_field_spec.
Qed.

Lemma scenario_env_var_spec header var w :
  is_env_var var = true ->
  scenario_env_var header var w
  = (Ok tt, add_lines (environment_table header var) w).
Proof.
  destruct var; try discriminate. unfold is_env_var, has_key. intros Hn.
  unfold scenario_env_var, environment_table, text, item.
  cbn [py_getitem py_in]. unfold dict_getitem, has_key.
  destruct (lookup "name" d) as [n|]; [|discriminate]. run.
  destruct (lookup "default" d) as [x|]; run;
    unfold append_line, extend_lines, ret; rewrite ?add_lines_add_lines;
    reflexivity.
Qed.

Lemma scenario_environment_spec header vars w :
  forallb is_env_var vars = true ->
  when (py_bool (VList vars)) (
    append_line "" ;;
    vars <- lift (py_iter (VList vars)) ;;
    for_each vars (scenario_env_var header)) w
  = (Ok tt, add_lines (environment_tables header vars) w).
Proof.
  intros Hv. destruct vars as [|v vars].
  - cbn [py_bool when ret environment_tables]. now rewrite add_lines_nil.
  - cbn [py_bool when py_iter environment_tables]. run.
    rewrite (for_each_lines _ _ (environment_table header)).
    + now rewrite add_lines_add_lines.
    + intros x Hx w'. apply scenario_env_var_spec.
      rewrite forallb_forall in Hv. now apply Hv.
Qed.

Lemma ready_items role :
  agent_shaped role = true -> py_items role = Ok (fields_of role).
Proof. destruct role; try discriminate. reflexivity. Qed.

Lemma scenario_participant_spec role w :
  role_ready role = true ->
  (append_line "[[participants]]" ;;
   name <- lift (py_getitem role "name") ;;
   append_line ("role = " ++ quoted (py_str name)) ;;
   port <- lift (py_getitem role "port") ;;
   append_line ("endpoint = "
            ++ quoted ("http://" ++ py_str name ++ ":" ++ py_str port)) ;;
   let participant_docker_keys := ["name"; "image"; "port"; "environment"] in
   items <- lift (py_items role) ;;
   for_each items (fun key_value =>
      let key := fst key_value in
      let value := snd key_value in
      when (negb (in_set key participant_docker_keys)) (copy_field key value)) ;;
   role_env <- lift (py_get role "environment" (VList [])) ;;
   when (py_bool role_env) (
      append_line "" ;;
      vars <- lift (py_iter role_env) ;;
      for_each vars (scenario_env_var "[[participants.environment]]")) ;;
   append_line "") w
  = (Ok tt, add_lines (participant_entry role) w).
Proof.
  intros Hr. destruct (role_ready_parts _ Hr) as (Hs & Hn & Hi & Hp).
  destruct (agent_environment _ Hs) as [He Hv].
  run. rewrite (getitem_the _ _ Hn). run. rewrite (getitem_the _ _ Hp). run.
  rewrite (ready_items _ Hs). run.
  erewrite bind_ok by apply copy_fields_spec.
  rewrite He. run.
  erewrite bind_ok by (apply scenario_environment_spec; exact Hv).
  unfold append_line, extend_lines. rewrite !add_lines_add_lines.
  unfold participant_entry. rewrite !text_the. flatten. reflexivity.
Qed.

Lemma scenario_sections_spec (config : dict) w :
  for_each config (fun name_value =>
    let section_name := fst name_value in
    let section_value := snd name_value in
    when (negb (in_set section_name ["green_agent"; "participants"])) (
      append_line ("[" ++ section_name ++ "]") ;;
      match section_value with
      | VDict d =>
          for_each d (fun key_value =>
            copy_field (fst key_value) (snd key_value))
      | _ => ret tt
      end ;;
      append_line "")) w
  = (Ok tt, add_lines (flat_map passed_section (other_sections config)) w).
Proof.
  rewrite (for_each_lines _ _
    (fun nv => if negb (in_set (fst nv) ["green_agent"; "participants"])
               then passed_section nv else [])).
  - f_equal. f_equal. unfold other_sections.
    induction config as [|x l IH]; [reflexivity|]. cbn [flat_map filter].
    rewrite IH. now destruct (negb (in_set (fst x) ["green_agent"; "participants"])).
  - intros [name v] _ w'. cbn [fst snd].
    destruct (in_set name ["green_agent"; "participants"]); cbn [negb when].
    + unfold ret. now rewrite add_lines_nil.
    + run. unfold passed_section. cbn [fst snd].
      assert (E : forall w0,
        match v with
        | VDict d => for_each d (fun kv => copy_field (fst kv) (snd kv))
        | _ => ret tt
        end w0 = (Ok tt, add_lines (copied_fields [] (fields_of v)) w0)).
      { intros w0. destruct v; cbn [fields_of];
          try (unfold ret, copied_fields; cbn [filter map];
               now rewrite add_lines_nil).
        rewrite <- (copy_fields_spec [] d w0). reflexivity. }
      erewrite bind_ok by apply E.
      unfold append_line, extend_lines. rewrite !add_lines_add_lines.
      flatten. reflexivity.
Qed.

Lemma generate_runner_scenario_spec w :
  shaped (config w) = true ->
  first_failure (config w) = None ->
  generate_runner_scenario w
  = (Ok (join nl (scenario_file (config w))),
     with_lines (scenario_file (config w)) w).
Proof.
  intros Hs Hf.
  destruct (complete_doc _ Hs Hf) as (Hg & Hgs & Hgi & Hgp & Hr & Hne & Hrs).
  destruct (agent_environment _ Hgs) as [Hge Hgv].
  unfold generate_runner_scenario. run.
  rewrite Hg. run. rewrite Hr. run.
  rewrite (getitem_the _ _ Hgp). run. rewrite (ready_items _ Hgs). run.
  erewrite bind_ok by apply copy_fields_spec.
  rewrite Hge. run.
  erewrite bind_ok by (apply scenario_environment_spec; exact Hgv).
  run. cbn [py_iter]. run.
  erewrite bind_ok by
    (apply (for_each_lines _ _ participant_entry);
     intros x Hx w'; apply scenario_participant_spec;
     rewrite forallb_forall in Hrs; auto).
  erewrite bind_ok by apply scenario_sections_spec.
  run. rewrite !add_lines_add_lines, !add_lines_with_lines.
  cbn [lines with_lines].
  unfold scenario_file, green_section. rewrite !text_the.
  flatten. reflexivity.
Qed.

(* ===================================================================== *)
(** ** Effects of the four functions *)
(* ===================================================================== *)

(** *** Outcomes of the Python operations *)

Lemma no_exit_dict_getitem d k : no_exit (dict_getitem d k).
Proof. unfold dict_getitem. now destruct (lookup k d). Qed.

Lemma no_exit_py_getitem v k : no_exit (py_getitem v k).
Proof. destruct v; simpl; auto. apply no_exit_dict_getitem. Qed.

Lemma no_exit_py_in k v : no_exit (py_in k v).
Proof. now destruct v. Qed.

Lemma no_exit_py_get v k x : no_exit (py_get v k x).
Proof. now destruct v. Qed.

Lemma no_exit_py_items v : no_exit (py_items v).
Proof. now destruct v. Qed.

Lemma no_exit_py_iter v : no_exit (py_iter v).
Proof. now destruct v. Qed.

Lemma no_exit_py_len v : no_exit (py_len v).
Proof. now destruct v. Qed.

Lemma no_exit_collect {A B} (f : A -> res B) xs :
  (forall x, no_exit (f x)) -> no_exit (collect xs f).
Proof.
  intros Hf. induction xs as [|x xs IH]; simpl; auto.
  specialize (Hf x). destruct (f x); auto.
  destruct (collect xs f); auto.
Qed.

Create HintDb effects.

#[local] Hint Resolve no_exit_dict_getitem no_exit_py_getitem no_exit_py_in
  no_exit_py_get no_exit_py_items no_exit_py_iter no_exit_py_len : effects.

(** *** Silent computations *)

Lemma silent_ret {A} (a : A) : silent (ret a).
Proof. intros w. repeat split. discriminate. Qed.

Lemma silent_lift {A} (r : res A) : no_exit r -> silent (lift r).
Proof.
  intros Hr w. repeat split. intros c E. simpl in E. subst r. exact Hr.
Qed.

Lemma silent_bind {A B} (m : M A) (k : A -> M B) :
  silent m -> (forall a, silent (k a)) -> silent (bind m k).
Proof.
  intros Hm Hk w. unfold bind. destruct (Hm w) as (Hc & Ht & He).
  destruct (m w) as [[a|c|e] w1]; simpl in *.
  - destruct (Hk a w1) as (Hc' & Ht' & He'). repeat split; congruence.
  - now destruct (He c).
  - repeat split; auto. discriminate.
Qed.

Lemma silent_for_each {A} (xs : list A) body :
  (forall x, silent (body x)) -> silent (for_each xs body).
Proof.
  intros Hb. induction xs as [|x xs IH]; simpl.
  - apply silent_ret.
  - apply silent_bind; auto.
Qed.

Lemma silent_when b m : silent m -> silent (when b m).
Proof. destruct b; simpl; auto using silent_ret. Qed.

Lemma silent_arg_config : silent arg_config.
Proof. intros w. repeat split. discriminate. Qed.

Lemma silent_get_lines : silent get_lines.
Proof. intros w. repeat split. discriminate. Qed.

Lemma silent_set_lines ls : silent (set_lines ls).
Proof. intros w. repeat split. discriminate. Qed.

Lemma silent_extend_lines ls : silent (extend_lines ls).
Proof. intros w. repeat split. discriminate. Qed.

Lemma silent_append_line l : silent (append_line l).
Proof. apply silent_extend_lines. Qed.

Lemma silent_get_required : silent get_required.
Proof. intros w. repeat split. discriminate. Qed.

Lemma silent_get_optional : silent get_optional.
Proof. intros w. repeat split. discriminate. Qed.

Lemma silent_reset_vars : silent reset_vars.
Proof. intros w. repeat split. discriminate. Qed.

Lemma silent_append_required x : silent (append_required x).
Proof. intros w. repeat split. discriminate. Qed.

Lemma silent_append_optional x : silent (append_optional x).
Proof. intros w. repeat split. discriminate. Qed.

#[local] Hint Resolve silent_ret silent_arg_config silent_get_lines
  silent_set_lines silent_extend_lines silent_append_line silent_get_required
  silent_get_optional silent_reset_vars silent_append_required
  silent_append_optional : effects.

Ltac silence :=
  repeat first
    [ apply silent_bind; [| intros ?]
    | apply silent_for_each; intros ?
    | apply silent_when
    | apply silent_lift; solve [auto with effects
                               | apply no_exit_collect; auto with effects]
    | solve [auto with effects]
    | match goal with
      | |- silent (if ?b then _ else _) => destruct b
      | |- silent (match ?v with _ => _ end) => destruct v
      end
    | progress cbv zeta ].

Lemma silent_copy_field key value : silent (copy_field key value).
Proof. unfold copy_field. silence. Qed.

Lemma silent_compose_env_var var : silent (compose_env_var var).
Proof. unfold compose_env_var. silence. Qed.

Lemma silent_scenario_env_var header var : silent (scenario_env_var header var).
Proof. unfold scenario_env_var. silence. Qed.

#[local] Hint Resolve silent_copy_field silent_compose_env_var
  silent_scenario_env_var : effects.

Lemma silent_generate_docker_compose : silent generate_docker_compose.
Proof. unfold generate_docker_compose. silence. Qed.

Lemma silent_generate_env_example : silent generate_env_example.
Proof. unfold generate_env_example. silence. Qed.

Lemma silent_generate_runner_scenario : silent generate_runner_scenario.
Proof. unfold generate_runner_scenario. silence. Qed.

(** *** Tame computations *)

Lemma prints_only_refl t : prints_only t t.
Proof. exists []. simpl. now rewrite app_nil_r. Qed.

Lemma prints_only_trans t1 t2 t3 :
  prints_only t1 t2 -> prints_only t2 t3 -> prints_only t1 t3.
Proof.
  intros [a ->] [b ->]. exists (a ++ b)%list. now rewrite map_app, app_assoc.
Qed.

Lemma tame_silent {A} (m : M A) : silent m -> tame m.
Proof.
  intros Hm w. destruct (Hm w) as (Hc & Ht & He). split; [|split]; auto.
  - rewrite Ht. apply prints_only_refl.
  - intros c E. now destruct (He c).
Qed.

Lemma tame_bind {A B} (m : M A) (k : A -> M B) :
  tame m -> (forall a, tame (k a)) -> tame (bind m k).
Proof.
  intros Hm Hk w. unfold bind. destruct (Hm w) as (Hc & Ht & He).
  destruct (m w) as [[a|c|e] w1]; simpl in *.
  - destruct (Hk a w1) as (Hc' & Ht' & He'). split; [|split].
    + congruence.
    + eapply prints_only_trans; eauto.
    + exact He'.
  - split; [exact Hc|split; [exact Ht|]].
    intros code E. apply He. congruence.
  - split; [exact Hc|split; [exact Ht|discriminate]].
Qed.

Lemma tame_for_each {A} (xs : list A) body :
  (forall x, tame (body x)) -> tame (for_each xs body).
Proof.
  intros Hb. induction xs as [|x xs IH]; simpl.
  - apply tame_silent, silent_ret.
  - apply tame_bind; auto.
Qed.

Lemma tame_print text : tame (print text).
Proof.
  intros w. split; [|split].
  - reflexivity.
  - exists [text]. reflexivity.
  - discriminate.
Qed.

Lemma tame_sys_exit_1 {A} : tame (@sys_exit A 1).
Proof.
  intros w. split; [|split].
  - reflexivity.
  - apply prints_only_refl.
  - simpl. congruence.
Qed.

Ltac tameness :=
  repeat first
    [ apply tame_bind; [| intros ?]
    | apply tame_for_each; intros ?
    | apply tame_print
    | apply tame_sys_exit_1
    | apply tame_silent; solve [silence]
    | match goal with
      | |- tame (if ?b then _ else _) => destruct b
      end
    | progress cbv zeta ].

Lemma tame_validate_config : tame validate_config.
Proof. unfold validate_config. tameness. Qed.

(** *** The file system is read, never changed *)

Lemma offline_same {A} (m : M A) :
  (forall w, storage (snd (m w)) = storage w) -> offline m.
Proof. auto. Qed.

Lemma offline_bind {A B} (m : M A) (k : A -> M B) :
  offline m -> (forall a, offline (k a)) -> offline (bind m k).
Proof.
  intros Hm Hk w. unfold bind. specialize (Hm w).
  destruct (m w) as [[a|c|e] w1]; simpl in *; auto.
  now rewrite Hk.
Qed.

Lemma offline_for_each {A} (xs : list A) body :
  (forall x, offline (body x)) -> offline (for_each xs body).
Proof.
  intros Hb. induction xs as [|x xs IH]; cbn [for_each].
  - now apply offline_same.
  - apply offline_bind; auto.
Qed.

Lemma offline_when b m : offline m -> offline (when b m).
Proof. destruct b; cbn [when]; [auto|]. intros _. now apply offline_same. Qed.

Lemma offline_mkdir dir : offline (mkdir dir).
Proof. intros w. unfold mkdir. now destruct (mkdir_fails _ _). Qed.

Lemma offline_write_text path content : offline (write_text path content).
Proof. intros w. unfold write_text. now destruct (open_fails _ _). Qed.

Ltac offlining :=
  repeat match goal with
    | |- offline (bind _ _) => apply offline_bind; [| intros ?]
    | |- offline (for_each _ _) => apply offline_for_each; intros ?
    | |- offline (when _ _) => apply offline_when
    | |- offline (mkdir _) => apply offline_mkdir
    | |- offline (write_text _ _) => apply offline_write_text
    | |- offline (compose_env_var _) => unfold compose_env_var
    | |- offline (copy_field _ _) => unfold copy_field
    | |- offline (scenario_env_var _ _) => unfold scenario_env_var
    | |- offline (if ?b then _ else _) => destruct b
    | |- offline (match ?v with _ => _ end) => destruct v
    | |- offline (let _ := _ in _) => cbv zeta
    | |- offline _ => apply offline_same; reflexivity
    end.

Lemma offline_validate_config : offline validate_config.
Proof. unfold validate_config. offlining. Qed.

Lemma offline_generate_docker_compose : offline generate_docker_compose.
Proof. unfold generate_docker_compose. offlining. Qed.

Lemma offline_generate_env_example : offline generate_env_example.
Proof. unfold generate_env_example. offlining. Qed.

Lemma offline_generate_runner_scenario : offline generate_runner_scenario.
Proof. unfold generate_runner_scenario. offlining. Qed.

(* ===================================================================== *)
(** ** The driver *)
(* ===================================================================== *)


Lemma add_trace_add_trace a b w :
  add_trace b (add_trace a w) = add_trace (a ++ b)%list w.
Proof. unfold add_trace; simpl. now rewrite app_assoc. Qed.

Lemma rstrip_nonempty c s : is_space c = false -> rstrip (String c s) <> "".
Proof. intros H. simpl. rewrite H. now destruct (rstrip s). Qed.

Lemma strip_nonempty c s : is_space c = false -> strip (String c s) <> "".
Proof. intros H. unfold strip. simpl. rewrite H. now apply rstrip_nonempty. Qed.

(** The environment template is never blank: it starts with its two
    comment lines. *)
Lemma env_content_not_blank config :
  py_bool (VStr (strip (join nl (env_file config)))) = true.
Proof.
  unfold env_file, env_header.
  destruct (strip (join nl _)) eqn:E; [|reflexivity].
  exfalso. revert E. cbn [app join]. apply strip_nonempty. reflexivity.
Qed.

Lemma mkdir_ok dir w :
  mkdir_fails (storage w) dir = false ->
  mkdir dir w = (Ok tt, add_trace [EMkdir dir] w).
Proof. intros H. unfold mkdir. now rewrite H. Qed.

Lemma mkdir_raises dir w :
  mkdir_fails (storage w) dir = true -> mkdir dir w = (Raise OSError, w).
Proof. intros H. unfold mkdir. now rewrite H. Qed.

Lemma write_text_ok path content w :
  open_fails (storage w) path = false ->
  write_text path content w = (Ok tt, add_trace [EWrite path content] w).
Proof. intros H. unfold write_text. now rewrite H. Qed.

Lemma write_text_raises path content w :
  open_fails (storage w) path = true ->
  write_text path content w = (Raise OSError, w).
Proof. intros H. unfold write_text. now rewrite H. Qed.

Lemma main_missing (a : args) w :
  main a Missing w
  = (Exit 1, add_trace [EPrint ("Error: TOML file not found: " ++ toml_path a)] w).
Proof. reflexivity. Qed.

(** A run whose output directory cannot be made ends there. *)
Lemma main_blocked (a : args) f w :
  path_exists f = true ->
  mkdir_fails (storage w) (output_dir a) = true ->
  main a f w = (Raise OSError, w).
Proof.
  intros He Hd. unfold main. run. rewrite He. run.
  apply bind_raise. now apply mkdir_raises.
Qed.

Lemma main_unreadable (a : args) e w :
  mkdir_fails (storage w) (output_dir a) = false ->
  main a (Unreadable e) w
  = (Exit 1,
     add_trace (started a ++ [EPrint ("Error parsing TOML file: " ++ e)])%list w).
Proof.
  intros Hd. unfold main, parse_toml. run. cbn [path_exists negb]. run.
  erewrite bind_ok by (apply mkdir_ok; exact Hd). run.
  now rewrite !add_trace_add_trace.
Qed.

Lemma main_rejected (a : args) doc w :
  mkdir_fails (storage w) (output_dir a) = false ->
  fst (validate_config (with_config doc (add_trace (started a) w))) <> Ok tt ->
  main a (Parsed doc) w
  = validate_config (with_config doc (add_trace (started a) w)).
Proof.
  intros Hd H. unfold main, parse_toml. run. cbn [path_exists negb]. run.
  erewrite bind_ok by (apply mkdir_ok; exact Hd). run.
  rewrite !add_trace_add_trace. cbn [app]. fold (started a).
  unfold bind at 1.
  destruct (validate_config _) as [[[]|c|e] w1]; [now destruct H | reflexivity..].
Qed.

Lemma main_accepted (a : args) doc w :
  storage w = sound ->
  shaped doc = true ->
  first_failure doc = None ->
  exists w',
    main a (Parsed doc) w = (Ok tt, w')
    /\ config w' = doc
    /\ trace w' = (trace w ++ started a ++ finished a doc)%list.
Proof.
  intros Hd Hs Hf. unfold main, parse_toml. run. cbn [path_exists negb]. run.
  erewrite bind_ok by (apply mkdir_ok; now rewrite Hd). run.
  rewrite !add_trace_add_trace. cbn [app]. fold (started a).
  set (w1 := with_config doc (add_trace (started a) w)).
  assert (Hc1 : config w1 = doc) by reflexivity.
  erewrite bind_ok by
    (rewrite validate_config_spec by (rewrite Hc1; exact Hs);
     rewrite Hc1, Hf; reflexivity).
  erewrite bind_ok by
    (apply generate_docker_compose_spec; rewrite Hc1; assumption).
  run. rewrite Hc1.
  erewrite bind_ok by
    (apply write_text_ok; cbn [storage add_trace with_lines w1 with_config];
     now rewrite Hd).
  set (w2 := add_trace _ (add_trace _ (with_lines _ w1))).
  assert (Hc2 : config w2 = doc) by reflexivity.
  erewrite bind_ok by
    (apply generate_runner_scenario_spec; rewrite Hc2; assumption).
  run. rewrite Hc2.
  erewrite bind_ok by
    (apply write_text_ok; cbn [storage add_trace with_lines w2 w1 with_config];
     now rewrite Hd).
  set (w3 := add_trace _ (add_trace _ (with_lines _ w2))).
  assert (Hc3 : config w3 = doc) by reflexivity.
  destruct (generate_env_example_spec w3) as (w4 & E4 & Hc4 & Ht4);
    [rewrite Hc3; assumption..|].
  pose proof (offline_generate_env_example w3) as Hd4.
  rewrite E4 in Hd4. cbn [snd] in Hd4.
  rewrite (bind_ok _ _ _ _ _ E4). rewrite Hc3.
  rewrite env_content_not_blank. run.
  erewrite bind_ok by
    (apply write_text_ok; cbn [storage add_trace]; rewrite Hd4;
     cbn [storage add_trace with_lines w3 w2 w1 with_config]; now rewrite Hd).
  run. unfold print, emit.
  rewrite !add_trace_add_trace. eexists. split; [reflexivity|]. split.
  - cbn [config add_trace]. congruence.
  - cbn [trace add_trace]. rewrite Ht4. subst w3 w2 w1.
    cbn [trace add_trace with_lines with_config].
    rewrite <- !app_assoc. reflexivity.
Qed.

(* ===================================================================== *)
(** ** Dependence on the document alone *)
(* ===================================================================== *)

(** *** Steady computations *)

Lemma steady_ret {A} l v (a : A) : steady l v l v (ret a).
Proof. intros w1 w2 H. split; [reflexivity | intros; exact H]. Qed.

Lemma steady_lift {A} l v (r : res A) : steady l v l v (lift r).
Proof. intros w1 w2 H. split; [reflexivity | intros; exact H]. Qed.

Lemma steady_bind {A B} l v l1 v1 l2 v2 (m : M A) (k : A -> M B) :
  steady l v l1 v1 m -> (forall a, steady l1 v1 l2 v2 (k a)) ->
  steady l v l2 v2 (bind m k).
Proof.
  intros Hm Hk w1 w2 H. unfold bind. destruct (Hm w1 w2 H) as [Hr Hw].
  destruct (m w1) as [r1 u1], (m w2) as [r2 u2]. simpl in Hr, Hw. subst r2.
  destruct r1 as [a|c|e].
  - apply Hk, (Hw a), eq_refl.
  - split; [reflexivity | discriminate].
  - split; [reflexivity | discriminate].
Qed.

Lemma steady_for_each {A} l v (xs : list A) body :
  (forall x, steady l v l v (body x)) -> steady l v l v (for_each xs body).
Proof.
  intros Hb. induction xs as [|x xs IH]; simpl.
  - apply steady_ret.
  - eapply steady_bind; eauto.
Qed.

Lemma steady_when l v b m : steady l v l v m -> steady l v l v (when b m).
Proof. destruct b; simpl; auto using steady_ret. Qed.

Lemma steady_arg_config l v : steady l v l v arg_config.
Proof.
  intros w1 w2 H. split; [|intros; exact H]. simpl. f_equal. apply H.
Qed.

Lemma steady_set_lines l v ls : steady l v true v (set_lines ls).
Proof.
  intros w1 w2 (Hc & Hl & Hv). split; [reflexivity|]. intros _ _.
  split; [exact Hc | split; [reflexivity | exact Hv]].
Qed.

Lemma steady_extend_lines v ls : steady true v true v (extend_lines ls).
Proof.
  intros w1 w2 (Hc & Hl & Hv). split; [reflexivity|]. intros _ _.
  split; [exact Hc | split; [|exact Hv]]. intros _. simpl. now rewrite Hl.
Qed.

Lemma steady_append_line v l : steady true v true v (append_line l).
Proof. apply steady_extend_lines. Qed.

Lemma steady_get_lines v : steady true v true v get_lines.
Proof.
  intros w1 w2 H. split; [|intros; exact H]. simpl. f_equal.
  now apply H.
Qed.

Lemma steady_reset_vars l v : steady l v l true reset_vars.
Proof.
  intros w1 w2 (Hc & Hl & Hv). split; [reflexivity|]. intros _ _.
  split; [exact Hc | split; [exact Hl | now split]].
Qed.

Lemma steady_append_required l x : steady l true l true (append_required x).
Proof.
  intros w1 w2 (Hc & Hl & Hv). split; [reflexivity|]. intros _ _.
  destruct (Hv eq_refl) as [Hr Ho].
  split; [exact Hc | split; [exact Hl |]]. intros _. simpl.
  now rewrite Hr, Ho.
Qed.

Lemma steady_append_optional l x : steady l true l true (append_optional x).
Proof.
  intros w1 w2 (Hc & Hl & Hv). split; [reflexivity|]. intros _ _.
  destruct (Hv eq_refl) as [Hr Ho].
  split; [exact Hc | split; [exact Hl |]]. intros _. simpl.
  now rewrite Hr, Ho.
Qed.

Lemma steady_get_required l : steady l true l true get_required.
Proof.
  intros w1 w2 H. split; [|intros; exact H]. simpl. f_equal.
  now apply H.
Qed.

Lemma steady_get_optional l : steady l true l true get_optional.
Proof.
  intros w1 w2 H. split; [|intros; exact H]. simpl. f_equal.
  now apply H.
Qed.

Lemma steady_emit l v e : steady l v l v (emit e).
Proof. intros w1 w2 H. split; [reflexivity | intros; exact H]. Qed.

Lemma steady_print l v text : steady l v l v (print text).
Proof. apply steady_emit. Qed.

Lemma steady_sys_exit {A} l v c : steady l v l v (@sys_exit A c).
Proof. apply steady_lift. Qed.

Ltac steadiness :=
  repeat first
    [ eapply steady_bind; [| intros ?]
    | apply steady_for_each; intros ?
    | apply steady_when
    | apply steady_ret | apply steady_lift | apply steady_arg_config
    | apply steady_set_lines | apply steady_extend_lines
    | apply steady_append_line | apply steady_get_lines
    | apply steady_reset_vars | apply steady_append_required
    | apply steady_append_optional | apply steady_get_required
    | apply steady_get_optional | apply steady_print | apply steady_sys_exit
    | match goal with
      | |- steady _ _ _ _ (if ?b then _ else _) => destruct b
      | |- steady _ _ _ _ (match ?x with _ => _ end) => destruct x
      end
    | progress cbv zeta ].

Lemma steady_validate_config : steady false false false false validate_config.
Proof. unfold validate_config. steadiness. Qed.

Lemma steady_generate_docker_compose :
  steady false false true false generate_docker_compose.
Proof. unfold generate_docker_compose, compose_env_var. steadiness. Qed.

Lemma steady_generate_env_example :
  steady false false true true generate_env_example.
Proof. unfold generate_env_example. steadiness. Qed.

Lemma steady_generate_runner_scenario :
  steady false false true false generate_runner_scenario.
Proof.
  unfold generate_runner_scenario, scenario_env_var, copy_field. steadiness.
Qed.

Lemma alike_same_config w1 w2 : config w1 = config w2 -> alike false false w1 w2.
Proof. intros H. split; [exact H | split; discriminate]. Qed.

Lemma validated_complete doc :
  shaped doc = true -> validated doc -> first_failure doc = None.
Proof.
  unfold validated. intros Hs Hv.
  rewrite validate_config_spec in Hv by exact Hs.
  cbn [config holding with_config] in Hv.
  destruct (first_failure doc); [discriminate | reflexivity].
Qed.

Lemma validate_config_same_outcome w1 w2 :
  config w1 = config w2 ->
  fst (validate_config w1) = fst (validate_config w2).
Proof.
  intros H. apply steady_validate_config, alike_same_config, H.
Qed.


(* ===================================================================== *)
(** ** Runs of the driver *)
(* ===================================================================== *)

(** The files and the status of a run over an accepted document. *)
Lemma main_accepted_files (a : args) doc :
  shaped doc = true ->
  first_failure doc = None ->
  let run := main a (Parsed doc) boot in
  fst run = Ok tt
  /\ created (trace (snd run)) = [output_dir a]
  /\ written (trace (snd run))
     = [ (path_join (output_dir a) "docker-compose.yml",
          join nl (compose_file doc));
         (path_join (output_dir a) "runner-scenario.toml",
          join nl (scenario_file doc));
         (path_join (output_dir a) ".env.example",
          join nl (env_file doc)) ].
Proof.
  intros Hs Hf.
  destruct (main_accepted a doc boot eq_refl Hs Hf) as (w' & E & _ & Ht).
  cbv zeta. rewrite E. cbn [fst snd]. rewrite Ht.
  repeat split; reflexivity.
Qed.

(** The status and the trace of a run over a rejected document. *)
Lemma main_rejected_with (a : args) doc msg :
  shaped doc = true ->
  first_failure doc = Some msg ->
  main a (Parsed doc) boot
  = (Exit 1,
     add_trace [EPrint msg] (with_config doc (add_trace (started a) boot))).
Proof.
  intros Hs Hf.
  assert (E : validate_config (with_config doc (add_trace (started a) boot))
              = (Exit 1, add_trace [EPrint msg]
                           (with_config doc (add_trace (started a) boot)))).
  { rewrite validate_config_spec by exact Hs.
    cbn [config with_config]. now rewrite Hf. }
  rewrite main_rejected; [| reflexivity | rewrite E; discriminate].
  rewrite E. reflexivity.
Qed.

Lemma failed_with_message (a : args) doc msg :
  shaped doc = true ->
  first_failure doc = Some msg ->
  failed_with (main a (Parsed doc) boot) msg.
Proof.
  intros Hs Hf. rewrite (main_rejected_with a doc msg Hs Hf).
  split; [reflexivity | split; [reflexivity|]].
  exists (started a). reflexivity.
Qed.

Lemma no_environment agent :
  has "environment" agent = false -> environment_of agent = [].
Proof.
  unfold has, environment_of. now destruct (item "environment" agent).
Qed.

Lemma nothing_declared doc :
  has "environment" (green_agent_of doc) = false ->
  forallb (fun role => negb (has "environment" role)) (required_roles_of doc)
  = true ->
  declared doc = [].
Proof.
  intros Hg Hr. unfold declared. rewrite (no_environment _ Hg). cbn [map app].
  induction (required_roles_of doc) as [|r rs IH]; [reflexivity|].
  cbn [forallb] in Hr. apply andb_prop in Hr. destruct Hr as [Hr Hrs].
  cbn [flat_map]. rewrite IH by exact Hrs.
  rewrite no_environment; [reflexivity|]. now destruct (has "environment" r).
Qed.


Lemma first_role_failure_at before role after field : forall i,
  forallb role_ready before = true ->
  first_absent ["name"; "image"; "port"] role = Some field ->
  first_role_failure i (before ++ role :: after)
  = Some ("Error: Required field 'participants.required_roles["
          ++ str_of_nat (i + length before) ++ "]." ++ field
          ++ "' not found in TOML").
Proof.
  induction before as [|r before IH]; intros i Hb Hr.
  - cbn [app first_role_failure length]. rewrite Hr, Nat.add_0_r. reflexivity.
  - cbn [forallb] in Hb. apply andb_prop in Hb. destruct Hb as [Hrr Hb].
    destruct (role_ready_parts _ Hrr) as (_ & Hn & Hi & Hp).
    cbn [app first_role_failure length]. unfold first_absent at 1.
    cbn [find]. rewrite Hn, Hi, Hp. cbn [negb].
    rewrite IH by assumption. now rewrite Nat.add_succ_r.
Qed.

Lemma first_role_failure_ready roles : forall i,
  forallb role_ready roles = true -> first_role_failure i roles = None.
Proof.
  induction roles as [|r roles IH]; intros i Hb; [reflexivity|].
  cbn [forallb] in Hb. apply andb_prop in Hb. destruct Hb as [Hrr Hb].
  destruct (role_ready_parts _ Hrr) as (_ & Hn & Hi & Hp).
  cbn [first_role_failure]. unfold first_absent. cbn [find].
  rewrite Hn, Hi, Hp. cbn [negb]. now apply IH.
Qed.

Lemma first_failure_complete_green doc :
  has_key "green_agent" doc = true ->
  has "image" (green_agent_of doc) = true ->
  has "port" (green_agent_of doc) = true ->
  first_failure doc
  = match required_roles_of doc with
    | [] => Some "Error: At least one participant role is required"
    | _ => first_role_failure 0 (required_roles_of doc)
    end.
Proof.
  intros Hg Hi Hp. unfold first_failure, first_absent. rewrite Hg.
  cbn [negb find]. rewrite Hi, Hp. cbn [negb].
  now destruct (required_roles_of doc).
Qed.

(* ===================================================================== *)
(** ** Layout of the artifacts of a validated document *)
(* ===================================================================== *)

Lemma holds_validated w doc :
  shaped doc = true -> validated doc -> config w = doc ->
  shaped (config w) = true /\ first_failure (config w) = None.
Proof.
  intros Hs Hv ->. split; [exact Hs | now apply validated_complete].
Qed.

(** The orchestration file of a validated document, block by block. *)
Lemma compose_layout (doc : dict) (w : world) :
  shaped doc = true ->
  validated doc ->
  config w = doc ->
  role_names doc <> []
  /\ fst (generate_docker_compose w)
     = Ok (join nl
             (compose_header
              ++ service_head "green-agent" (text "image" (green_agent_of doc))
                              (text "port" (green_agent_of doc))
              ++ environment_block (environment_of (green_agent_of doc))
              ++ "    depends_on:" :: map plain_dependency (role_names doc)
              ++ network_lines
              ++ flat_map participant_service (required_roles_of doc)
              ++ runner_head
              ++ "    depends_on:"
                 :: flat_map healthy_dependency ("green-agent" :: role_names doc)
              ++ network_lines
              ++ networks_definition)%list).
Proof.
  intros Hs Hv Hc.
  destruct (holds_validated w doc Hs Hv Hc) as [Hs' Hf'].
  destruct (complete_doc _ Hs' Hf') as (_ & _ & _ & _ & _ & Hne & _).
  rewrite Hc in Hne.
  assert (Hn : role_names doc <> []).
  { unfold role_names.
    destruct (required_roles_of doc); [now destruct Hne | discriminate]. }
  split; [exact Hn|].
  rewrite (generate_docker_compose_spec w Hs' Hf'), Hc. cbn [fst].
  unfold compose_file, green_service, runner_service.
  destruct (role_names doc) eqn:E; [now destruct Hn|].
  flatten. reflexivity.
Qed.

Lemma in_required_section x vars :
  In x vars -> forall line, In line (required_entry x) ->
  In line (required_section vars).
Proof.
  intros Hx line Hl. destruct vars as [|v vars]; [now destruct Hx|].
  unfold required_section. right. apply in_or_app. left.
  apply in_flat_map. eauto.
Qed.

Lemma in_optional_section x vars :
  In x vars -> In (optional_entry x) (optional_section vars).
Proof.
  intros Hx. destruct vars as [|v vars]; [now destruct Hx|].
  unfold optional_section. right. apply in_or_app. left.
  now apply in_map.
Qed.

(** The rewritten scenario of a validated document, section by section. *)
Lemma scenario_layout (doc : dict) (w : world) :
  shaped doc = true ->
  validated doc ->
  config w = doc ->
  fst (generate_runner_scenario w) = Ok (join nl (scenario_file doc)).
Proof.
  intros Hs Hv Hc.
  destruct (holds_validated w doc Hs Hv Hc) as [Hs' Hf'].
  now rewrite (generate_runner_scenario_spec w Hs' Hf'), Hc.
Qed.

Lemma in_copied_fields skip fields line :
  In line (copied_fields skip fields)
  <-> exists key value,
        In (key, value) fields /\ in_set key skip = false
        /\ renders value = true /\ line = field_line (key, value).
Proof.
  unfold copied_fields. rewrite in_map_iff. split.
  - intros ([key value] & <- & Hin). apply filter_In in Hin.
    destruct Hin as [Hin Hp]. cbn [fst snd] in Hp.
    apply andb_prop in Hp. destruct Hp as [Hk Hr].
    exists key, value. repeat split; auto. now destruct (in_set key skip).
  - intros (key & value & Hin & Hk & Hr & ->). exists (key, value).
    split; [reflexivity|]. apply filter_In. split; [exact Hin|].
    cbn [fst snd]. now rewrite Hk, Hr.
Qed.

Lemma copied_fields_all fields :
  forallb (fun kv => renders (snd kv)) fields = true ->
  copied_fields [] fields = map field_line fields.
Proof.
  intros H. unfold copied_fields. f_equal.
  induction fields as [|kv fields IH]; [reflexivity|].
  cbn [forallb] in H. apply andb_prop in H. destruct H as [Hr H].
  cbn [filter in_set existsb negb andb]. rewrite Hr. f_equal. now apply IH.
Qed.

Lemma copied_fields_skip skip before key value after :
  renders value = false ->
  copied_fields skip (before ++ (key, value) :: after)%list
  = copied_fields skip (before ++ after)%list.
Proof.
  intros H. unfold copied_fields. rewrite !filter_app. cbn [filter snd].
  now rewrite H, andb_false_r.
Qed.

Lemma renders_kinds value :
  renders value = true
  <-> match value with
      | VStr _ | VBool _ | VInt _ | VFloat _ | VList _ => True
      | VOther _ _ | VDict _ => False
      end.
Proof. destruct value; cbn [renders]; split; auto; discriminate. Qed.

Lemma copied_fields_skip_table skip before key d after :
  copied_fields skip (before ++ (key, VDict d) :: after)%list
  = copied_fields skip (before ++ after)%list.
Proof.
  unfold copied_fields. rewrite !filter_app. cbn [filter snd renders].
  now rewrite andb_false_r.
Qed.

(* ===================================================================== *)
(** ** Order of the effects of a run *)
(* ===================================================================== *)

(** *** Traces only grow *)

Lemma created_app t1 t2 : created (t1 ++ t2) = (created t1 ++ created t2)%list.
Proof.
  induction t1 as [|e t1 IH]; [reflexivity|].
  destruct e; cbn [app created]; now rewrite IH.
Qed.

Lemma written_app t1 t2 : written (t1 ++ t2) = (written t1 ++ written t2)%list.
Proof.
  induction t1 as [|e t1 IH]; [reflexivity|].
  destruct e; cbn [app written]; now rewrite IH.
Qed.

Lemma created_prints texts : created (map EPrint texts) = [].
Proof. induction texts; simpl; auto. Qed.

Lemma written_prints texts : written (map EPrint texts) = [].
Proof. induction texts; simpl; auto. Qed.

Lemma grows_ret {A} (a : A) : grows (ret a).
Proof. intros w. exists []. simpl. now rewrite app_nil_r. Qed.

Lemma grows_tame {A} (m : M A) : tame m -> grows m.
Proof. intros H w. destruct (H w) as (_ & [texts E] & _). eauto. Qed.

Lemma grows_emit e : grows (emit e).
Proof. intros w. exists [e]. reflexivity. Qed.

Lemma grows_print text : grows (print text).
Proof. apply grows_emit. Qed.

Lemma grows_bind {A B} (m : M A) (k : A -> M B) :
  grows m -> (forall a, grows (k a)) -> grows (bind m k).
Proof.
  intros Hm Hk w. unfold bind. destruct (Hm w) as [es E].
  destruct (m w) as [[a|c|e] w1]; simpl in *; eauto.
  destruct (Hk a w1) as [es' E']. exists (es ++ es')%list.
  now rewrite E', E, app_assoc.
Qed.

Lemma grows_when b m : grows m -> grows (when b m).
Proof. destruct b; simpl; auto using grows_ret. Qed.

Lemma grows_write_text path content : grows (write_text path content).
Proof.
  intros w. unfold write_text. destruct (open_fails _ _).
  - exists []. simpl. now rewrite app_nil_r.
  - exists [EWrite path content]. reflexivity.
Qed.

Ltac growth :=
  repeat match goal with
    | |- grows validate_config => apply grows_tame, tame_validate_config
    | |- grows generate_docker_compose =>
        apply grows_tame, tame_silent, silent_generate_docker_compose
    | |- grows generate_env_example =>
        apply grows_tame, tame_silent, silent_generate_env_example
    | |- grows generate_runner_scenario =>
        apply grows_tame, tame_silent, silent_generate_runner_scenario
    | |- grows (bind _ _) => apply grows_bind; [| intros ?]
    | |- grows (when _ _) => apply grows_when
    | |- grows (print _) => apply grows_print
    | |- grows (emit _) => apply grows_emit
    | |- grows (write_text _ _) => apply grows_write_text
    | |- grows (ret _) => apply grows_ret
    | |- grows (if ?b then _ else _) => destruct b
    | |- grows (let _ := _ in _) => cbv zeta
    end.

(** A run over a parsed document starts with the three events of
    [started]. *)
Lemma main_parsed_grows (a : args) doc w :
  mkdir_fails (storage w) (output_dir a) = false ->
  exists rest,
    trace (snd (main a (Parsed doc) w)) = (trace w ++ started a ++ rest)%list.
Proof.
  intros Hd. unfold main, parse_toml. run. cbn [path_exists negb]. run.
  erewrite bind_ok by (apply mkdir_ok; exact Hd). run.
  rewrite !add_trace_add_trace. cbn [app]. fold (started a).
  match goal with
  | |- context [bind validate_config ?k ?w1] =>
      assert (G : grows (bind validate_config k)) by growth;
      destruct (G w1) as [rest E]; exists rest; rewrite E
  end.
  cbn [trace with_config add_trace]. now rewrite app_assoc.
Qed.
(* ===================================================================== *)
(** ** The claims *)
(* ===================================================================== *)

(** C1 (the code departs from the claim).  The claim: when neither the green
    agent nor any role declares an [environment], the environment template
    is empty and no [.env.example] is written.  The code: [lines] starts
    with two comment lines and a blank one, so the template is never blank,
    the test [env_content.strip()] of the driver always holds, and the file
    is written with the two comment lines as its content. *)
Theorem env_example_written_without_environment (a : args) (doc : dict) :
  shaped doc = true ->
  validated doc ->
  has "environment" (green_agent_of doc) = false ->
  forallb (fun role => negb (has "environment" role)) (required_roles_of doc)
  = true ->
  let content := "# Environment variables for agents" ++ nl
                 ++ "# Copy this file to .env and fill in the required values"
                 ++ nl in
  fst (generate_env_example (holding doc)) = Ok content
  /\ content <> ""
  /\ written (trace (snd (main a (Parsed doc) boot)))
     = [ (path_join (output_dir a) "docker-compose.yml",
          join nl (compose_file doc));
         (path_join (output_dir a) "runner-scenario.toml",
          join nl (scenario_file doc));
         (path_join (output_dir a) ".env.example", content) ].
Proof.
  intros Hs Hv Hg Hr content.
  pose proof (validated_complete doc Hs Hv) as Hf.
  assert (E : join nl (env_file doc) = content).
  { unfold env_file. rewrite (nothing_declared doc Hg Hr). reflexivity. }
  split; [|split].
  - destruct (generate_env_example_spec (holding doc) Hs Hf) as (w' & Ew & _).
    rewrite Ew. cbn [fst config holding with_config]. now rewrite E.
  - discriminate.
  - destruct (main_accepted_files a doc Hs Hf) as (_ & _ & Hw).
    rewrite Hw, E. reflexivity.
Qed.

Lemma env_example_written_for_debate :
  (shaped debate = true /\ validated debate
   /\ has "environment" (green_agent_of debate) = false
   /\ forallb (fun role => negb (has "environment" role))
              (required_roles_of debate) = true)
  /\ In ("out/.env.example",
         "# Environment variables for agents" ++ nl
         ++ "# Copy this file to .env and fill in the required values" ++ nl)
        (written (trace (snd (main cli (Parsed debate) boot)))).
Proof.
  split; [repeat split; reflexivity|].
  destruct (env_example_written_without_environment cli debate
              eq_refl eq_refl eq_refl eq_refl) as (_ & _ & Hw).
  rewrite Hw. right. right. left. reflexivity.
Defined.

(** C2.  Each of the five required-field checks stops the run: with
    [green_agent] absent; with [green_agent.image] absent; with
    [green_agent.port] absent; with no role under
    [participants.required_roles]; with [name], [image] or [port] absent
    from the role at some index, which the message names.  In each case the
    process leaves with status 1, the message is its last output, and no
    file is written.  A document that passes all five is generated from:
    the run ends with status 0 and has written what
    [generate_docker_compose] and [generate_runner_scenario] return. *)
Theorem required_fields_are_checked (a : args) (doc : dict) :
  shaped doc = true ->
  let run := main a (Parsed doc) boot in
  let green_agent := green_agent_of doc in
  let roles := required_roles_of doc in
  (has_key "green_agent" doc = false ->
   failed_with run "Error: Required field 'green_agent' not found in TOML")
  /\ (has_key "green_agent" doc = true ->
      has "image" green_agent = false ->
      failed_with run
        "Error: Required field 'green_agent.image' not found in TOML")
  /\ (has_key "green_agent" doc = true ->
      has "image" green_agent = true ->
      has "port" green_agent = false ->
      failed_with run
        "Error: Required field 'green_agent.port' not found in TOML")
  /\ (has_key "green_agent" doc = true ->
      has "image" green_agent = true ->
      has "port" green_agent = true ->
      roles = [] ->
      failed_with run "Error: At least one participant role is required")
  /\ (has_key "green_agent" doc = true ->
      has "image" green_agent = true ->
      has "port" green_agent = true ->
      forall before role after field,
        roles = (before ++ role :: after)%list ->
        forallb role_ready before = true ->
        first_absent ["name"; "image"; "port"] role = Some field ->
        failed_with run
          ("Error: Required field 'participants.required_roles["
           ++ str_of_nat (length before) ++ "]." ++ field
           ++ "' not found in TOML"))
  /\ (has_key "green_agent" doc = true ->
      has "image" green_agent = true ->
      has "port" green_agent = true ->
      roles <> [] ->
      forallb role_ready roles = true ->
      validated doc
      /\ exists compose scenario rest,
           fst (generate_docker_compose (holding doc)) = Ok compose
           /\ fst (generate_runner_scenario (holding doc)) = Ok scenario
           /\ fst run = Ok tt
           /\ written (trace (snd run))
              = (path_join (output_dir a) "docker-compose.yml", compose)
                :: (path_join (output_dir a) "runner-scenario.toml", scenario)
                :: rest).
Proof.
  intros Hs run green_agent roles. subst run green_agent roles.
  repeat match goal with |- _ /\ _ => split end.
  - intros Hg. apply failed_with_message; [exact Hs|].
    unfold first_failure. now rewrite Hg.
  - intros Hg Hi. apply failed_with_message; [exact Hs|].
    unfold first_failure, first_absent. rewrite Hg. cbn [negb find].
    now rewrite Hi.
  - intros Hg Hi Hp. apply failed_with_message; [exact Hs|].
    unfold first_failure, first_absent. rewrite Hg. cbn [negb find].
    now rewrite Hi, Hp.
  - intros Hg Hi Hp Hr. apply failed_with_message; [exact Hs|].
    rewrite (first_failure_complete_green doc Hg Hi Hp). now rewrite Hr.
  - intros Hg Hi Hp before role after field Hr Hb Hfa.
    apply failed_with_message; [exact Hs|].
    rewrite (first_failure_complete_green doc Hg Hi Hp), Hr.
    rewrite (first_role_failure_at before role after field 0 Hb Hfa).
    now destruct before.
  - intros Hg Hi Hp Hne Hr.
    assert (Hf : first_failure doc = None).
    { rewrite (first_failure_complete_green doc Hg Hi Hp).
      rewrite (first_role_failure_ready _ 0 Hr).
      now destruct (required_roles_of doc). }
    split.
    + unfold validated. rewrite validate_config_spec by exact Hs.
      cbn [config holding with_config]. now rewrite Hf.
    + destruct (main_accepted_files a doc Hs Hf) as (Hok & _ & Hw).
      exists (join nl (compose_file doc)), (join nl (scenario_file doc)).
      eexists. repeat split.
      * now rewrite generate_docker_compose_spec.
      * now rewrite generate_runner_scenario_spec.
      * exact Hok.
      * exact Hw.
Qed.

Lemma required_fields_checked_on_samples :
  failed_with (main cli (Parsed debate_without_green_agent) boot)
    "Error: Required field 'green_agent' not found in TOML"
  /\ failed_with (main cli (Parsed debate_without_image) boot)
       "Error: Required field 'green_agent.image' not found in TOML"
  /\ failed_with (main cli (Parsed debate_without_port) boot)
       "Error: Required field 'green_agent.port' not found in TOML"
  /\ failed_with (main cli (Parsed debate_without_roles) boot)
       "Error: At least one participant role is required"
  /\ failed_with (main cli (Parsed tournament_without_role_image) boot)
       "Error: Required field 'participants.required_roles[1].image' not found in TOML"
  /\ (validated debate
      /\ fst (main cli (Parsed debate) boot) = Ok tt).
Proof.
  split; [|split; [|split; [|split; [|split]]]].
  - exact (proj1 (required_fields_are_checked cli debate_without_green_agent
                    eq_refl) eq_refl).
  - exact (proj1 (proj2 (required_fields_are_checked cli debate_without_image
                           eq_refl)) eq_refl eq_refl).
  - exact (proj1 (proj2 (proj2 (required_fields_are_checked cli
                                  debate_without_port eq_refl)))
             eq_refl eq_refl eq_refl).
  - exact (proj1 (proj2 (proj2 (proj2 (required_fields_are_checked cli
                                         debate_without_roles eq_refl))))
             eq_refl eq_refl eq_refl eq_refl).
  - exact (proj1 (proj2 (proj2 (proj2 (proj2 (required_fields_are_checked cli
                                  tournament_without_role_image eq_refl)))))
             eq_refl eq_refl eq_refl
             [ nth 0 (required_roles_of tournament) (VStr "") ]
             (nth 1 (required_roles_of tournament_without_role_image) (VStr ""))
             [] "image" eq_refl eq_refl eq_refl).
  - destruct (proj2 (proj2 (proj2 (proj2 (proj2 (required_fields_are_checked cli
                                  debate eq_refl)))))
             eq_refl eq_refl eq_refl ltac:(discriminate) eq_refl)
      as (Hv & compose & scenario & rest & _ & _ & Hok & _).
    split; [exact Hv | exact Hok].
Defined.

(** C3.  In the orchestration file of a validated document, the
    [depends_on] of the runner service lists [green-agent] and then the name
    of every required role, each with [condition: service_healthy], however
    many roles there are; the [depends_on] of the green-agent service lists
    the name of every role as a plain entry, with no condition.  The
    service of a role is its head, its environment block and the network
    lines. *)
Theorem runner_depends_on_every_agent (doc : dict) (w : world) :
  shaped doc = true ->
  validated doc ->
  config w = doc ->
  let green_agent := green_agent_of doc in
  let names := map (text "name") (required_roles_of doc) in
  names <> []
  /\ fst (generate_docker_compose w)
     = Ok (join nl
             (compose_header
              ++ service_head "green-agent" (text "image" green_agent)
                              (text "port" green_agent)
              ++ environment_block (environment_of green_agent)
              ++ "    depends_on:"
                 :: map (fun name => ("      - " ++ name)%string) names
              ++ network_lines
              ++ flat_map
                   (fun role =>
                      service_head (text "name" role) (text "image" role)
                                   (text "port" role)
                      ++ environment_block (environment_of role)
                      ++ network_lines)
                   (required_roles_of doc)
              ++ runner_head
              ++ "    depends_on:"
                 :: flat_map
                      (fun name => [ ("      " ++ name ++ ":")%string;
                                     "        condition: service_healthy" ])
                      ("green-agent" :: names)
              ++ network_lines
              ++ networks_definition)%list).
Proof.
  intros Hs Hv Hc green_agent names. subst green_agent names.
  exact (compose_layout doc w Hs Hv Hc).
Qed.

Lemma runner_dependencies_of_debate :
  (shaped debate = true /\ validated debate /\ config (holding debate) = debate)
  /\ fst (generate_docker_compose (holding debate))
     = Ok (join nl
             (compose_header
              ++ service_head "green-agent" "img:latest" "8080"
              ++ [ "    depends_on:"; "      - debater" ]
              ++ network_lines
              ++ service_head "debater" "d:latest" "9000"
              ++ network_lines
              ++ runner_head
              ++ [ "    depends_on:";
                   "      green-agent:";
                   "        condition: service_healthy";
                   "      debater:";
                   "        condition: service_healthy" ]
              ++ network_lines
              ++ networks_definition)%list).
Proof.
  split; [repeat split; reflexivity|].
  exact (proj2 (runner_depends_on_every_agent debate (holding debate)
                  eq_refl eq_refl eq_refl)).
Defined.

(** C4.  Every EnvVar of the document, with its owner, goes to exactly one
    section of the environment template: with a [default] key, to the
    optional section, as the comment [# owner: NAME=default]; without one,
    to the required section, as [NAME=] under a comment naming the owner.
    In the orchestration file the [environment:] block of its owner has
    [- NAME=default] for the first kind and [- NAME=${NAME}] for the
    second. *)
Theorem environment_partition (doc : dict) (w : world) :
  shaped doc = true ->
  validated doc ->
  config w = doc ->
  let green_agent := green_agent_of doc in
  let vars := declared doc in
  let required := filter (fun ov => negb (has_default ov)) vars in
  let optional := filter has_default vars in
  fst (generate_env_example w)
  = Ok (join nl (env_header ++ required_section required
                 ++ optional_section optional)%list)
  /\ fst (generate_docker_compose w)
     = Ok (join nl
             (compose_header
              ++ service_head "green-agent" (text "image" green_agent)
                              (text "port" green_agent)
              ++ environment_block (environment_of green_agent)
              ++ "    depends_on:" :: map plain_dependency (role_names doc)
              ++ network_lines
              ++ flat_map
                   (fun role =>
                      service_head (text "name" role) (text "image" role)
                                   (text "port" role)
                      ++ environment_block (environment_of role)
                      ++ network_lines)
                   (required_roles_of doc)
              ++ runner_service doc
              ++ networks_definition)%list)
  /\ (forall agent_vars, agent_vars <> [] ->
        environment_block agent_vars
        = "    environment:" :: map environment_entry agent_vars)
  /\ (forall owner var default,
        In (owner, var) vars ->
        item "default" var = Some default ->
        In ("# " ++ owner ++ ": " ++ text "name" var ++ "=" ++ py_str default)
           (optional_section optional)
        /\ ~ In (owner, var) required
        /\ environment_entry var
           = "      - " ++ text "name" var ++ "=" ++ py_str default)
  /\ (forall owner var,
        In (owner, var) vars ->
        item "default" var = None ->
        In ("# " ++ owner) (required_section required)
        /\ In (text "name" var ++ "=") (required_section required)
        /\ ~ In (owner, var) optional
        /\ environment_entry var
           = "      - " ++ text "name" var ++ "=${" ++ text "name" var ++ "}").
Proof.
  intros Hs Hv Hc green_agent vars required optional.
  subst green_agent vars required optional.
  destruct (holds_validated w doc Hs Hv Hc) as [Hs' Hf'].
  split; [|split; [|split; [|split]]].
  - destruct (generate_env_example_spec w Hs' Hf') as (w' & E & _).
    rewrite E, Hc. reflexivity.
  - destruct (compose_layout doc w Hs Hv Hc) as [_ E].
    rewrite E. unfold runner_service. do 2 f_equal. flatten. reflexivity.
  - intros agent_vars Hne. now destruct agent_vars.
  - intros owner var default Hin Hd.
    assert (Hh : has_default (owner, var) = true).
    { unfold has_default, has. cbn [snd]. now rewrite Hd. }
    split; [|split].
    + replace ("# " ++ owner ++ ": " ++ text "name" var ++ "=" ++ py_str default)
        with (optional_entry (owner, var)).
      * apply in_optional_section, filter_In. now split.
      * unfold optional_entry, text at 2. cbn [fst snd]. now rewrite Hd.
    + intros Hr. apply filter_In in Hr. destruct Hr as [_ Hr].
      now rewrite Hh in Hr.
    + unfold environment_entry. now rewrite Hd.
  - intros owner var Hin Hd.
    assert (Hh : has_default (owner, var) = false).
    { unfold has_default, has. cbn [snd]. now rewrite Hd. }
    assert (Hr : In (owner, var)
                    (filter (fun ov => negb (has_default ov)) (declared doc))).
    { apply filter_In. split; [exact Hin | now rewrite Hh]. }
    split; [|split; [|split]].
    + apply (in_required_section _ _ Hr). now left.
    + apply (in_required_section _ _ Hr). right. now left.
    + intros Ho. apply filter_In in Ho. destruct Ho as [_ Ho].
      now rewrite Hh in Ho.
    + unfold environment_entry. now rewrite Hd.
Qed.

Lemma environment_partition_of_tournament :
  (shaped tournament = true /\ validated tournament
   /\ config (holding tournament) = tournament)
  /\ fst (generate_env_example (holding tournament))
     = Ok (join nl [ "# Environment variables for agents";
                     "# Copy this file to .env and fill in the required values";
                     "";
                     "# Required variables (no defaults)";
                     "# green-agent";
                     "API_KEY=";
                     "# pro";
                     "TOKEN=";
                     "";
                     "# Optional variables (defaults are set in docker-compose.yml)";
                     "# green-agent: LOG_LEVEL=info";
                     "" ])
  /\ environment_block (environment_of (green_agent_of tournament))
     = [ "    environment:"; "      - API_KEY=${API_KEY}";
         "      - LOG_LEVEL=info" ].
Proof.
  pose proof (environment_partition tournament (holding tournament)
                eq_refl eq_refl eq_refl) as (Htemplate & _ & Hblock & _).
  split; [repeat split; reflexivity|]. split.
  - exact Htemplate.
  - rewrite Hblock by discriminate. reflexivity.
Defined.

(** C5, as amended.  The claim has every other field of a role follow its
    endpoint; the code copies a field only when its value is a str, a
    bool, a number or a list ([role_fields_of_other_kinds_left_out] below
    has a date and a nested table that leave no line).  What holds: in the
    rewritten scenario of a validated document the section [[green_agent]]
    has the line [endpoint = "http://green-agent:<port>"] with the port the
    green agent declares, and none of its lines comes from the fields
    [image], [port] or [environment]; every role gives a
    [[[participants]]] entry that starts with [role = "<name>"] and
    [endpoint = "http://<name>:<port>"] and goes on with those of its other
    fields whose value is a str, a bool, a number or a list, in order: a
    str between two double quotes as it is, with nothing escaped, a bool as
    [true] or [false], a number as it is, a list as Python prints it.  A
    field with a value of another kind (a date or time, a nested table)
    leaves no line. *)
Theorem scenario_endpoints (doc : dict) (w : world) :
  shaped doc = true ->
  validated doc ->
  config w = doc ->
  let green_agent := green_agent_of doc in
  fst (generate_runner_scenario w)
  = Ok (join nl
          ([ "[green_agent]";
             ("endpoint = "
              ++ quoted ("http://green-agent:" ++ text "port" green_agent))%string ]
           ++ copied_fields ["image"; "port"; "environment"]
                            (fields_of green_agent)
           ++ environment_tables "[[green_agent.environment]]"
                                 (environment_of green_agent)
           ++ [""]
           ++ flat_map
                (fun role =>
                   [ "[[participants]]";
                     ("role = " ++ quoted (text "name" role))%string;
                     ("endpoint = "
                      ++ quoted ("http://" ++ text "name" role ++ ":"
                                 ++ text "port" role))%string ]
                   ++ copied_fields ["name"; "image"; "port"; "environment"]
                                    (fields_of role)
                   ++ environment_tables "[[participants.environment]]"
                                         (environment_of role)
                   ++ [""])
                (required_roles_of doc)
           ++ flat_map passed_section (other_sections doc))%list)
  /\ (forall skip fields line,
        In line (copied_fields skip fields)
        <-> exists key value,
              In (key, value) fields /\ in_set key skip = false
              /\ renders value = true /\ line = field_line (key, value))
  /\ (forall value,
        renders value = true
        <-> match value with
            | VStr _ | VBool _ | VInt _ | VFloat _ | VList _ => True
            | VOther _ _ | VDict _ => False
            end)
  /\ (forall key s, field_line (key, VStr s) = key ++ " = " ++ quoted s)
  /\ (forall s, quoted s = String "034" (s ++ String "034" ""))
  /\ (forall key, field_line (key, VBool true) = key ++ " = true")
  /\ (forall key, field_line (key, VBool false) = key ++ " = false")
  /\ (forall key z, field_line (key, VInt z) = key ++ " = " ++ str_of_int z)
  /\ (forall key t, field_line (key, VFloat t) = key ++ " = " ++ t)
  /\ (forall key l,
        field_line (key, VList l)
        = key ++ " = [" ++ join ", " (map py_repr l) ++ "]").
Proof.
  intros Hs Hv Hc green_agent. subst green_agent.
  split; [|split; [|split; [|repeat split]]].
  - rewrite (scenario_layout doc w Hs Hv Hc).
    unfold scenario_file, green_section. do 2 f_equal. flatten. reflexivity.
  - apply in_copied_fields.
  - apply renders_kinds.
Qed.

(** The claim as it stands fails on a role that has a date and a nested
    table among its fields: the entry of the role ends after its
    endpoint. *)
Lemma role_fields_of_other_kinds_left_out :
  (shaped debate_with_dated_role = true /\ validated debate_with_dated_role)
  /\ (exists role,
        required_roles_of debate_with_dated_role = [role]
        /\ item "since" role
           = Some (VOther "2024-01-01" "datetime.date(2024, 1, 1)")
        /\ item "limits" role = Some (VDict [ ("cpu", VInt 2) ]))
  /\ fst (generate_runner_scenario (holding debate_with_dated_role))
     = Ok (join nl [ "[green_agent]";
                     "endpoint = " ++ quoted "http://green-agent:8080";
                     "";
                     "[[participants]]";
                     "role = " ++ quoted "debater";
                     "endpoint = " ++ quoted "http://debater:9000";
                     "" ]).
Proof.
  split; [split; reflexivity|]. split; [|reflexivity].
  eexists. repeat split; reflexivity.
Qed.

Lemma scenario_endpoints_of_debate :
  (shaped debate = true /\ validated debate /\ config (holding debate) = debate)
  /\ fst (generate_runner_scenario (holding debate))
     = Ok (join nl [ "[green_agent]";
                     "endpoint = " ++ quoted "http://green-agent:8080";
                     "";
                     "[[participants]]";
                     "role = " ++ quoted "debater";
                     "endpoint = " ++ quoted "http://debater:9000";
                     "" ]).
Proof.
  split; [repeat split; reflexivity|].
  exact (proj1 (scenario_endpoints debate (holding debate)
                  eq_refl eq_refl eq_refl)).
Defined.

(** C6, as amended.  The claim has every other top-level section
    reproduced unchanged; the code writes each of them anew, value by
    value, and [metadata_not_reproduced_unchanged] below has a section of
    scalars that comes out changed.  What holds: in the rewritten scenario
    of a validated document, after the green agent and the participants,
    every other top-level key of the document gives, in document order, a
    section of its own: its header [[name]], one line [key = value] for
    each of its keys whose value is a str, a bool, a number or a list, in
    order, and a blank line.  A str is put between two double quotes as it
    is, with nothing escaped, a bool as [true] or [false], a number as it
    is, a list as Python prints it (so with [True] and [False] in it); a
    key with a value of another kind (a date or time, a nested table)
    leaves no line. *)
Theorem other_sections_passed_through (doc : dict) (w : world) :
  shaped doc = true ->
  validated doc ->
  config w = doc ->
  fst (generate_runner_scenario w)
  = Ok (join nl
          (green_section doc
           ++ flat_map participant_entry (required_roles_of doc)
           ++ flat_map
                (fun section =>
                   ("[" ++ fst section ++ "]")%string
                   :: copied_fields [] (fields_of (snd section)) ++ [""])
                (filter
                   (fun section =>
                      negb (in_set (fst section) ["green_agent"; "participants"]))
                   doc))%list)
  /\ (forall fields,
        forallb (fun kv => renders (snd kv)) fields = true ->
        copied_fields [] fields = map field_line fields)
  /\ (forall before key value after,
        renders value = false ->
        copied_fields [] (before ++ (key, value) :: after)%list
        = copied_fields [] (before ++ after)%list)
  /\ (forall value,
        renders value = true
        <-> match value with
            | VStr _ | VBool _ | VInt _ | VFloat _ | VList _ => True
            | VOther _ _ | VDict _ => False
            end)
  /\ (forall key s, field_line (key, VStr s) = key ++ " = " ++ quoted s)
  /\ (forall s, quoted s = String "034" (s ++ String "034" ""))
  /\ (forall key b,
        field_line (key, VBool b) = key ++ " = " ++ if b then "true" else "false")
  /\ (forall key z, field_line (key, VInt z) = key ++ " = " ++ str_of_int z)
  /\ (forall key t, field_line (key, VFloat t) = key ++ " = " ++ t)
  /\ (forall key l,
        field_line (key, VList l)
        = key ++ " = [" ++ join ", " (map py_repr l) ++ "]")
  /\ py_repr (VBool true) = "True"
  /\ py_repr (VBool false) = "False".
Proof.
  intros Hs Hv Hc. split; [|split; [|split; [|split; [|repeat split]]]].
  - exact (scenario_layout doc w Hs Hv Hc).
  - exact copied_fields_all.
  - intros before key value after. apply copied_fields_skip.
  - apply renders_kinds.
Qed.

(** The claim as it stands fails on a section [[metadata]] of scalars and
    a list: the double quotes inside [owner] are not escaped, [created]
    has no line, and the booleans of [flags] come out as Python writes
    them. *)
Lemma metadata_not_reproduced_unchanged :
  (shaped debate_with_metadata = true /\ validated debate_with_metadata)
  /\ lookup "metadata" debate_with_metadata
     = Some (VDict [
         ("owner", VStr ("say " ++ quoted "hi"));
         ("created", VOther "2024-01-01" "datetime.date(2024, 1, 1)");
         ("flags", VList [ VBool true; VBool false ]) ])
  /\ fst (generate_runner_scenario (holding debate_with_metadata))
     = Ok (join nl [ "[green_agent]";
                     "endpoint = " ++ quoted "http://green-agent:8080";
                     "";
                     "[[participants]]";
                     "role = " ++ quoted "debater";
                     "endpoint = " ++ quoted "http://debater:9000";
                     "";
                     "[metadata]";
                     "owner = " ++ quoted ("say " ++ quoted "hi");
                     "flags = [True, False]";
                     "" ]).
Proof. split; [split; reflexivity|]. split; reflexivity. Qed.

Lemma metadata_of_tournament_passed_through :
  (shaped tournament = true /\ validated tournament
   /\ config (holding tournament) = tournament)
  /\ fst (generate_runner_scenario (holding tournament))
     = Ok (join nl
             (green_section tournament
              ++ flat_map participant_entry (required_roles_of tournament)
              ++ [ "[title]"; "";
                   "[metadata]"; ("owner = " ++ quoted "x")%string; "" ])%list).
Proof.
  split; [repeat split; reflexivity|].
  exact (proj1 (other_sections_passed_through tournament (holding tournament)
                  eq_refl eq_refl eq_refl)).
Defined.

(** C8.  The validator and the three generators leave the document as they
    found it, whether they return, raise or leave the interpreter: the
    document the world holds afterwards is the one it held before. *)
Theorem document_is_left_unchanged (w : world) :
  config (snd (validate_config w)) = config w
  /\ config (snd (generate_docker_compose w)) = config w
  /\ config (snd (generate_env_example w)) = config w
  /\ config (snd (generate_runner_scenario w)) = config w.
Proof.
  split; [|split; [|split]].
  - apply tame_validate_config.
  - apply silent_generate_docker_compose.
  - apply silent_generate_env_example.
  - apply silent_generate_runner_scenario.
Qed.

(** C9, as amended.  The claim has the output directory created on every
    run whose input path exists; [Path.mkdir] can fail, and
    [output_directory_not_created_over_a_file] below is such a run.  What
    holds: whenever the input path exists, making the output directory is
    the first thing a run does, before it opens the input.  When the
    directory can be made, a run that stops on a parse error or in the
    validator has created it and written no file, and leaves with a
    non-zero status.  When it cannot, the run ends there with the
    [OSError]: nothing is printed, opened, created or written.  A run whose
    input path does not exist creates no directory and no file. *)
Theorem output_directory_is_created_first
    (a : args) (f : file_state) (d : disk) :
  let run := main a f (boot_on d) in
  (path_exists f = true ->
   mkdir_fails d (output_dir a) = false ->
   exists rest,
     trace (snd run)
     = EMkdir (output_dir a)
       :: EPrint ("Reading configuration from " ++ toml_path a)
       :: EOpenRead (toml_path a) :: rest)
  /\ (path_exists f = true ->
      mkdir_fails d (output_dir a) = true ->
      fst run = Raise OSError /\ trace (snd run) = [])
  /\ (forall diagnostic,
        f = Unreadable diagnostic ->
        mkdir_fails d (output_dir a) = false ->
        fst run = Exit 1
        /\ created (trace (snd run)) = [output_dir a]
        /\ written (trace (snd run)) = [])
  /\ (forall doc,
        f = Parsed doc ->
        ~ validated doc ->
        mkdir_fails d (output_dir a) = false ->
        exit_status (fst run) = 1%Z
        /\ created (trace (snd run)) = [output_dir a]
        /\ written (trace (snd run)) = [])
  /\ (f = Missing ->
      fst run = Exit 1
      /\ created (trace (snd run)) = []
      /\ written (trace (snd run)) = []).
Proof.
  cbv zeta. split; [|split; [|split; [|split]]].
  - intros He Hd. destruct f as [|diagnostic|doc]; [discriminate| |].
    + rewrite main_unreadable by exact Hd. eexists. reflexivity.
    + destruct (main_parsed_grows a doc (boot_on d) Hd) as [rest E].
      exists rest. rewrite E. reflexivity.
  - intros He Hd. rewrite (main_blocked a f (boot_on d) He Hd). now split.
  - intros diagnostic -> Hd. rewrite main_unreadable by exact Hd.
    repeat split.
  - intros doc -> Hv Hd.
    set (w1 := with_config doc (add_trace (started a) (boot_on d))).
    assert (Hn : fst (validate_config w1) <> Ok tt).
    { intros E. apply Hv. unfold validated. rewrite <- E.
      now apply validate_config_same_outcome. }
    rewrite (main_rejected a doc (boot_on d) Hd Hn). fold w1.
    destruct (tame_validate_config w1) as (_ & [texts Ht] & He).
    rewrite Ht. cbn [trace w1 with_config add_trace boot_on app].
    rewrite created_app, written_app, created_prints, written_prints.
    repeat split.
    destruct (fst (validate_config w1)) as [[]|code|e] eqn:E.
    + now destruct Hn.
    + cbn [exit_status]. now apply He.
    + reflexivity.
  - intros ->. rewrite main_missing. repeat split.
Qed.

Lemma output_directory_on_samples :
  (created (trace (snd (main cli (Unreadable "bad syntax") boot))) = ["out"]
   /\ written (trace (snd (main cli (Unreadable "bad syntax") boot))) = [])
  /\ (~ validated debate_without_image
      /\ exit_status (fst (main cli (Parsed debate_without_image) boot)) = 1%Z
      /\ created (trace (snd (main cli (Parsed debate_without_image) boot)))
         = ["out"]
      /\ written (trace (snd (main cli (Parsed debate_without_image) boot)))
         = [])
  /\ (fst (main cli (Parsed debate) (boot_on (taken "out"))) = Raise OSError
      /\ trace (snd (main cli (Parsed debate) (boot_on (taken "out")))) = [])
  /\ (created (trace (snd (main cli Missing boot))) = []
      /\ written (trace (snd (main cli Missing boot))) = []).
Proof.
  assert (Hn : ~ validated debate_without_image) by (intros H; discriminate H).
  split; [|split; [|split]].
  - exact (proj2 (proj1 (proj2 (proj2 (output_directory_is_created_first cli
                                         (Unreadable "bad syntax") sound)))
                    "bad syntax" eq_refl eq_refl)).
  - split; [exact Hn|].
    exact (proj1 (proj2 (proj2 (proj2 (output_directory_is_created_first cli
                                  (Parsed debate_without_image) sound))))
             debate_without_image eq_refl Hn eq_refl).
  - exact (proj1 (proj2 (output_directory_is_created_first cli
                           (Parsed debate) (taken "out")))
             eq_refl eq_refl).
  - exact (proj2 (proj2 (proj2 (proj2 (proj2
             (output_directory_is_created_first cli Missing sound)))) eq_refl)).
Defined.

(** The claim as it stands fails on a run whose output path is a file:
    the input path exists, and no directory is created. *)
Lemma output_directory_not_created_over_a_file :
  path_exists (Parsed debate) = true
  /\ fst (main (Args "scenario.toml" "scenario.toml") (Parsed debate)
               (boot_on (taken "scenario.toml")))
     = Raise OSError
  /\ created (trace (snd (main (Args "scenario.toml" "scenario.toml")
                               (Parsed debate)
                               (boot_on (taken "scenario.toml")))))
     = [].
Proof. repeat split. Qed.

(** C10.  In the rewritten scenario, a field whose value is a nested table
    leaves no line: among the extra fields of the green agent, of a role or
    of a passed-through section, the output is the same with the field as
    without it.  A top-level key whose value is not a table gives its
    header [[name]] and a blank line, with nothing between them. *)
Theorem nested_tables_leave_no_line (doc : dict) (w : world) :
  shaped doc = true ->
  validated doc ->
  config w = doc ->
  let green_agent := green_agent_of doc in
  fst (generate_runner_scenario w)
  = Ok (join nl
          ([ "[green_agent]";
             ("endpoint = "
              ++ quoted ("http://green-agent:" ++ text "port" green_agent))%string ]
           ++ copied_fields ["image"; "port"; "environment"]
                            (fields_of green_agent)
           ++ environment_tables "[[green_agent.environment]]"
                                 (environment_of green_agent)
           ++ [""]
           ++ flat_map
                (fun role =>
                   [ "[[participants]]";
                     ("role = " ++ quoted (text "name" role))%string;
                     ("endpoint = "
                      ++ quoted ("http://" ++ text "name" role ++ ":"
                                 ++ text "port" role))%string ]
                   ++ copied_fields ["name"; "image"; "port"; "environment"]
                                    (fields_of role)
                   ++ environment_tables "[[participants.environment]]"
                                         (environment_of role)
                   ++ [""])
                (required_roles_of doc)
           ++ flat_map
                (fun section =>
                   ("[" ++ fst section ++ "]")%string
                   :: copied_fields [] (fields_of (snd section)) ++ [""])
                (other_sections doc))%list)
  /\ (forall skip before key d after,
        copied_fields skip (before ++ (key, VDict d) :: after)%list
        = copied_fields skip (before ++ after)%list)
  /\ (forall skip fields key value,
        In (field_line (key, value)) (copied_fields skip fields) ->
        exists key' value',
          In (key', value') fields /\ renders value' = true
          /\ field_line (key', value') = field_line (key, value))
  /\ (forall name value,
        is_table value = false ->
        (("[" ++ name ++ "]")%string
         :: copied_fields [] (fields_of value) ++ [""])%list
        = [ ("[" ++ name ++ "]")%string; "" ]).
Proof.
  intros Hs Hv Hc green_agent. subst green_agent.
  split; [|split; [|split]].
  - rewrite (scenario_layout doc w Hs Hv Hc).
    unfold scenario_file, green_section. do 2 f_equal. flatten. reflexivity.
  - exact copied_fields_skip_table.
  - intros skip fields key value Hin. apply in_copied_fields in Hin.
    destruct Hin as (k & v & Hin & _ & Hr & E). exists k, v. auto.
  - intros name value Ht. now destruct value.
Qed.

Lemma nested_tables_of_tournament_dropped :
  (shaped tournament = true /\ validated tournament
   /\ config (holding tournament) = tournament)
  /\ fst (generate_runner_scenario (holding tournament))
     = Ok (join nl [ "[green_agent]";
                     "endpoint = " ++ quoted "http://green-agent:8080";
                     "rounds = 3";
                     "strict = true";
                     "";
                     "[[green_agent.environment]]";
                     "name = " ++ quoted "API_KEY";
                     "[[green_agent.environment]]";
                     "name = " ++ quoted "LOG_LEVEL";
                     "default = " ++ quoted "info";
                     "";
                     "[[participants]]";
                     "role = " ++ quoted "pro";
                     "endpoint = " ++ quoted "http://pro:9001";
                     "tags = ['a', 'b']";
                     "";
                     "[[participants.environment]]";
                     "name = " ++ quoted "TOKEN";
                     "";
                     "[[participants]]";
                     "role = " ++ quoted "con";
                     "endpoint = " ++ quoted "http://con:9002";
                     "";
                     "[title]";
                     "";
                     "[metadata]";
                     "owner = " ++ quoted "x";
                     "" ]).
Proof.
  split; [repeat split; reflexivity|].
  exact (proj1 (nested_tables_leave_no_line tournament (holding tournament)
                  eq_refl eq_refl eq_refl)).
Defined.
(* ===================================================================== *)
(** ** More about the validator *)
(* ===================================================================== *)

Lemma verdict_ret {A} (a : A) : verdict (ret a).
Proof. intros w. reflexivity. Qed.

Lemma verdict_lift {A} (r : res A) : no_exit r -> verdict (lift r).
Proof. intros H w. unfold lift. destruct r; try reflexivity. destruct H. Qed.

Lemma verdict_arg_config : verdict arg_config.
Proof. intros w. reflexivity. Qed.

Lemma verdict_bind {A B} (m : M A) (k : A -> M B) :
  verdict m -> (forall a, verdict (k a)) -> verdict (bind m k).
Proof.
  intros Hm Hk w. unfold bind. specialize (Hm w).
  destruct (m w) as [[a|c|e] w1].
  - subst w1. apply Hk.
  - exact Hm.
  - exact Hm.
Qed.

Lemma verdict_for_each {A} (xs : list A) body :
  (forall x, verdict (body x)) -> verdict (for_each xs body).
Proof.
  intros Hb. induction xs as [|x xs IH]; simpl.
  - apply verdict_ret.
  - apply verdict_bind; auto.
Qed.

(** [print(msg); sys.exit(1)] *)
Lemma verdict_complain {A} msg : verdict (bind (print msg) (fun _ => @sys_exit A 1)).
Proof. intros w. simpl. split; [reflexivity | now exists msg]. Qed.

Ltac verdicts :=
  repeat match goal with
    | |- verdict (bind (print _) (fun _ => sys_exit 1)) => apply verdict_complain
    | |- verdict (bind _ _) => apply verdict_bind; [| intros ?]
    | |- verdict (for_each _ _) => apply verdict_for_each; intros ?
    | |- verdict (ret _) => apply verdict_ret
    | |- verdict arg_config => apply verdict_arg_config
    | |- verdict (lift _) => apply verdict_lift; solve [auto with effects]
    | |- verdict (if ?b then _ else _) => destruct b
    | |- verdict (let _ := _ in _) => cbv zeta
    end.

Lemma verdict_validate_config : verdict validate_config.
Proof. unfold validate_config. verdicts. Qed.

(** X1.  Whatever the document, the validator does one of three things:
    it returns and leaves the world as it was; it prints one line and
    leaves the interpreter with status 1; it dies of an exception, having
    printed nothing. *)
Theorem validate_config_gives_one_verdict (w : world) :
  (fst (validate_config w) = Ok tt -> snd (validate_config w) = w)
  /\ (forall code,
        fst (validate_config w) = Exit code ->
        code = 1%Z
        /\ exists msg, snd (validate_config w) = add_trace [EPrint msg] w)
  /\ (forall e,
        fst (validate_config w) = Raise e -> snd (validate_config w) = w).
Proof.
  pose proof (verdict_validate_config w) as H.
  destruct (validate_config w) as [[u|c|e] w1]; cbn [fst snd].
  - repeat split; try discriminate. intros _. exact H.
  - split; [discriminate|]. split; [|discriminate].
    intros code E. injection E as <-. exact H.
  - repeat split; try discriminate. intros e' _. exact H.
Qed.

(** X2.  Whatever the document, none of the three generators changes the
    document, prints, or touches a file, and none leaves the interpreter:
    it returns its text or dies of an exception. *)
Theorem generators_have_no_side_effect (w : world) :
  (config (snd (generate_docker_compose w)) = config w
   /\ trace (snd (generate_docker_compose w)) = trace w
   /\ forall code, fst (generate_docker_compose w) <> Exit code)
  /\ (config (snd (generate_env_example w)) = config w
      /\ trace (snd (generate_env_example w)) = trace w
      /\ forall code, fst (generate_env_example w) <> Exit code)
  /\ (config (snd (generate_runner_scenario w)) = config w
      /\ trace (snd (generate_runner_scenario w)) = trace w
      /\ forall code, fst (generate_runner_scenario w) <> Exit code).
Proof.
  split; [|split].
  - apply silent_generate_docker_compose.
  - apply silent_generate_env_example.
  - apply silent_generate_runner_scenario.
Qed.
(* ===================================================================== *)
(** ** How the three texts begin *)
(* ===================================================================== *)

Lemma appends_ret {A} (a : A) : appends (ret a).
Proof. intros w. exists []. simpl. now rewrite app_nil_r. Qed.

Lemma appends_lift {A} (r : res A) : appends (lift r).
Proof. intros w. exists []. simpl. now rewrite app_nil_r. Qed.

Lemma appends_same {A} (m : M A) :
  (forall w, lines (snd (m w)) = lines w) -> appends m.
Proof. intros H w. exists []. now rewrite H, app_nil_r. Qed.

Lemma appends_extend_lines ls : appends (extend_lines ls).
Proof. intros w. now exists ls. Qed.

Lemma appends_append_line l : appends (append_line l).
Proof. apply appends_extend_lines. Qed.

Lemma appends_bind {A B} (m : M A) (k : A -> M B) :
  appends m -> (forall a, appends (k a)) -> appends (bind m k).
Proof.
  intros Hm Hk w. unfold bind. destruct (Hm w) as [ls E].
  destruct (m w) as [[a|c|e] w1]; simpl in *; eauto.
  destruct (Hk a w1) as [ls' E']. exists (ls ++ ls')%list.
  now rewrite E', E, app_assoc.
Qed.

Lemma appends_for_each {A} (xs : list A) body :
  (forall x, appends (body x)) -> appends (for_each xs body).
Proof.
  intros Hb. induction xs as [|x xs IH]; simpl.
  - apply appends_ret.
  - apply appends_bind; auto.
Qed.

Lemma appends_when b m : appends m -> appends (when b m).
Proof. destruct b; simpl; auto using appends_ret. Qed.

Ltac appending :=
  repeat match goal with
    | |- appends (bind _ _) => apply appends_bind; [| intros ?]
    | |- appends (for_each _ _) => apply appends_for_each; intros ?
    | |- appends (when _ _) => apply appends_when
    | |- appends (ret _) => apply appends_ret
    | |- appends (lift _) => apply appends_lift
    | |- appends (extend_lines _) => apply appends_extend_lines
    | |- appends (append_line _) => apply appends_append_line
    | |- appends arg_config => apply appends_same; reflexivity
    | |- appends get_lines => apply appends_same; reflexivity
    | |- appends get_required => apply appends_same; reflexivity
    | |- appends get_optional => apply appends_same; reflexivity
    | |- appends reset_vars => apply appends_same; reflexivity
    | |- appends (append_required _) => apply appends_same; reflexivity
    | |- appends (append_optional _) => apply appends_same; reflexivity
    | |- appends (compose_env_var _) => unfold compose_env_var
    | |- appends (copy_field _ _) => unfold copy_field
    | |- appends (scenario_env_var _ _) => unfold scenario_env_var
    | |- appends (if ?b then _ else _) => destruct b
    | |- appends (match ?v with _ => _ end) => destruct v
    | |- appends (let _ := _ in _) => cbv zeta
    end.

Lemma headed_join first : 
  headed first (bind get_lines (fun lines => ret (join nl lines))).
Proof.
  intros w [rest E] text H. simpl in H. injection H as <-.
  exists rest. now rewrite E.
Qed.

Lemma headed_bind {A} first (m : M A) (k : A -> M string) :
  appends m -> (forall a, headed first (k a)) -> headed first (bind m k).
Proof.
  intros Hm Hk w [rest E] text H. unfold bind in H.
  destruct (Hm w) as [ls El]. destruct (m w) as [[a|c|e] w1]; try discriminate.
  simpl in El. apply (Hk a w1); [|exact H].
  exists (rest ++ ls)%list. now rewrite El, E, app_assoc.
Qed.

Lemma opens_bind {A} first (m : M A) (k : A -> M string) :
  (forall a, opens first (k a)) -> opens first (bind m k).
Proof.
  intros Hk w text H. unfold bind in H.
  destruct (m w) as [[a|c|e] w1]; try discriminate. exact (Hk a w1 text H).
Qed.

Lemma opens_set_lines first (k : M string) :
  headed first k -> opens first (bind (set_lines first) (fun _ => k)).
Proof.
  intros Hk w text H. apply (Hk (with_lines first w)); [|exact H].
  exists []. simpl. now rewrite app_nil_r.
Qed.

Ltac heading :=
  repeat match goal with
    | |- headed _ (bind get_lines _) => apply headed_join
    | |- headed _ (bind _ _) => apply headed_bind; [solve [appending] | intros ?]
    | |- headed _ (let _ := _ in _) => cbv zeta
    end.

Lemma opens_first_line l (k : M string) :
  headed [l] k ->
  opens [l] (bind (set_lines []) (fun _ => bind (append_line l) (fun _ => k))).
Proof.
  intros Hk w text H. apply (Hk (add_lines [l] (with_lines [] w))); [|exact H].
  exists []. reflexivity.
Qed.

Ltac opening :=
  repeat match goal with
    | |- opens _ (bind (set_lines []) (fun _ => bind (append_line _) _)) =>
        apply opens_first_line; heading
    | |- opens _ (bind (set_lines _) _) => apply opens_set_lines; heading
    | |- opens _ (bind _ _) => apply opens_bind; intros ?
    | |- opens _ (let _ := _ in _) => cbv zeta
    end.

Lemma opens_generate_docker_compose :
  opens compose_header generate_docker_compose.
Proof. unfold generate_docker_compose. opening. Qed.

Lemma opens_generate_env_example : opens env_header generate_env_example.
Proof. unfold generate_env_example. opening. Qed.

Lemma opens_generate_runner_scenario :
  opens ["[green_agent]"] generate_runner_scenario.
Proof. unfold generate_runner_scenario. opening. Qed.

(** Whatever [generate_env_example] returns passes the test
    [env_content.strip()] of the driver. *)
Lemma env_text_not_blank w text :
  fst (generate_env_example w) = Ok text ->
  py_bool (VStr (strip text)) = true.
Proof.
  intros H. destruct (opens_generate_env_example w text H) as [rest ->].
  destruct (strip (join nl _)) eqn:E; [|reflexivity].
  exfalso. revert E. unfold env_header. cbn [app join].
  apply strip_nonempty. reflexivity.
Qed.

(** X3.  Whatever the document, a text that [generate_env_example] returns
    begins with the two comment lines and the blank line of its header; it
    is never empty and never blank, so the driver never skips
    [.env.example]. *)
Theorem env_example_is_never_blank (w : world) (text : string) :
  fst (generate_env_example w) = Ok text ->
  (exists rest,
     text = join nl ([ "# Environment variables for agents";
                       "# Copy this file to .env and fill in the required values";
                       "" ] ++ rest)%list)
  /\ strip text <> ""
  /\ py_bool (VStr (strip text)) = true.
Proof.
  intros H. split; [|split].
  - exact (opens_generate_env_example w text H).
  - pose proof (env_text_not_blank w text H) as Hb. cbn [py_bool] in Hb.
    intros E. now rewrite E in Hb.
  - exact (env_text_not_blank w text H).
Qed.

Lemma env_example_of_tournament_is_not_blank :
  exists text,
    fst (generate_env_example (holding tournament)) = Ok text
    /\ strip text <> "".
Proof.
  assert (H : fst (generate_env_example (holding tournament))
              = Ok (join nl (env_file tournament)))
    by (vm_compute; reflexivity).
  exists (join nl (env_file tournament)). split; [exact H|].
  exact (proj1 (proj2 (env_example_is_never_blank (holding tournament) _ H))).
Defined.

(** X4.  Whatever the document, a text that [generate_docker_compose]
    returns begins with the comment that marks the file as generated, and a
    text that [generate_runner_scenario] returns begins with the header
    [[green_agent]]. *)
Theorem artifacts_begin_with_fixed_lines (w : world) (text : string) :
  (fst (generate_docker_compose w) = Ok text ->
   exists rest,
     text = join nl ([ "# Auto-generated Docker Compose file from scenario.toml";
                       "# Do not edit manually - regenerate using generate_compose.py";
                       "";
                       "version: '3.8'";
                       "";
                       "services:" ] ++ rest)%list)
  /\ (fst (generate_runner_scenario w) = Ok text ->
      exists rest, text = join nl ("[green_agent]" :: rest)).
Proof.
  split.
  - exact (opens_generate_docker_compose w text).
  - exact (opens_generate_runner_scenario w text).
Qed.

Lemma compose_of_debate_begins_with_header :
  exists text rest,
    fst (generate_docker_compose (holding debate)) = Ok text
    /\ text = join nl (compose_header ++ rest)%list.
Proof.
  assert (H : fst (generate_docker_compose (holding debate))
              = Ok (join nl (compose_file debate)))
    by (vm_compute; reflexivity).
  exists (join nl (compose_file debate)).
  destruct (proj1 (artifacts_begin_with_fixed_lines (holding debate) _) H)
    as [rest E].
  exists rest. split; [exact H | exact E].
Defined.

(* ===================================================================== *)
(** ** More about the driver *)
(* ===================================================================== *)

(** A generator run in any world that holds [doc] returns what it returns
    in a fresh one, and leaves document and trace alone. *)
Lemma run_generator (g : M string) l v doc w :
  silent g -> offline g -> steady false false l v g -> config w = doc ->
  exists w',
    g w = (fst (g (holding doc)), w')
    /\ config w' = doc /\ trace w' = trace w /\ storage w' = storage w.
Proof.
  intros Hs Ho Hd Hc. destruct (Hs w) as (Hc' & Ht' & _).
  destruct (Hd w (holding doc)) as [Hr _].
  { apply alike_same_config. now rewrite Hc. }
  exists (snd (g w)). rewrite <- Hr. split; [now destruct (g w)|].
  split; [congruence|]. split; [exact Ht' | apply Ho].
Qed.

Lemma written_add_trace es w :
  written (trace (add_trace es w)) = (written (trace w) ++ written es)%list.
Proof. cbn [trace add_trace]. apply written_app. Qed.

(** A run over a parsed document, on any file system. *)
Lemma main_parsed_run_on (a : args) doc d :
  exists w',
    main a (Parsed doc) (boot_on d) = (fst (expected_run_on d a doc), w')
    /\ written (trace w') = snd (expected_run_on d a doc).
Proof.
  unfold main, parse_toml, expected_run_on. run. cbn [path_exists negb]. run.
  destruct (mkdir_fails d (output_dir a)) eqn:Hm.
  { erewrite bind_raise by (apply mkdir_raises; exact Hm).
    eexists. split; reflexivity. }
  erewrite bind_ok by (apply mkdir_ok; exact Hm). run.
  rewrite !add_trace_add_trace. cbn [app]. fold (started a).
  set (w1 := with_config doc (add_trace (started a) (boot_on d))).
  assert (Hw1 : written (trace w1) = []) by reflexivity.
  assert (Hd1 : storage w1 = d) by reflexivity.
  rewrite <- (validate_config_same_outcome w1 (holding doc)) by reflexivity.
  destruct (tame_validate_config w1) as (Hc2 & [texts Ht2] & _).
  pose proof (offline_validate_config w1) as Hd2.
  unfold bind at 1.
  destruct (validate_config w1) as [[[]|c|e] w2]; cbn [fst snd] in *.
  2,3: eexists; split; [reflexivity|];
       now rewrite Ht2, written_app, Hw1, written_prints.
  assert (Hw2 : written (trace w2) = [])
    by now rewrite Ht2, written_app, Hw1, written_prints.
  (* docker-compose.yml *)
  destruct (run_generator generate_docker_compose _ _ doc w2
              silent_generate_docker_compose offline_generate_docker_compose
              steady_generate_docker_compose Hc2)
    as (w3 & E3 & Hc3 & Ht3 & Hd3).
  unfold bind at 1. rewrite E3.
  pose proof (proj2 (proj2 (silent_generate_docker_compose (holding doc)))) as N3.
  destruct (fst (generate_docker_compose (holding doc))) as [c1|code|e];
    cbn [then_write_on app].
  2: now destruct (N3 code).
  2: eexists; split; [reflexivity|]; now rewrite Ht3, Hw2.
  run.
  destruct (open_fails d (path_join (output_dir a) "docker-compose.yml"))
    eqn:Ho1.
  { erewrite bind_raise by
      (apply write_text_raises; cbn [storage add_trace];
       rewrite Hd3, Hd2, Hd1; exact Ho1).
    eexists. split; [reflexivity|].
    now rewrite written_add_trace, Ht3, Hw2. }
  erewrite bind_ok by
    (apply write_text_ok; cbn [storage add_trace];
     rewrite Hd3, Hd2, Hd1; exact Ho1).
  set (w3' := add_trace _ (add_trace _ w3)).
  assert (Hc3' : config w3' = doc) by exact Hc3.
  assert (Hd3' : storage w3' = d) by (cbn; now rewrite Hd3, Hd2).
  assert (Hw3 : written (trace w3')
                = [(path_join (output_dir a) "docker-compose.yml", c1)]).
  { unfold w3'. rewrite !written_add_trace, Ht3, Hw2. reflexivity. }
  (* runner-scenario.toml *)
  destruct (run_generator generate_runner_scenario _ _ doc w3'
              silent_generate_runner_scenario offline_generate_runner_scenario
              steady_generate_runner_scenario Hc3')
    as (w4 & E4 & Hc4 & Ht4 & Hd4).
  unfold bind at 1. rewrite E4.
  pose proof (proj2 (proj2 (silent_generate_runner_scenario (holding doc)))) as N4.
  destruct (fst (generate_runner_scenario (holding doc))) as [c2|code|e];
    cbn [then_write_on app].
  2: now destruct (N4 code).
  2: eexists; split; [reflexivity|]; now rewrite Ht4, Hw3.
  run.
  destruct (open_fails d (path_join (output_dir a) "runner-scenario.toml"))
    eqn:Ho2.
  { erewrite bind_raise by
      (apply write_text_raises; cbn [storage add_trace];
       rewrite Hd4, Hd3'; exact Ho2).
    eexists. split; [reflexivity|].
    now rewrite written_add_trace, Ht4, Hw3. }
  erewrite bind_ok by
    (apply write_text_ok; cbn [storage add_trace];
     rewrite Hd4, Hd3'; exact Ho2).
  set (w4' := add_trace _ (add_trace _ w4)).
  assert (Hc4' : config w4' = doc) by exact Hc4.
  assert (Hd4' : storage w4' = d) by (cbn; now rewrite Hd4).
  assert (Hw4 : written (trace w4')
                = [(path_join (output_dir a) "docker-compose.yml", c1);
                   (path_join (output_dir a) "runner-scenario.toml", c2)]).
  { unfold w4'. rewrite !written_add_trace, Ht4, Hw3. reflexivity. }
  (* .env.example *)
  destruct (run_generator generate_env_example _ _ doc w4'
              silent_generate_env_example offline_generate_env_example
              steady_generate_env_example Hc4')
    as (w5 & E5 & Hc5 & Ht5 & Hd5).
  unfold bind at 1. rewrite E5.
  pose proof (proj2 (proj2 (silent_generate_env_example (holding doc)))) as N5.
  pose proof (env_text_not_blank (holding doc)) as B5.
  destruct (fst (generate_env_example (holding doc))) as [c3|code|e];
    cbn [then_write_on app].
  2: now destruct (N5 code).
  2: eexists; split; [reflexivity|]; now rewrite Ht5, Hw4.
  rewrite (B5 c3 eq_refl). run.
  destruct (open_fails d (path_join (output_dir a) ".env.example")) eqn:Ho3.
  assert (Ew : forall t p c w,
             bind (print t) (fun _ => write_text p c) w
             = write_text p c (add_trace [EPrint t] w)) by reflexivity.
  { erewrite bind_raise by
      (rewrite Ew; apply write_text_raises; cbn [storage add_trace];
       rewrite Hd5, Hd4'; exact Ho3).
    eexists. split; [reflexivity|].
    now rewrite written_add_trace, Ht5, Hw4. }
  assert (Ew : forall t p c w,
             bind (print t) (fun _ => write_text p c) w
             = write_text p c (add_trace [EPrint t] w)) by reflexivity.
  erewrite bind_ok by
    (rewrite Ew; apply write_text_ok; cbn [storage add_trace];
     rewrite Hd5, Hd4'; exact Ho3).
  run. unfold print, emit. cbn [fst snd].
  eexists. split; [reflexivity|].
  rewrite !written_add_trace, Ht5, Hw4. reflexivity.
Qed.

Lemma expected_run_on_sound a doc :
  expected_run_on sound a doc = expected_run a doc.
Proof.
  unfold expected_run_on, expected_run. cbn [mkdir_fails sound].
  destruct (fst (validate_config (holding doc))); [|reflexivity..].
  unfold then_write_on, then_write. cbn [open_fails sound]. reflexivity.
Qed.

Lemma main_parsed_run (a : args) doc :
  exists w',
    main a (Parsed doc) boot = (fst (expected_run a doc), w')
    /\ written (trace w') = snd (expected_run a doc).
Proof.
  destruct (main_parsed_run_on a doc sound) as (w' & E & Hw).
  rewrite expected_run_on_sound in E, Hw. now exists w'.
Qed.

(** X5.  Whatever the document, a run over it is the four steps in a row:
    validate, then generate and write [docker-compose.yml], then generate
    and write [runner-scenario.toml], then generate and write
    [.env.example].  It stops at the first step that does not return, with
    that step's outcome; the files written are those of the steps before
    it, each with the whole text its generator returns, and no other file
    is ever written. *)
Theorem run_is_the_steps_in_a_row (a : args) (doc : dict) :
  (fst (main a (Parsed doc) boot),
   written (trace (snd (main a (Parsed doc) boot))))
  = expected_run a doc.
Proof.
  destruct (main_parsed_run a doc) as (w' & E & Hw).
  rewrite E. cbn [fst snd]. rewrite Hw. now destruct (expected_run a doc).
Qed.

(** X6.  Whatever [argparse] makes of the command line, whatever the state
    of the input file and the document, and whether or not the calls to
    the file system succeed, the process leaves with status 0, 1 or 2:
    with 2 exactly when [argparse] refuses the command line; with 0
    exactly when it was asked for help, and then it has printed the help
    text and done nothing else, or when it has written its three files,
    in the order [docker-compose.yml], [runner-scenario.toml],
    [.env.example]. *)
Theorem exit_status_tells_success
    (c : invocation) (f : file_state) (d : disk) :
  let run := main c f (boot_on d) in
  (exit_status (fst run) = 0%Z \/ exit_status (fst run) = 1%Z
   \/ exit_status (fst run) = 2%Z)
  /\ (exit_status (fst run) = 2%Z <-> c = BadUsage)
  /\ (exit_status (fst run) = 0%Z
      <-> (exists help, c = AskHelp help)
          \/ exists a compose scenario env,
               c = Accepted a
               /\ written (trace (snd run))
                  = [ (path_join (output_dir a) "docker-compose.yml", compose);
                      (path_join (output_dir a) "runner-scenario.toml",
                       scenario);
                      (path_join (output_dir a) ".env.example", env) ])
  /\ (forall help, c = AskHelp help -> trace (snd run) = [EPrint help]).
Proof.
  cbv zeta. destruct c as [|help|a].
  - (* refused by argparse *)
    cbn. split; [auto|]. split; [tauto|]. split; [|discriminate].
    split; [discriminate|].
    intros [[help H]|(a & c1 & c2 & c3 & H & _)]; discriminate H.
  - (* asked for help *)
    cbn. split; [auto|]. split; [split; discriminate|]. split.
    + split; [intros _; left; now exists help | reflexivity].
    + intros help' H. now injection H as <-.
  - (* two paths *)
    assert (S1 : forall r : res unit * world,
              exit_status (fst r) = 1%Z ->
              (forall c1 c2 c3,
                 written (trace (snd r))
                 <> [ (path_join (output_dir a) "docker-compose.yml", c1);
                      (path_join (output_dir a) "runner-scenario.toml", c2);
                      (path_join (output_dir a) ".env.example", c3) ]) ->
              (exit_status (fst r) = 0%Z \/ exit_status (fst r) = 1%Z
               \/ exit_status (fst r) = 2%Z)
              /\ (exit_status (fst r) = 2%Z <-> Accepted a = BadUsage)
              /\ (exit_status (fst r) = 0%Z
                  <-> (exists help, Accepted a = AskHelp help)
                      \/ exists a' compose scenario env,
                           Accepted a = Accepted a'
                           /\ written (trace (snd r))
                              = [ (path_join (output_dir a')
                                     "docker-compose.yml", compose);
                                  (path_join (output_dir a')
                                     "runner-scenario.toml", scenario);
                                  (path_join (output_dir a')
                                     ".env.example", env) ])
              /\ (forall help,
                    Accepted a = AskHelp help ->
                    trace (snd r) = [EPrint help])).
    { intros r H1 Hw. rewrite H1. split; [auto|].
      split; [split; discriminate|]. split; [|discriminate].
      split; [discriminate|].
      intros [[help H]|(a' & c1 & c2 & c3 & H & Hf)]; [discriminate H|].
      injection H as <-. now destruct (Hw c1 c2 c3). }
    destruct f as [|diagnostic|doc].
    + apply S1; rewrite main_missing; [reflexivity | discriminate].
    + destruct (mkdir_fails d (output_dir a)) eqn:Hm.
      * apply S1;
          rewrite (main_blocked a (Unreadable diagnostic) (boot_on d)
                     eq_refl Hm);
          [reflexivity | discriminate].
      * apply S1; rewrite (main_unreadable a _ (boot_on d) Hm);
          [reflexivity | discriminate].
    + destruct (main_parsed_run_on a doc d) as (w' & E & Hw).
      pose proof (proj2 (proj2 (tame_validate_config (holding doc)))) as N2.
      pose proof (proj2 (proj2 (silent_generate_docker_compose (holding doc))))
        as N3.
      pose proof (proj2 (proj2 (silent_generate_runner_scenario (holding doc))))
        as N4.
      pose proof (proj2 (proj2 (silent_generate_env_example (holding doc))))
        as N5.
      revert E Hw. unfold expected_run_on, then_write_on.
      destruct (mkdir_fails d (output_dir a));
        [intros E Hw; apply S1; rewrite E; cbn [fst snd];
         [reflexivity | rewrite Hw; discriminate] |].
      destruct (fst (validate_config (holding doc))) as [[]|code|e];
        [| rewrite (N2 code eq_refl) | ];
        [| intros E Hw; apply S1; rewrite E; cbn [fst snd];
           [reflexivity | rewrite Hw; discriminate] ..].
      destruct (fst (generate_docker_compose (holding doc))) as [c1|code|e];
        [| now destruct (N3 code)
         | intros E Hw; apply S1; rewrite E; cbn [fst snd];
           [reflexivity | rewrite Hw; discriminate]].
      destruct (open_fails d (path_join (output_dir a) "docker-compose.yml"));
        [intros E Hw; apply S1; rewrite E; cbn [fst snd];
         [reflexivity | rewrite Hw; discriminate] |].
      destruct (fst (generate_runner_scenario (holding doc))) as [c2|code|e];
        [| now destruct (N4 code)
         | intros E Hw; apply S1; rewrite E; cbn [fst snd];
           [reflexivity | rewrite Hw; discriminate]].
      destruct (open_fails d (path_join (output_dir a) "runner-scenario.toml"));
        [intros E Hw; apply S1; rewrite E; cbn [fst snd];
         [reflexivity | rewrite Hw; discriminate] |].
      destruct (fst (generate_env_example (holding doc))) as [c3|code|e];
        [| now destruct (N5 code)
         | intros E Hw; apply S1; rewrite E; cbn [fst snd];
           [reflexivity | rewrite Hw; discriminate]].
      destruct (open_fails d (path_join (output_dir a) ".env.example"));
        [intros E Hw; apply S1; rewrite E; cbn [fst snd];
         [reflexivity | rewrite Hw; discriminate] |].
      cbn [app fst snd]. intros E Hw. rewrite E. cbn [fst snd exit_status].
      rewrite Hw. split; [auto|]. split; [split; discriminate|].
      split; [|discriminate].
      split; [|reflexivity]. intros _. right. now exists a, c1, c2, c3.
Qed.

(* ===================================================================== *)
(** ** Documents of another shape *)
(* ===================================================================== *)

Lemma for_each_app {A} (xs ys : list A) body w :
  for_each (xs ++ ys)%list body w
  = bind (for_each xs body) (fun _ => for_each ys body) w.
Proof.
  revert w. induction xs as [|x xs IH]; intros w; simpl.
  - reflexivity.
  - unfold bind. destruct (body x w) as [[u|c|e] w1]; auto.
Qed.

(** Once the checks on the green agent have passed and the roles are a
    non-empty list, the validator is its loop over the roles. *)
Lemma validate_down_to_roles w green roles :
  lookup "green_agent" (config w) = Some green ->
  py_in "image" green = Ok true ->
  py_in "port" green = Ok true ->
  py_get (dict_get (config w) "participants" (VDict [])) "required_roles"
         (VList []) = Ok (VList roles) ->
  roles <> [] ->
  validate_config w
  = for_each (enumerate roles) (fun i_role =>
      let i := fst i_role in
      let role := snd i_role in
      for_each ["name"; "image"; "port"] (fun field =>
        present <- lift (py_in field role) ;;
        if negb present then
          print ("Error: Required field 'participants.required_roles["
                 ++ str_of_nat i ++ "]." ++ field ++ "' not found in TOML") ;;
          sys_exit 1
        else ret tt)) w.
Proof.
  intros Hg Hi Hp Hr Hne. unfold validate_config. unfold has_key. run.
  rewrite bind_for_each_cons. rewrite Hg. run.
  rewrite bind_for_each_nil. run. unfold dict_getitem. rewrite Hg. run.
  rewrite bind_for_each_cons. run. rewrite Hi. run.
  rewrite bind_for_each_cons. run. rewrite Hp. run.
  rewrite bind_for_each_nil. run.
  rewrite Hr. run. cbn [py_len]. run.
  destruct roles as [|r roles]; [now destruct Hne|].
  cbn [length Nat.ltb Nat.leb]. run. cbn [py_iter]. run. reflexivity.
Qed.

Lemma table_has k green :
  is_table green = true -> has k green = true -> py_in k green = Ok true.
Proof.
  destruct green; try discriminate. unfold has, item. cbn [py_in].
  unfold has_key. intros _ H. now rewrite H.
Qed.

(** X7.  When the green agent is complete but [participants] is anything
    else than a table, the validator dies of an [AttributeError], printing
    no message of its own; the run has created the output directory,
    written no file, and leaves with status 1. *)
Theorem participants_that_is_no_table (a : args) (doc : dict)
    (green participants : value) :
  lookup "green_agent" doc = Some green ->
  is_table green = true ->
  has "image" green = true ->
  has "port" green = true ->
  lookup "participants" doc = Some participants ->
  is_table participants = false ->
  (forall w, config w = doc -> validate_config w = (Raise AttributeError, w))
  /\ fst (main a (Parsed doc) boot) = Raise AttributeError
  /\ exit_status (fst (main a (Parsed doc) boot)) = 1%Z
  /\ trace (snd (main a (Parsed doc) boot)) = started a.
Proof.
  intros Hg Ht Hi Hp Hq Hn.
  assert (Hv : forall w, config w = doc ->
                         validate_config w = (Raise AttributeError, w)).
  { intros w Hc. unfold validate_config. unfold has_key. run. rewrite Hc.
    rewrite bind_for_each_cons. rewrite Hg. run.
    rewrite bind_for_each_nil. run. unfold dict_getitem. rewrite Hg. run.
    rewrite bind_for_each_cons. run. rewrite (table_has _ _ Ht Hi). run.
    rewrite bind_for_each_cons. run. rewrite (table_has _ _ Ht Hp). run.
    rewrite bind_for_each_nil. run.
    unfold dict_get. rewrite Hq. now destruct participants. }
  split; [exact Hv|].
  rewrite main_rejected;
    [| reflexivity | rewrite Hv by reflexivity; discriminate].
  rewrite Hv by reflexivity. repeat split.
Qed.

Lemma listed_participants_of_debate_raise :
  fst (main cli (Parsed debate_with_listed_participants) boot)
  = Raise AttributeError
  /\ trace (snd (main cli (Parsed debate_with_listed_participants) boot))
     = started cli.
Proof.
  destruct (participants_that_is_no_table cli debate_with_listed_participants
              (green_agent_of debate) (VList [ VStr "debater" ])
              eq_refl eq_refl eq_refl eq_refl eq_refl eq_refl)
    as (_ & Hr & _ & Ht).
  split; [exact Hr | exact Ht].
Defined.

Lemma roles_found doc :
  required_roles_of doc <> [] ->
  py_get (dict_get doc "participants" (VDict [])) "required_roles" (VList [])
  = Ok (VList (required_roles_of doc)).
Proof.
  unfold required_roles_of, item.
  destruct (dict_get doc "participants" (VDict [])) as [| | | | | |d];
    try (intros H; now destruct H).
  cbn [py_get]. unfold dict_get.
  destruct (lookup "required_roles" d) as [[]|];
    try (intros H; now destruct H). reflexivity.
Qed.

Lemma ready_tables roles :
  forallb role_ready roles = true -> forallb is_table roles = true.
Proof.
  rewrite !forallb_forall. intros H x Hx.
  apply agent_shaped_table. now destruct (role_ready_parts _ (H x Hx)).
Qed.

(** The validator lets a document through as soon as [in] finds the two
    fields in the green agent and the roles are complete. *)
Lemma validate_accepts w green :
  lookup "green_agent" (config w) = Some green ->
  py_in "image" green = Ok true ->
  py_in "port" green = Ok true ->
  required_roles_of (config w) <> [] ->
  forallb role_ready (required_roles_of (config w)) = true ->
  validate_config w = (Ok tt, w).
Proof.
  intros Hg Hi Hp Hne Hrs.
  rewrite (validate_down_to_roles w green (required_roles_of (config w)))
    by auto using roles_found.
  unfold enumerate. rewrite validate_roles_spec by now apply ready_tables.
  now rewrite first_role_failure_ready.
Qed.

(** A run whose document is let through and whose first generator raises
    stops there, with nothing written. *)
Lemma run_stops_at_compose (a : args) doc e :
  validated doc ->
  fst (generate_docker_compose (holding doc)) = Raise e ->
  fst (main a (Parsed doc) boot) = Raise e
  /\ written (trace (snd (main a (Parsed doc) boot))) = [].
Proof.
  intros Hv Hc. destruct (main_parsed_run a doc) as (w' & E & Hw).
  rewrite E. cbn [fst snd]. rewrite Hw. unfold expected_run.
  unfold validated in Hv. rewrite Hv, Hc. split; reflexivity.
Qed.

(** X8.  The validator looks for [image] and [port] with [in], which on a
    text searches for a substring.  A [green_agent] given as a text that
    contains both words is therefore let through; the run then dies of a
    [TypeError] in [generate_docker_compose], before any file is
    written. *)
Theorem green_agent_given_as_text (a : args) (doc : dict) (s : string) :
  lookup "green_agent" doc = Some (VStr s) ->
  is_substring "image" s = true ->
  is_substring "port" s = true ->
  required_roles_of doc <> [] ->
  forallb role_ready (required_roles_of doc) = true ->
  validated doc
  /\ fst (generate_docker_compose (holding doc)) = Raise TypeError
  /\ fst (main a (Parsed doc) boot) = Raise TypeError
  /\ written (trace (snd (main a (Parsed doc) boot))) = [].
Proof.
  intros Hg Hi Hp Hne Hrs.
  assert (Hv : validated doc).
  { unfold validated. rewrite (validate_accepts _ (VStr s)); auto.
    - cbn [py_in]. now rewrite Hi.
    - cbn [py_in]. now rewrite Hp. }
  assert (Hc : fst (generate_docker_compose (holding doc)) = Raise TypeError).
  { unfold generate_docker_compose. run. unfold dict_getitem.
    cbn [config holding with_config]. rewrite Hg. run.
    rewrite (roles_found _ Hne). run. reflexivity. }
  split; [exact Hv|]. split; [exact Hc|].
  now apply run_stops_at_compose.
Qed.

Lemma green_agent_text_of_debate_is_let_through :
  validated debate_with_green_agent_text
  /\ fst (main cli (Parsed debate_with_green_agent_text) boot)
     = Raise TypeError.
Proof.
  assert (Hne : required_roles_of debate_with_green_agent_text <> [])
    by (cbv; discriminate).
  destruct (green_agent_given_as_text cli debate_with_green_agent_text
              "image on port 8080" eq_refl eq_refl eq_refl Hne eq_refl)
    as (Hv & _ & Hr & _).
  split; [exact Hv | exact Hr].
Defined.

Lemma py_bool_middle (before : list value) x after :
  py_bool (VList (before ++ x :: after)) = true.
Proof. now destruct before. Qed.

Lemma item_get green k v dflt :
  item k green = Some v -> py_get green k dflt = Ok v.
Proof.
  destruct green; try discriminate. unfold item. cbn [py_get].
  unfold dict_get. now intros ->.
Qed.

Lemma has_table k green : has k green = true -> is_table green = true.
Proof. now destruct green. Qed.

Lemma compose_environment_raises before var after w :
  forallb is_env_var before = true ->
  has_key "name" var = false ->
  exists w',
    when (py_bool (VList (before ++ VDict var :: after))) (
      append_line "    environment:" ;;
      vars <- lift (py_iter (VList (before ++ VDict var :: after))) ;;
      for_each vars compose_env_var) w
    = (Raise KeyError, w').
Proof.
  intros Hb Hn. rewrite py_bool_middle. cbn [when py_iter]. run.
  rewrite for_each_app.
  erewrite bind_ok by
    (apply (for_each_lines _ _ (fun var => [environment_entry var]));
     intros x Hx w'; apply compose_env_var_spec;
     rewrite forallb_forall in Hb; auto).
  rewrite for_each_cons. unfold compose_env_var at 1. cbn [py_getitem].
  unfold dict_getitem. unfold has_key in Hn.
  destruct (lookup "name" var); [discriminate|]. run. eexists. reflexivity.
Qed.

(** X9.  The validator does not look into [environment].  When an entry of
    the green agent's [environment] has no [name], the document is still
    let through; [generate_docker_compose] then raises [KeyError] at that
    entry, and the run ends with nothing written. *)
Theorem environment_entry_without_name (a : args) (doc : dict)
    (green : value) (before after : list value) (var : dict) :
  lookup "green_agent" doc = Some green ->
  has "image" green = true ->
  has "port" green = true ->
  item "environment" green = Some (VList (before ++ VDict var :: after)) ->
  forallb is_env_var before = true ->
  has_key "name" var = false ->
  required_roles_of doc <> [] ->
  forallb role_ready (required_roles_of doc) = true ->
  validated doc
  /\ fst (generate_docker_compose (holding doc)) = Raise KeyError
  /\ fst (main a (Parsed doc) boot) = Raise KeyError
  /\ written (trace (snd (main a (Parsed doc) boot))) = [].
Proof.
  intros Hg Hi Hp He Hb Hn Hne Hrs.
  pose proof (has_table _ _ Hi) as Ht.
  assert (Hv : validated doc).
  { unfold validated. rewrite (validate_accepts _ green); auto using table_has. }
  assert (Hc : fst (generate_docker_compose (holding doc)) = Raise KeyError).
  { unfold generate_docker_compose. run. unfold dict_getitem at 1.
    cbn [config holding with_config]. rewrite Hg. run.
    rewrite (roles_found _ Hne). run.
    rewrite (getitem_the _ _ Hi), (getitem_the _ _ Hp). run.
    rewrite (item_get _ _ _ _ He). run.
    match goal with |- context [bind ?m ?k ?w0] =>
      destruct (compose_environment_raises before var after w0 Hb Hn)
        as [w' E]
    end.
    erewrite bind_raise by exact E. reflexivity. }
  split; [exact Hv|]. split; [exact Hc|].
  now apply run_stops_at_compose.
Qed.

Lemma nameless_entry_of_tournament_raises :
  validated tournament_with_nameless_entry
  /\ fst (main cli (Parsed tournament_with_nameless_entry) boot)
     = Raise KeyError.
Proof.
  assert (Hne : required_roles_of tournament_with_nameless_entry <> [])
    by (cbv; discriminate).
  destruct (environment_entry_without_name cli tournament_with_nameless_entry
              (green_agent_of tournament_with_nameless_entry)
              [ VDict [ ("name", VStr "API_KEY") ] ] []
              [ ("default", VStr "info") ]
              eq_refl eq_refl eq_refl eq_refl eq_refl eq_refl Hne eq_refl)
    as (Hv & _ & Hr & _).
  split; [exact Hv | exact Hr].
Defined.

Lemma false_environment green ev :
  item "environment" green = Some ev -> py_bool ev = false ->
  environment_of green = [].
Proof.
  unfold environment_of. intros -> H. destruct ev; try reflexivity.
  destruct l; [reflexivity | discriminate].
Qed.

Lemma found_green_agent doc green :
  lookup "green_agent" doc = Some green ->
  green_agent_of doc = green
  /\ dict_getitem doc "green_agent" = Ok green.
Proof.
  intros H. unfold green_agent_of, dict_get, dict_getitem. now rewrite H.
Qed.

(** [generate_docker_compose] skips an [environment] that counts as
    false, whatever its type. *)
Lemma compose_skips_false_environment w ev :
  has_key "green_agent" (config w) = true ->
  has "image" (green_agent_of (config w)) = true ->
  has "port" (green_agent_of (config w)) = true ->
  item "environment" (green_agent_of (config w)) = Some ev ->
  py_bool ev = false ->
  required_roles_of (config w) <> [] ->
  forallb role_ready (required_roles_of (config w)) = true ->
  generate_docker_compose w
  = (Ok (join nl (compose_file (config w))),
     with_lines (compose_file (config w)) w).
Proof.
  intros Hk Hgi Hgp He Hf Hne Hrs.
  assert (Hg : dict_getitem (config w) "green_agent"
               = Ok (green_agent_of (config w))).
  { unfold has_key in Hk. unfold dict_getitem, green_agent_of, dict_get.
    now destruct (lookup "green_agent" (config w)). }
  unfold generate_docker_compose. run.
  rewrite Hg. run. rewrite (roles_found _ Hne). run.
  rewrite (getitem_the _ _ Hgi), (getitem_the _ _ Hgp). run.
  rewrite (item_get _ _ _ _ He). run. rewrite Hf. cbn [when]. run.
  erewrite bind_ok by (apply compose_depends_on_spec; exact Hrs).
  run. cbn [py_iter]. run.
  erewrite bind_ok by
    (apply (for_each_lines _ _ participant_service);
     intros x Hx w'; apply compose_participant_spec;
     rewrite forallb_forall in Hrs; auto).
  run. rewrite (collect_names _ Hrs). run.
  erewrite bind_ok by
    (apply (for_each_lines _ _ (fun service =>
       [ "      " ++ py_str service ++ ":";
         "        condition: service_healthy" ])); reflexivity).
  run. rewrite !add_lines_add_lines, !add_lines_with_lines.
  cbn [lines with_lines].
  assert (E : forall l,
    flat_map (fun service => [ "      " ++ py_str service ++ ":";
                               "        condition: service_healthy" ])
             (map (the "name") l)
    = flat_map healthy_dependency (map (text "name") l)).
  { induction l as [|x l IH]; [reflexivity|]. cbn [map flat_map].
    rewrite IH, text_the. reflexivity. }
  assert (El : (compose_header ++
     service_head "green-agent" (text "image" (green_agent_of (config w)))
                  (text "port" (green_agent_of (config w))) ++
     match map (text "name") (required_roles_of (config w)) with
        | [] => []
        | names => "    depends_on:" :: map plain_dependency names
        end ++ network_lines ++
     flat_map participant_service (required_roles_of (config w)) ++
     (runner_head ++ ["    depends_on:"]) ++
     flat_map healthy_dependency
       ("green-agent" :: map (text "name") (required_roles_of (config w))) ++
     network_lines ++ networks_definition)%list = compose_file (config w)).
  { unfold compose_file, green_service, runner_service, role_names.
    rewrite (false_environment _ _ He Hf). cbn [environment_block app].
    flatten. reflexivity. }
  rewrite <- El. cbn [flat_map]. rewrite E, !text_the.
  flatten. reflexivity.
Qed.

(** So does [generate_runner_scenario]. *)
Lemma scenario_skips_false_environment w ev :
  has_key "green_agent" (config w) = true ->
  has "image" (green_agent_of (config w)) = true ->
  has "port" (green_agent_of (config w)) = true ->
  item "environment" (green_agent_of (config w)) = Some ev ->
  py_bool ev = false ->
  required_roles_of (config w) <> [] ->
  forallb role_ready (required_roles_of (config w)) = true ->
  generate_runner_scenario w
  = (Ok (join nl (scenario_file (config w))),
     with_lines (scenario_file (config w)) w).
Proof.
  intros Hk Hgi Hgp He Hf Hne Hrs.
  assert (Hg : dict_getitem (config w) "green_agent"
               = Ok (green_agent_of (config w))).
  { unfold has_key in Hk. unfold dict_getitem, green_agent_of, dict_get.
    now destruct (lookup "green_agent" (config w)). }
  assert (Hi : py_items (green_agent_of (config w))
               = Ok (fields_of (green_agent_of (config w)))).
  { pose proof (has_table _ _ Hgi) as Ht.
    now destruct (green_agent_of (config w)). }
  unfold generate_runner_scenario. run.
  rewrite Hg. run. rewrite (roles_found _ Hne). run.
  rewrite (getitem_the _ _ Hgp). run. rewrite Hi. run.
  erewrite bind_ok by apply copy_fields_spec.
  rewrite (item_get _ _ _ _ He). run. rewrite Hf. cbn [when]. run.
  cbn [py_iter]. run.
  erewrite bind_ok by
    (apply (for_each_lines _ _ participant_entry);
     intros x Hx w'; apply scenario_participant_spec;
     rewrite forallb_forall in Hrs; auto).
  erewrite bind_ok by apply scenario_sections_spec.
  run. rewrite !add_lines_add_lines, !add_lines_with_lines.
  cbn [lines with_lines].
  unfold scenario_file, green_section. rewrite !text_the.
  rewrite (false_environment _ _ He Hf). cbn [environment_tables app].
  flatten. reflexivity.
Qed.

(** X10.  [generate_docker_compose] and [generate_runner_scenario] guard
    their loop over the green agent's [environment] with a truth test;
    [generate_env_example] loops without one.  When [environment] is a
    value that counts as false and cannot be iterated (false, 0 or 0.0),
    the document is let through, the first two files are written in full,
    and the run then dies of a [TypeError] without [.env.example]. *)
Theorem environment_that_is_false (a : args) (doc : dict)
    (green ev : value) :
  lookup "green_agent" doc = Some green ->
  has "image" green = true ->
  has "port" green = true ->
  item "environment" green = Some ev ->
  py_bool ev = false ->
  py_iter ev = Raise TypeError ->
  required_roles_of doc <> [] ->
  forallb role_ready (required_roles_of doc) = true ->
  validated doc
  /\ fst (main a (Parsed doc) boot) = Raise TypeError
  /\ written (trace (snd (main a (Parsed doc) boot)))
     = [ (path_join (output_dir a) "docker-compose.yml",
          join nl (compose_file doc));
         (path_join (output_dir a) "runner-scenario.toml",
          join nl (scenario_file doc)) ].
Proof.
  intros Hg Hi Hp He Hf Hn Hne Hrs.
  pose proof (has_table _ _ Hi) as Ht.
  destruct (found_green_agent _ _ Hg) as [Eg Hgi].
  assert (Hk : has_key "green_agent" doc = true)
    by (unfold has_key; now rewrite Hg).
  assert (Hv : validated doc).
  { unfold validated. rewrite (validate_accepts _ green); auto using table_has. }
  split; [exact Hv|].
  destruct (main_parsed_run a doc) as (w' & E & Hw).
  rewrite E. cbn [fst snd]. rewrite Hw. unfold expected_run.
  unfold validated in Hv. rewrite Hv.
  rewrite (compose_skips_false_environment (holding doc) ev),
          (scenario_skips_false_environment (holding doc) ev);
    cbn [config holding with_config]; rewrite ?Eg; auto.
  assert (Hx : fst (generate_env_example (holding doc)) = Raise TypeError).
  { unfold generate_env_example. run. cbn [config holding with_config].
    rewrite Hgi. run. rewrite (roles_found _ Hne). run.
    rewrite (item_get _ _ _ _ He). run. rewrite Hn. reflexivity. }
  cbn [fst then_write app]. rewrite Hx. split; reflexivity.
Qed.

Lemma environment_off_of_debate_stops_after_two_files :
  fst (main cli (Parsed debate_with_environment_off) boot) = Raise TypeError
  /\ map fst (written (trace (snd (main cli (Parsed debate_with_environment_off)
                                        boot))))
     = [ "out/docker-compose.yml"; "out/runner-scenario.toml" ].
Proof.
  assert (Hne : required_roles_of debate_with_environment_off <> [])
    by (cbv; discriminate).
  destruct (environment_that_is_false cli debate_with_environment_off
              (green_agent_of debate_with_environment_off) (VBool false)
              eq_refl eq_refl eq_refl eq_refl eq_refl eq_refl Hne eq_refl)
    as (_ & Hr & Hw).
  split; [exact Hr | now rewrite Hw].
Defined.

(* ===================================================================== *)
(** ** Sections the first and the third generator do not read *)
(* ===================================================================== *)

Lemma same_agents doc1 doc2 :
  lookup "green_agent" doc2 = lookup "green_agent" doc1 ->
  lookup "participants" doc2 = lookup "participants" doc1 ->
  green_agent_of doc2 = green_agent_of doc1
  /\ required_roles_of doc2 = required_roles_of doc1
  /\ shaped doc2 = shaped doc1
  /\ first_failure doc2 = first_failure doc1.
Proof.
  intros Hg Hp.
  assert (Eg : green_agent_of doc2 = green_agent_of doc1)
    by (unfold green_agent_of, dict_get; now rewrite Hg).
  assert (Er : required_roles_of doc2 = required_roles_of doc1)
    by (unfold required_roles_of, dict_get; now rewrite Hp).
  split; [exact Eg|]. split; [exact Er|]. split.
  - unfold shaped. now rewrite Hg, Hp.
  - unfold first_failure, has_key. now rewrite Hg, Eg, Er.
Qed.

(** X11.  [generate_docker_compose] and [generate_env_example] read the
    sections [green_agent] and [participants] and nothing else: two
    validated documents that agree on these two sections get the same
    orchestration file and the same environment template, and their
    rewritten scenarios differ in the passed-through sections only. *)
Theorem only_the_scenario_shows_other_sections (doc1 doc2 : dict) :
  shaped doc1 = true ->
  validated doc1 ->
  lookup "green_agent" doc2 = lookup "green_agent" doc1 ->
  lookup "participants" doc2 = lookup "participants" doc1 ->
  validated doc2
  /\ fst (generate_docker_compose (holding doc2))
     = fst (generate_docker_compose (holding doc1))
  /\ fst (generate_env_example (holding doc2))
     = fst (generate_env_example (holding doc1))
  /\ exists agents,
       fst (generate_runner_scenario (holding doc1))
       = Ok (join nl (agents ++ flat_map passed_section (other_sections doc1))%list)
       /\ fst (generate_runner_scenario (holding doc2))
          = Ok (join nl (agents ++ flat_map passed_section (other_sections doc2))%list).
Proof.
  intros Hs1 Hv1 Hg Hp.
  destruct (same_agents doc1 doc2 Hg Hp) as (Eg & Er & Es & Ef).
  pose proof (validated_complete _ Hs1 Hv1) as Hf1.
  assert (Hs2 : shaped doc2 = true) by now rewrite Es.
  assert (Hf2 : first_failure doc2 = None) by now rewrite Ef.
  split.
  { unfold validated. rewrite validate_config_spec by exact Hs2.
    cbn [config holding with_config]. now rewrite Hf2. }
  rewrite !generate_docker_compose_spec by assumption.
  destruct (generate_env_example_spec (holding doc1) Hs1 Hf1) as (w1 & E1 & _).
  destruct (generate_env_example_spec (holding doc2) Hs2 Hf2) as (w2 & E2 & _).
  rewrite E1, E2.
  rewrite !generate_runner_scenario_spec by assumption.
  cbn [fst config holding with_config].
  split; [|split].
  - unfold compose_file, green_service, runner_service, role_names.
    now rewrite Eg, Er.
  - unfold env_file, declared. now rewrite Eg, Er.
  - exists (green_section doc1
            ++ flat_map participant_entry (required_roles_of doc1))%list.
    assert (E : green_section doc2 = green_section doc1)
      by (unfold green_section; now rewrite Eg).
    unfold scenario_file. rewrite E, Er, !app_assoc. split; reflexivity.
Qed.

Lemma tournament_without_metadata_keeps_compose :
  fst (generate_docker_compose (holding (without "metadata" tournament)))
  = fst (generate_docker_compose (holding tournament)).
Proof.
  apply (only_the_scenario_shows_other_sections tournament
           (without "metadata" tournament));
    vm_compute; reflexivity.
Defined.

(* ===================================================================== *)
(** ** How the three texts end *)
(* ===================================================================== *)

Lemma closed_blank : closed [""].
Proof. now exists []. Qed.

Lemma closed_cons x ls : closed ls -> closed (x :: ls).
Proof. intros [body ->]. now exists (x :: body). Qed.

Lemma closed_app ls ls' : closed ls' -> closed (ls ++ ls')%list.
Proof. intros [body ->]. exists (ls ++ body)%list. now rewrite app_assoc. Qed.

Ltac closedness := repeat first [apply closed_blank | apply closed_cons].

Lemma closes_keeps {A} (m : M A) : closes m -> keeps m.
Proof. intros H w a w' _. apply H. Qed.

Lemma keeps_same {A} (m : M A) :
  (forall w, lines (snd (m w)) = lines w) -> keeps m.
Proof.
  intros H w a w' Hc E. specialize (H w). rewrite E in H. simpl in H.
  now rewrite H.
Qed.

Lemma closes_extend_lines ls : closed ls -> closes (extend_lines ls).
Proof.
  intros Hc w a w' E. injection E as _ <-. cbn [lines add_lines].
  now apply closed_app.
Qed.

Lemma closes_append_line : closes (append_line "").
Proof. apply closes_extend_lines, closed_blank. Qed.

Lemma closes_set_lines ls : closed ls -> closes (set_lines ls).
Proof. intros Hc w a w' E. injection E as _ <-. exact Hc. Qed.

Lemma keeps_bind {A B} (m : M A) (k : A -> M B) :
  keeps m -> (forall a, keeps (k a)) -> keeps (bind m k).
Proof.
  intros Hm Hk w b w' Hc E. unfold bind in E.
  destruct (m w) as [[a|c|e] w1] eqn:Em; try discriminate.
  exact (Hk a w1 b w' (Hm w a w1 Hc Em) E).
Qed.

Lemma closes_bind_last {A B} (m : M A) (k : A -> M B) :
  (forall a, closes (k a)) -> closes (bind m k).
Proof.
  intros Hk w b w' E. unfold bind in E.
  destruct (m w) as [[a|c|e] w1]; try discriminate. exact (Hk a w1 b w' E).
Qed.

Lemma closes_bind_first {A B} (m : M A) (k : A -> M B) :
  closes m -> (forall a, keeps (k a)) -> closes (bind m k).
Proof.
  intros Hm Hk w b w' E. unfold bind in E.
  destruct (m w) as [[a|c|e] w1] eqn:Em; try discriminate.
  exact (Hk a w1 b w' (Hm w a w1 Em) E).
Qed.

Lemma keeps_for_each {A} (xs : list A) body :
  (forall x, keeps (body x)) -> keeps (for_each xs body).
Proof.
  intros Hb. induction xs as [|x xs IH]; cbn [for_each].
  - apply keeps_same. reflexivity.
  - apply keeps_bind; auto.
Qed.

Lemma keeps_when b m : keeps m -> keeps (when b m).
Proof. destruct b; cbn [when]; [auto|]. intros _. now apply keeps_same. Qed.

Ltac keeping :=
  lazymatch goal with
  | |- keeps (bind _ _) =>
      first [ solve [apply keeps_bind; [keeping | intros ?; keeping]]
            | solve [apply closes_keeps; closing] ]
  | |- keeps (for_each _ _) => apply keeps_for_each; intros ?; keeping
  | |- keeps (when _ _) => apply keeps_when; keeping
  | |- keeps (extend_lines _) =>
      apply closes_keeps, closes_extend_lines; solve [closedness]
  | |- keeps (append_line _) => apply closes_keeps, closes_append_line
  | |- keeps (set_lines _) =>
      apply closes_keeps, closes_set_lines; solve [closedness]
  | |- keeps (copy_field _ _) => unfold copy_field; keeping
  | |- keeps (scenario_env_var _ _) => unfold scenario_env_var; keeping
  | |- keeps (compose_env_var _) => unfold compose_env_var; keeping
  | |- keeps (if ?b then _ else _) => destruct b; keeping
  | |- keeps (match ?v with _ => _ end) => destruct v; keeping
  | |- keeps (let _ := _ in _) => cbv zeta; keeping
  | |- keeps _ => apply keeps_same; reflexivity
  end
with closing :=
  lazymatch goal with
  | |- closes (bind _ _) =>
      first [ solve [apply closes_bind_last; intros ?; closing]
            | solve [apply closes_bind_first; [closing | intros ?; keeping]] ]
  | |- closes (extend_lines _) => apply closes_extend_lines; solve [closedness]
  | |- closes (append_line _) => apply closes_append_line
  | |- closes (set_lines _) => apply closes_set_lines; solve [closedness]
  | |- closes (if ?b then _ else _) => destruct b; closing
  | |- closes (match ?v with _ => _ end) => destruct v; closing
  | |- closes (let _ := _ in _) => cbv zeta; closing
  end.

Lemma ends_join :
  ends (bind get_lines (fun lines => ret (join nl lines))).
Proof. intros w text [body E] H. simpl in H. injection H as <-. exists body. now rewrite E. Qed.

Lemma ends_bind {A} (m : M A) (k : A -> M string) :
  keeps m -> (forall a, ends (k a)) -> ends (bind m k).
Proof.
  intros Hm Hk w text Hc H. unfold bind in H.
  destruct (m w) as [[a|c|e] w1] eqn:Em; try discriminate.
  exact (Hk a w1 text (Hm w a w1 Hc Em) H).
Qed.

Lemma finishes_bind {A} (m : M A) (k : A -> M string) :
  (forall a, finishes (k a)) -> finishes (bind m k).
Proof.
  intros Hk w text H. unfold bind in H.
  destruct (m w) as [[a|c|e] w1]; try discriminate. exact (Hk a w1 text H).
Qed.

Lemma finishes_from {A} (m : M A) (k : A -> M string) :
  closes m -> (forall a, ends (k a)) -> finishes (bind m k).
Proof.
  intros Hm Hk w text H. unfold bind in H.
  destruct (m w) as [[a|c|e] w1] eqn:Em; try discriminate.
  exact (Hk a w1 text (Hm w a w1 Em) H).
Qed.

Ltac ending :=
  lazymatch goal with
  | |- ends (bind get_lines _) => apply ends_join
  | |- ends (bind _ _) => apply ends_bind; [keeping | intros ?; ending]
  | |- ends (let _ := _ in _) => cbv zeta; ending
  end.

Ltac finishing :=
  lazymatch goal with
  | |- finishes (bind _ _) =>
      first [ solve [apply finishes_from; [closing | intros ?; ending]]
            | apply finishes_bind; intros ?; finishing ]
  | |- finishes (let _ := _ in _) => cbv zeta; finishing
  end.

Lemma finishes_generate_docker_compose : finishes generate_docker_compose.
Proof. unfold generate_docker_compose. finishing. Qed.

Lemma finishes_generate_env_example : finishes generate_env_example.
Proof. unfold generate_env_example. finishing. Qed.

Lemma finishes_generate_runner_scenario : finishes generate_runner_scenario.
Proof. unfold generate_runner_scenario. finishing. Qed.

Lemma append_empty (s : string) : s ++ "" = s.
Proof. induction s as [|c s IH]; [reflexivity|]. cbn. now rewrite IH. Qed.

Lemma append_assoc (s t u : string) : (s ++ t) ++ u = s ++ t ++ u.
Proof. induction s as [|c s IH]; [reflexivity|]. cbn. now rewrite IH. Qed.

Lemma join_closed body :
  body <> [] -> join nl (body ++ [""])%list = join nl body ++ nl.
Proof.
  induction body as [|x body IH]; intros Hne; [now destruct Hne|].
  destruct body as [|y body].
  - cbn [app join]. now rewrite append_empty.
  - change (join nl ((x :: y :: body) ++ [""])%list)
      with (x ++ nl ++ join nl ((y :: body) ++ [""])%list).
    rewrite IH by discriminate.
    change (join nl (x :: y :: body)) with (x ++ nl ++ join nl (y :: body)).
    now rewrite !append_assoc.
Qed.

Lemma join_starts x rest : x <> "" -> join nl (x :: rest) <> "".
Proof.
  intros Hx. destruct rest; cbn [join]; [exact Hx|].
  destruct x; [now destruct Hx | discriminate].
Qed.

(** A text that begins with a line that is not empty and whose last line
    is blank ends with a line feed. *)
Lemma ends_with_line_feed text x rest body :
  x <> "" ->
  text = join nl (x :: rest) ->
  text = join nl (body ++ [""])%list ->
  exists before, text = before ++ nl.
Proof.
  intros Hx E1 E2. destruct body as [|b body].
  - exfalso. apply (join_starts x rest Hx). rewrite <- E1, E2. reflexivity.
  - exists (join nl (b :: body)). rewrite E2. apply join_closed. discriminate.
Qed.

(** X12.  Whatever the document, each of the three texts, when its
    generator returns one, ends with a line feed: the last line the
    generator adds is always a blank one. *)
Theorem artifacts_end_with_a_line_feed (w : world) (text : string) :
  fst (generate_docker_compose w) = Ok text
  \/ fst (generate_env_example w) = Ok text
  \/ fst (generate_runner_scenario w) = Ok text ->
  exists before, text = before ++ nl.
Proof.
  intros [H|[H|H]].
  - destruct (opens_generate_docker_compose w text H) as [rest E1].
    destruct (finishes_generate_docker_compose w text H) as [body E2].
    eapply ends_with_line_feed; [| exact E1 | exact E2]. discriminate.
  - destruct (opens_generate_env_example w text H) as [rest E1].
    destruct (finishes_generate_env_example w text H) as [body E2].
    eapply ends_with_line_feed; [| exact E1 | exact E2]. discriminate.
  - destruct (opens_generate_runner_scenario w text H) as [rest E1].
    destruct (finishes_generate_runner_scenario w text H) as [body E2].
    eapply ends_with_line_feed; [| exact E1 | exact E2]. discriminate.
Qed.

Lemma scenario_of_tournament_ends_with_a_line_feed :
  exists text before,
    fst (generate_runner_scenario (holding tournament)) = Ok text
    /\ text = before ++ nl.
Proof.
  assert (H : fst (generate_runner_scenario (holding tournament))
              = Ok (join nl (scenario_file tournament)))
    by (vm_compute; reflexivity).
  exists (join nl (scenario_file tournament)).
  destruct (artifacts_end_with_a_line_feed (holding tournament) _
              (or_intror (or_intror H))) as [before E].
  exists before. split; [exact H | exact E].
Defined.

